(** * Temporal cross-validation engine of [analysis/ph_analysis.py]

    A shallow embedding of the week-by-week splitter, the grid search, the
    cross-validation loop, the best-model selection, the forward simulation
    and the coefficient labelling, together with the properties the design
    document states about them.

    Conventions.
    - A pandas [DataFrame] is an ordered list of column names and a list of
      rows; a row maps a column name to a cell.
    - A [Timestamp] cell is represented by its ISO week number, the only
      attribute of a date the module ever reads ([.week], [.dt.week]).
    - An integer cell is an int64 and a float cell an IEEE binary64 number
      ([SpecFloat] of the Standard Library at precision 53). The arithmetic
      the module performs itself, the column sum of [simulate] and the
      residuals, squares, sums and means of [evaluate_model], is machine
      arithmetic: integers wrap modulo [2 ^ 64], doubles round to nearest.
    - The numbers handed to scikit-learn and the metrics kept in the
      evaluation table are finite doubles; they are represented by the
      rationals they denote ([Q]), and the group means of the selector are
      means of these rationals.
    - A Python exception is a value of [exn]; a computation that may raise
      returns a [result]. *)

From Stdlib Require Import ZArith QArith Qabs Qminmax Lia SpecFloat.
From stdpp Require Import base tactics option list strings gmap pretty sorting.

Local Open Scope Z_scope.

(** ** Machine numbers *)

(** Signed 64-bit integers: the result of an operation is reduced modulo
    [2 ^ 64] into the range from [-2 ^ 63] to [2 ^ 63 - 1]. *)
Module Int64.

Definition wrap (z : Z) : Z := (z + 2 ^ 63) mod 2 ^ 64 - 2 ^ 63.

Definition in_range (z : Z) : Prop := - 2 ^ 63 ≤ z < 2 ^ 63.

End Int64.

(** IEEE binary64 numbers with rounding to nearest, ties to even. *)
Module Float64.

Abbreviation float64 := spec_float.

Definition prec : Z := 53.
Definition emax : Z := 1024.

Definition add : float64 → float64 → float64 := SFadd prec emax.
Definition sub : float64 → float64 → float64 := SFsub prec emax.
Definition mul : float64 → float64 → float64 := SFmul prec emax.
Definition div : float64 → float64 → float64 := SFdiv prec emax.
Definition abs : float64 → float64 := SFabs.
Definition eqb : float64 → float64 → bool := SFeqb.

Definition zero : float64 := S754_zero false.

(** The conversion of an integer to a double. *)
Definition of_Z (n : Z) : float64 := binary_normalize prec emax n 0 false.

Definition is_finite (x : float64) : bool :=
  match x with
  | S754_zero _ | S754_finite _ _ _ => true
  | S754_infinity _ | S754_nan => false
  end.

(** The rational a finite double denotes, in lowest terms. *)
Definition to_Q (x : float64) : option Q :=
  match x with
  | S754_zero _ => Some 0%Q
  | S754_finite s m e =>
      let n := if s then Zneg m else Zpos m in
      Some (Qred match e with
                 | Zneg k => Qmake n (2 ^ k)%positive
                 | _ => inject_Z (n * 2 ^ e)
                 end)
  | S754_infinity _ | S754_nan => None
  end.

(** The finite double nearest to a rational: the correctly rounded quotient
    of its numerator by its denominator, and the largest finite double
    beyond the range. On the rational of a finite double this is that
    double. *)
Definition of_Q (q : Q) : float64 :=
  let den := S754_finite false (Qden q) 0 in
  let x := match Qnum q with
           | Z0 => zero
           | Zpos n => div (S754_finite false n 0) den
           | Zneg n => div (S754_finite true n 0) den
           end in
  match x with
  | S754_infinity s => S754_finite s (2 ^ 53 - 1)%positive (emax - prec)
  | S754_nan => zero
  | _ => x
  end.

(** A double read as a rational where only finite values are kept: an
    infinity is read as the largest finite double of its sign and NaN as
    zero. *)
Definition rational (x : float64) : Q :=
  match x with
  | S754_infinity s =>
      inject_Z ((if s then -1 else 1) * (2 ^ 53 - 1) * 2 ^ (emax - prec))
  | _ => default 0%Q (to_Q x)
  end.

(** Summation from left to right, starting from zero. *)
Definition sum_left (l : list float64) : float64 := foldl add zero l.

End Float64.

Import Float64.

(** ** Python values, exceptions and the error monad *)

Module Py.

Inductive exn : Type :=
  | KeyError (key : string)
  | IndexError
  | AttributeError
  | TypeError
  | ValueError
  | ConfigurationError.   (* named by the design document; never raised here *)

Inductive result (A : Type) : Type :=
  | Ok (a : A)
  | Err (e : exn).
Arguments Ok {A} a.
Arguments Err {A} e.

Definition bind {A B} (m : result A) (k : A → result B) : result B :=
  match m with
  | Ok a => k a
  | Err e => Err e
  end.

Definition raises {A} (m : result A) : Prop := ∃ e, m = Err e.

(** Two outcomes agree up to [R]: the same exception, or two results
    related by [R]. *)
Definition related {A} (R : A → A → Prop) (m1 m2 : result A) : Prop :=
  match m1, m2 with
  | Ok a1, Ok a2 => R a1 a2
  | Err e1, Err e2 => e1 = e2
  | _, _ => False
  end.

(** A cell of a data frame. *)
Inductive value : Type :=
  | Timestamp (week : Z)
  | Int (n : Z)
  | Float (x : float64).

(** [x.week] *)
Definition week_attr (v : value) : result Z :=
  match v with
  | Timestamp w => Ok w
  | _ => Err AttributeError
  end.

(** [a + b] on the cells of two numeric columns: two int64 cells are added
    modulo [2 ^ 64]; as soon as one cell is a double the other is converted
    and the sum is the IEEE sum. *)
Definition add (a b : value) : result value :=
  match a, b with
  | Int m, Int n => Ok (Int (Int64.wrap (m + n)))
  | Int m, Float y => Ok (Float (Float64.add (Float64.of_Z m) y))
  | Float x, Int n => Ok (Float (Float64.add x (Float64.of_Z n)))
  | Float x, Float y => Ok (Float (Float64.add x y))
  | _, _ => Err TypeError
  end.

(** A cell that holds a number. *)
Definition is_number (v : value) : Prop :=
  match v with
  | Int _ | Float _ => True
  | Timestamp _ => False
  end.

(** [range(lo, hi)] *)
Definition range (lo hi : Z) : list Z :=
  (λ i : nat, lo + Z.of_nat i) <$> seq 0 (Z.to_nat (hi - lo)).

(** [[f(x) for x in l]] where [f] may raise: the first exception wins. *)
Fixpoint traverse {A B} (f : A → result B) (l : list A) : result (list B) :=
  match l with
  | [] => Ok []
  | x :: l' =>
      match f x with
      | Err e => Err e
      | Ok y =>
          match traverse f l' with
          | Err e => Err e
          | Ok ys => Ok (y :: ys)
          end
      end
  end.

End Py.

Import Py.

Global Instance result_ret : MRet result := @Ok.
Global Instance result_bind : MBind result := λ A B k m, Py.bind m k.
Global Instance result_fmap : FMap result :=
  λ A B f m, Py.bind m (λ a, Ok (f a)).

(** ** Data frames *)

Module Frame.

Abbreviation row := (gmap string value).

Record DataFrame : Type := mkDataFrame {
  columns : list string;
  rows : list row
}.

(** [df[c]] as a list of cells *)
Definition getitem (df : DataFrame) (c : string) : result (list value) :=
  if decide (c ∈ columns df)
  then traverse (λ r : row, match r !! c with
                           | Some v => Ok v
                           | None => Err (KeyError c)
                           end) (rows df)
  else Err (KeyError c).

(** [df[c].dt.week] *)
Definition dt_week (df : DataFrame) (c : string) : result (list Z) :=
  cells ← getitem df c; traverse week_attr cells.

(** [s.iloc[0]] and [s.iloc[-1]] *)
Definition iloc_first {A} (s : list A) : result A :=
  match s with
  | [] => Err IndexError
  | x :: _ => Ok x
  end.

Definition iloc_last {A} (s : list A) : result A :=
  match last s with
  | None => Err IndexError
  | Some x => Ok x
  end.

(** [df.loc[mask]] for a boolean mask aligned with the rows *)
Fixpoint select {A} (mask : list bool) (l : list A) : list A :=
  match mask, l with
  | b :: mask', x :: l' => if b then x :: select mask' l' else select mask' l'
  | _, _ => []
  end.

Definition loc_mask (df : DataFrame) (mask : list bool) : DataFrame :=
  mkDataFrame (columns df) (select mask (rows df)).

(** The columns of a frame after an assignment to the column [c]: an
    absent column is appended. *)
Definition with_column (c : string) (cols : list string) : list string :=
  if decide (c ∈ cols) then cols else cols ++ [c].

(** [df[c] = v] with a scalar [v]: every row receives [v]. *)
Definition setitem_scalar (df : DataFrame) (c : string) (v : value) : DataFrame :=
  mkDataFrame (with_column c (columns df)) (insert c v <$> rows df).

(** [df[c] = s] for a series [s] aligned with the rows *)
Definition setitem_series (df : DataFrame) (c : string) (s : list value) : DataFrame :=
  mkDataFrame (with_column c (columns df))
              (zip_with (λ (r : row) v, <[c:=v]> r) (rows df) s).

End Frame.

Import Frame.

(** ** Temporal splitter: [time_cv_split] *)

Module Splitter.

(** One element of [train_cv_splits]: the dictionary with the keys
    ['test_week'], ['train'] and ['test']. *)
Record fold : Type := mkFold {
  test_week : Z;
  cv_train : DataFrame;
  cv_test : DataFrame
}.

Definition as_of_date : string := "as_of_date".

(** Body of the loop of [time_cv_split] for one [week]. *)
Definition split_at (train : DataFrame) (earliest week : Z) : result fold :=
  weeks ← dt_week train as_of_date;
  mret (mkFold (week + 1)
          (loc_mask train
             ((λ w, bool_decide (w ≤ week) && negb (bool_decide (w = earliest)))
                <$> weeks))
          (loc_mask train ((λ w, bool_decide (w = week + 1)) <$> weeks))).

Definition time_cv_split (train : DataFrame) : result (list fold) :=
  dates ← getitem train as_of_date;
  first ← iloc_first dates;
  earliest ← week_attr first;
  last ← iloc_last dates;
  latest ← week_attr last;
  traverse (split_at train earliest) (range (earliest + 1) latest).

End Splitter.

(** ** More of pandas: column selection, dropping, merging, conversion *)

Module Pandas.

(** ['state' in col]: [p] occurs in [s]. *)
Fixpoint starts_with (p s : string) : bool :=
  match p, s with
  | EmptyString, _ => true
  | String a p', String b s' => bool_decide (a = b) && starts_with p' s'
  | String _ _, EmptyString => false
  end.

Fixpoint contains (p s : string) : bool :=
  starts_with p s ||
  match s with
  | EmptyString => false
  | String _ s' => contains p s'
  end.

(** [df.loc[:, cols]] and [df[cols]]: the named columns, in the order asked
    for; a name that is not a column is a [KeyError]. *)
Definition loc_columns (df : DataFrame) (cols : list string) : result DataFrame :=
  match list_find (λ c, c ∉ columns df) cols with
  | Some (_, c) => Err (KeyError c)
  | None =>
      Ok (mkDataFrame cols
            ((λ r : row, filter (λ kv, kv.1 ∈ cols) r) <$> rows df))
  end.

(** [df.drop(columns=cols)] *)
Definition drop_columns (df : DataFrame) (cols : list string) : result DataFrame :=
  match list_find (λ c, c ∉ columns df) cols with
  | Some (_, c) => Err (KeyError c)
  | None =>
      Ok (mkDataFrame (filter (λ c, c ∉ cols) (columns df))
            ((λ r : row, filter (λ kv, kv.1 ∉ cols) r) <$> rows df))
  end.

(** [left.merge(right, left_index=True, right_index=True)] for two frames
    that carry the same index and have no column in common: the rows are
    joined position by position. *)
Definition merge_index (left right : DataFrame) : DataFrame :=
  mkDataFrame (columns left ++ columns right)
              (zip_with (λ l r : row, l ∪ r) (rows left) (rows right)).

(** A cell as a number handed to scikit-learn, whose input validation
    rejects an infinity or a NaN with a [ValueError]. *)
Definition to_number (v : value) : result Q :=
  match v with
  | Int n => Ok (inject_Z n)
  | Float x => from_option Ok (Err ValueError) (Float64.to_Q x)
  | Timestamp _ => Err TypeError
  end.

End Pandas.

Import Pandas.

(** ** Metric evaluator: [evaluate_model] *)

Module Metrics.

(** The exact sum and mean of a list of rationals. *)
Definition sum (l : list Q) : Q := foldr Qplus 0%Q l.

Definition mean (l : list Q) : Q :=
  (sum l / inject_Z (Z.of_nat (length l)))%Q.

(** A one-dimensional array or series of numbers; its elements are all
    int64 or all float64. *)
Inductive ndarray : Type :=
  | Int64Array (l : list Z)
  | Float64Array (l : list float64).

(** A number returned by a reduction. *)
Inductive scalar : Type :=
  | NpInt64 (n : Z)
  | NpFloat64 (x : float64).

Definition size (a : ndarray) : nat :=
  match a with
  | Int64Array l => length l
  | Float64Array l => length l
  end.

(** [a.astype(float)] *)
Definition astype_float (a : ndarray) : list float64 :=
  match a with
  | Int64Array l => Float64.of_Z <$> l
  | Float64Array l => l
  end.

Definition all_finite (a : ndarray) : bool :=
  match a with
  | Int64Array _ => true
  | Float64Array l => forallb Float64.is_finite l
  end.

(** [a - b]: int64 when both arrays are, float64 otherwise. *)
Definition subtract (a b : ndarray) : ndarray :=
  match a, b with
  | Int64Array x, Int64Array y =>
      Int64Array (zip_with (λ m n, Int64.wrap (m - n)) x y)
  | _, _ =>
      Float64Array (zip_with Float64.sub (astype_float a) (astype_float b))
  end.

(** [a ** 2] *)
Definition square (a : ndarray) : ndarray :=
  match a with
  | Int64Array x => Int64Array ((λ m, Int64.wrap (m * m)) <$> x)
  | Float64Array x => Float64Array ((λ v, Float64.mul v v) <$> x)
  end.

(** [np.abs(a)] *)
Definition absolute (a : ndarray) : ndarray :=
  match a with
  | Int64Array x => Int64Array ((λ m, Int64.wrap (Z.abs m)) <$> x)
  | Float64Array x => Float64Array (Float64.abs <$> x)
  end.

(** The dictionary [eval_metrics] returned by [evaluate_model]. *)
Record eval_metrics : Type := mkMetrics {
  mse : float64;
  mae : float64;
  rss : scalar
}.

Section with_reduction.
(** [np.add.reduce] on an array of doubles: the sum of its elements, added
    in the order numpy adds them. *)
Variable add_reduce : list float64 → float64.

(** [np.average(a)]: an int64 array is summed as doubles. *)
Definition average (a : ndarray) : float64 :=
  Float64.div (add_reduce (astype_float a))
              (Float64.of_Z (Z.of_nat (size a))).

(** [a.sum()]: an int64 array is summed in int64. *)
Definition array_sum (a : ndarray) : scalar :=
  match a with
  | Int64Array x => NpInt64 (Int64.wrap (foldr Z.add 0 x))
  | Float64Array x => NpFloat64 (add_reduce x)
  end.

(** [sklearn.metrics] validates its arguments first: sequences of different
    lengths, empty sequences and sequences that hold an infinity or a NaN
    are rejected with a [ValueError]. *)
Definition check_targets (y_true y_pred : ndarray) : result unit :=
  if decide (size y_true = size y_pred)
  then if decide (size y_true = 0%nat) then Err ValueError
       else if all_finite y_true && all_finite y_pred then Ok ()
       else Err ValueError
  else Err ValueError.

(** [metrics.mean_squared_error]: the average of [(y_true - y_pred) ** 2]. *)
Definition mean_squared_error (y_true y_pred : ndarray) : result float64 :=
  _ ← check_targets y_true y_pred;
  mret (average (square (subtract y_true y_pred))).

(** [metrics.mean_absolute_error]: the average of [|y_pred - y_true|]. *)
Definition mean_absolute_error (y_true y_pred : ndarray) : result float64 :=
  _ ← check_targets y_true y_pred;
  mret (average (absolute (subtract y_pred y_true))).

Definition evaluate_model (y_test predictions : ndarray) : result eval_metrics :=
  mse ← mean_squared_error y_test predictions;
  mae ← mean_absolute_error y_test predictions;
  let rss := array_sum (square (subtract predictions y_test)) in
  mret (mkMetrics mse mae rss).

End with_reduction.

(** Two arrays hold the same numbers: they are the same array, or one of
    them is an array of doubles and the other, read as doubles, has the
    same elements. *)
Definition same_numbers (p y : ndarray) : Prop :=
  p = y ∨ (astype_float p = astype_float y ∧
           ∃ l, (p = Float64Array l ∨ y = Float64Array l)).

(** The numbers of the model as an array of doubles, and a metric as the
    rational kept in the records of [model_perf]. *)
Definition as_array (l : list Q) : ndarray := Float64Array (Float64.of_Q <$> l).

Definition scalar_rational (x : scalar) : Q :=
  match x with
  | NpInt64 n => inject_Z n
  | NpFloat64 x => Float64.rational x
  end.

End Metrics.

(** ** Feature importance extractor: the coefficient labels *)

Module Importance.

(** ['{}^{}'.format(feat, deg)] *)
Definition power_label (feat : string) (deg : Z) : string :=
  feat +:+ "^" +:+ pretty deg.

(** Truth value of the optional argument [degree]: [None] and [0] are
    falsy. *)
Definition truthy (degree : option Z) : bool :=
  match degree with
  | Some d => negb (bool_decide (d = 0))
  | None => false
  end.

(** The list [feature_list] built at the start of [get_feature_importance]:
    the bias label when [degree] is truthy, then one [extend] per power. *)
Definition feature_list (features : list string) (degree : option Z) : list string :=
  let '(feature_list, degree) :=
    if truthy degree then (["1"], default 1 degree) else ([], 1) in
  foldl (λ feature_list deg,
           feature_list ++ ((λ feat, power_label feat deg) <$> features))
        feature_list (Py.range 1 (degree + 1)).

End Importance.

(** ** The external collaborators: scikit-learn objects, the normalizer *)

Module Sklearn.

(** The value of a hyperparameter. *)
Inductive hyper : Type :=
  | HNone
  | HBool (b : bool)
  | HInt (n : Z)
  | HFloat (x : Q).

Global Instance Q_eq_dec : EqDecision Q.
Proof. solve_decision. Defined.

Global Instance hyper_eq_dec : EqDecision hyper.
Proof. solve_decision. Defined.

(** A keyword dictionary such as one entry of [GRID], in insertion order. *)
Abbreviation kwargs := (list (string * hyper)).

(** A model instance: its class and its current parameters. *)
Record estimator : Type := mkEstimator {
  cls : string;
  params : gmap string hyper
}.

(** [model.set_params] called with the entries of [param] as keywords: the
    named parameters are overwritten, the others keep the value they had. *)
Definition set_params (model : estimator) (param : kwargs) : estimator :=
  mkEstimator (cls model)
    (foldl (λ ps kv, <[kv.1 := kv.2]> ps) (params model) param).

(** A two-dimensional array of numbers with its column count. *)
Record Matrix : Type := mkMatrix {
  n_cols : nat;
  data : list (list Q)
}.

(** [df.values] for a frame of numbers *)
Definition values (df : DataFrame) : result Matrix :=
  cells ← traverse (λ r : row,
             traverse (λ c, match r !! c with
                            | Some v => to_number v
                            | None => Err (KeyError c)
                            end) (columns df)) (rows df);
  mret (mkMatrix (length (columns df)) cells).

(** A [PolynomialFeatures] object. Fitting records the number of input
    columns; [fitted_on] keeps, in order, the arrays the object has been
    fitted on. *)
Record PolynomialFeatures : Type := mkPoly {
  poly_degree : Z;
  n_input_features : option nat;
  fitted_on : list Matrix
}.

Definition new_poly (degree : Z) : PolynomialFeatures := mkPoly degree None [].

Definition poly_fit (poly : PolynomialFeatures) (X : Matrix)
    : result PolynomialFeatures :=
  match data X with
  | [] => Err ValueError
  | _ :: _ => Ok (mkPoly (poly_degree poly) (Some (n_cols X)) (fitted_on poly ++ [X]))
  end.

(** What the module relies on without containing it. *)
Class Collaborators : Type := {
  (** the state of a fitted normalizer *)
  scaler : Type;
  (** [clean_data.normalize(df, scaler)] *)
  normalize : DataFrame → option scaler → result (DataFrame * scaler);
  (** the expansion of an array to the given degree *)
  expand : Z → Matrix → Matrix;
  (** [model.fit(X_train, y_train)] then [model.predict(X_test)] for a
      configured instance *)
  fit_predict : estimator → Matrix → list Q → Matrix → result (list Q);
  (** [str(model)] *)
  render : estimator → string;
  (** [str(param)] *)
  str_dict : kwargs → string;
  (** [np.add.reduce] on an array of doubles *)
  add_reduce : list float64 → float64
}.

Section with_collaborators.
Context `{Collaborators}.

(** [poly.transform(X)] *)
Definition poly_transform (poly : PolynomialFeatures) (X : Matrix)
    : result Matrix :=
  match n_input_features poly with
  | None => Err AttributeError
  | Some n =>
      if decide (n_cols X = n) then Ok (expand (poly_degree poly) X)
      else Err ValueError
  end.

(** [poly.fit_transform(X)]: fit on [X], then transform [X]. *)
Definition fit_transform (poly : PolynomialFeatures) (X : Matrix)
    : result (PolynomialFeatures * Matrix) :=
  poly ← poly_fit poly X;
  out ← poly_transform poly X;
  mret (poly, out).

End with_collaborators.

End Sklearn.

Import Sklearn.

(** ** The module's constants *)

Module Config.

Definition FEATURES : list (string * list string) :=
  [ ("naive", ["lag_prisoner_cases"; "new_prisoner_cases"]);
    ("population", ["pop_2020"; "pop_2018"; "capacity"; "pct_occup";
                    "lag_prisoner_cases"; "new_prisoner_cases"]);
    ("policy", ["no_visits"; "lawyer_access"; "phone_access";
                "video_access"; "no_volunteers"; "limiting_movement";
                "screening"; "healthcare_support"; "lag_prisoner_cases";
                "new_prisoner_cases"]);
    ("total", ["pop_2020"; "pop_2018"; "capacity"; "pct_occup";
               "no_visits"; "lawyer_access"; "phone_access";
               "video_access"; "no_volunteers"; "limiting_movement";
               "screening"; "healthcare_support"; "lag_prisoner_cases";
               "new_prisoner_cases"]) ].

Definition TARGET : string := "total_prisoner_cases".

Definition DEGREES : list Z := [1; 2; 3].

(** The values [(0.001, 0.01, 0.1, 1, 10, 100, 1000, 10000)] of [alpha]. *)
Definition alphas : list hyper :=
  [ HFloat (1 # 1000); HFloat (1 # 100); HFloat (1 # 10);
    HInt 1; HInt 10; HInt 100; HInt 1000; HInt 10000 ].

Definition alpha_grid : list kwargs :=
  (λ x, [("alpha", x); ("random_state", HInt 0)]) <$> alphas.

Definition GRID : list (string * list kwargs) :=
  [ ("LinearRegression",
       [ [("normalize", HBool false); ("fit_intercept", HBool true)] ]);
    ("Lasso", alpha_grid);
    ("Ridge", alpha_grid);
    ("ElasticNet", alpha_grid) ].

(** [MODELS]: one freshly constructed instance per family; [defaults] gives
    the parameters a class starts with. *)
Definition MODELS (defaults : string → gmap string hyper)
    : list (string * estimator) :=
  (λ name, (name, mkEstimator name (defaults name)))
    <$> ["LinearRegression"; "Lasso"; "Ridge"; "ElasticNet"].

(** [d[k]] on a dictionary kept in insertion order *)
Definition dict_get {V} (d : list (string * V)) (k : string) : result V :=
  match list_find (λ kv, kv.1 = k) d with
  | Some (_, kv) => Ok kv.2
  | None => Err (KeyError k)
  end.

(** [d[k] = v]: an existing key keeps its place, a new key goes last. *)
Fixpoint dict_set {V} (d : list (string * V)) (k : string) (v : V)
    : list (string * V) :=
  match d with
  | [] => [(k, v)]
  | (k', v') :: d' =>
      if decide (k' = k) then (k, v) :: d' else (k', v') :: dict_set d' k v
  end.

End Config.

Import Config.

(** ** Training and grid search *)

Module Grid.

(** The instances of the registry are shared and mutated in place; the
    clock is read twice per trained model. A session holds the current
    state of both. *)
Record session : Type := mkSession {
  registry : list (string * estimator);
  clock : nat
}.

(** An argument that is either a data frame or an array. *)
Inductive design : Type :=
  | AsFrame (df : DataFrame)
  | AsArray (m : Matrix).

(** One value of the dictionary [model_perf]. *)
Record perf : Type := mkPerf {
  perf_mse : Q;
  perf_mae : Q;
  perf_rss : Q;
  perf_run_time : Q;
  perf_parameters : kwargs;
  perf_model_type : string
}.

(** One row of the frame returned by [run_grid_search]. *)
Record grid_row : Type := mkGridRow {
  index : string;
  measures : perf;
  row_test_week : Z;
  row_degree : Z
}.

(** A record, an entry of [model_perf] and a row with the measured duration
    blanked out. *)
Definition strip_perf (p : perf) : perf :=
  mkPerf (perf_mse p) (perf_mae p) (perf_rss p) 0 (perf_parameters p)
         (perf_model_type p).

Definition strip_entry (kv : string * perf) : string * perf :=
  (kv.1, strip_perf kv.2).

Definition strip_row (r : grid_row) : grid_row :=
  mkGridRow (index r) (strip_perf (measures r)) (row_test_week r) (row_degree r).

(** The class of an instance and its [alpha], enough to tell the configured
    instances of the module's grid apart. *)
Definition class_and_alpha (model : estimator) : string * option hyper :=
  (cls model, params model !! "alpha").

(** The successive configurations of one shared instance when the entries
    of its grid are applied one after the other. *)
Fixpoint instances (model : estimator) (entries : list kwargs) : list estimator :=
  match entries with
  | [] => []
  | param :: entries' =>
      let model := set_params model param in
      model :: instances model entries'
  end.

(** The (family, hyperparameter) combinations of one family, each with the
    instance as it is configured for it. *)
Definition family_combinations (models : list (string * estimator))
    (grid : list (string * list kwargs)) (model_key : string)
    : list (string * kwargs * estimator) :=
  match dict_get models model_key, dict_get grid model_key with
  | Ok model, Ok entries =>
      zip ((λ param, (model_key, param)) <$> entries) (instances model entries)
  | _, _ => []
  end.

(** All combinations, family by family in the order of the registry. *)
Definition combinations (models : list (string * estimator))
    (grid : list (string * list kwargs)) : list (string * kwargs * estimator) :=
  model_key ← models.*1; family_combinations models grid model_key.

Section with_collaborators.
Context `{Collaborators}.
(** [now n] is the [n]-th reading of [datetime.datetime.now()]. *)
Variable now : nat → Q.

Definition as_matrix (X : design) : result Matrix :=
  match X with
  | AsFrame df => values df
  | AsArray m => Ok m
  end.

Definition drop_date (X : design) : result design :=
  match X with
  | AsFrame df => AsFrame <$> drop_columns df ["as_of_date"]
  | AsArray _ => Err AttributeError
  end.

(** [model_type] is a reference to an instance of the registry; it is
    represented by the key of that instance. *)
Definition fit_and_predict (X_train : design) (y_train : list value)
    (X_test : design) (model_type : string) (param : kwargs)
    (s : session) : result (list Q * session) :=
  '(X_train, X_test) ←
    match X_train with
    | AsFrame df =>
        if decide ("as_of_date" ∈ columns df)
        then X_train' ← drop_date X_train;
             X_test' ← drop_date X_test;
             mret (X_train', X_test')
        else mret (X_train, X_test)
    | AsArray _ => mret (X_train, X_test)
    end;
  model ← dict_get (registry s) model_type;
  let model := set_params model param in
  let s := mkSession (dict_set (registry s) model_type model) (clock s) in
  X ← as_matrix X_train;
  y ← traverse to_number y_train;
  X' ← as_matrix X_test;
  predictions ← fit_predict model X y X';
  mret (predictions, s).

(** The predictions of a scikit-learn model are doubles, so the metrics are
    computed on arrays of doubles whatever the dtype of [y_test]. *)
Definition build_classifier (X_train : design) (y_train : list value)
    (X_test : design) (y_test : list value) (model_type : string)
    (param : kwargs) (model_perf : list (string * perf)) (s : session)
    : result (list (string * perf) * list Q * session) :=
  let start := now (clock s) in
  let s := mkSession (registry s) (S (clock s)) in
  '(predictions, s) ← fit_and_predict X_train y_train X_test model_type param s;
  y ← traverse to_number y_test;
  eval_metrics ←
    Metrics.evaluate_model add_reduce (Metrics.as_array y)
      (Metrics.as_array predictions);
  let stop := now (clock s) in
  let s := mkSession (registry s) (S (clock s)) in
  let elapsed := (stop - start)%Q in
  model ← dict_get (registry s) model_type;
  let key := render model in
  let entry := mkPerf (Float64.rational (Metrics.mse eval_metrics))
                      (Float64.rational (Metrics.mae eval_metrics))
                      (Metrics.scalar_rational (Metrics.rss eval_metrics))
                      elapsed param key in
  mret (dict_set model_perf key entry, predictions, s).

(** The inner loop of [run_grid_search] over the entries of one family. *)
Fixpoint grid_loop (X_train : design) (y_train : list value)
    (X_test : design) (y_test : list value) (model_type : string)
    (entries : list kwargs) (model_perf : list (string * perf))
    (s : session) : result (list (string * perf) * session) :=
  match entries with
  | [] => Ok (model_perf, s)
  | param :: entries' =>
      '(model_perf, _, s) ←
        build_classifier X_train y_train X_test y_test model_type param
          model_perf s;
      grid_loop X_train y_train X_test y_test model_type entries' model_perf s
  end.

(** The outer loop of [run_grid_search] over the keys of [models]. *)
Fixpoint models_loop (X_train : design) (y_train : list value)
    (X_test : design) (y_test : list value) (keys : list string)
    (grid : list (string * list kwargs)) (model_perf : list (string * perf))
    (s : session) : result (list (string * perf) * session) :=
  match keys with
  | [] => Ok (model_perf, s)
  | model_key :: keys' =>
      _ ← dict_get (registry s) model_key;
      entries ← dict_get grid model_key;
      '(model_perf, s) ←
        grid_loop X_train y_train X_test y_test model_key entries model_perf s;
      models_loop X_train y_train X_test y_test keys' grid model_perf s
  end.

(** [models] is the registry held by the session. The column [degree] is
    written as text and read back as an integer by the caller; the row
    keeps the integer. *)
Definition run_grid_search (X_train : design) (y_train : list value)
    (X_test : design) (y_test : list value) (test_week degree : Z)
    (grid : list (string * list kwargs)) (s : session)
    : result (list grid_row * session) :=
  '(model_perf, s) ←
    models_loop X_train y_train X_test y_test (fst <$> registry s) grid [] s;
  let model_compare : list grid_row :=
    (λ kv, mkGridRow kv.1 kv.2 test_week degree) <$> model_perf in
  mret (model_compare, s).

(** What links an entry of [model_perf] to the combination it records. *)
Definition records (kv : string * perf) (combo : string * kwargs * estimator)
    : Prop :=
  kv.1 = render combo.2 ∧
  perf_parameters kv.2 = combo.1.2 ∧
  perf_model_type kv.2 = render combo.2.

End with_collaborators.

End Grid.

(** ** Feature assembly and forward simulation *)

Module Prep.
Import Grid.

Definition is_state_column (col : string) : bool := contains "state" col.

(** Normalize the population block on [train], apply the fitted scaler to
    [test], and put the normalized columns back. These are the first lines
    of both [normalize_prep_eval_data] and the fold loop of
    [cross_validate]. *)
Definition normalize_block `{Collaborators} (train test : DataFrame)
    : result (DataFrame * DataFrame) :=
  norm_features ← dict_get FEATURES "population";
  train_block ← loc_columns train norm_features;
  '(train_norm, scaler) ← normalize train_block None;
  test_block ← loc_columns test norm_features;
  '(test_norm, _) ← normalize test_block (Some scaler);
  train ← drop_columns train norm_features;
  let train := merge_index train train_norm in
  test ← drop_columns test norm_features;
  let test := merge_index test test_norm in
  mret (train, test).

(** [df[df['as_of_date'].dt.week != earliest]] with [earliest] the week of
    the first row *)
Definition drop_first_week (df : DataFrame) : result DataFrame :=
  dates ← getitem df "as_of_date";
  first ← iloc_first dates;
  earliest ← week_attr first;
  weeks ← dt_week df "as_of_date";
  mret (loc_mask df ((λ w, negb (bool_decide (w = earliest))) <$> weeks)).

Definition normalize_prep_eval_data `{Collaborators} (train test : DataFrame)
    (feat_type : string) (include_date : bool)
    : result (DataFrame * list value * DataFrame * list value) :=
  '(train, test) ← normalize_block train test;
  train ← drop_first_week train;
  let states := filter (λ col, is_state_column col = true) (columns train) in
  features ← dict_get FEATURES feat_type;
  let feature_set := features ++ states in
  let feature_set :=
    if include_date then feature_set ++ ["as_of_date"] else feature_set in
  X_train ← loc_columns train feature_set;
  y_train ← getitem train TARGET;
  X_test ← loc_columns test feature_set;
  y_test ← getitem test TARGET;
  mret (X_train, y_train, X_test, y_test).

(** The synthetic next-week rows built by [simulate] before any model is
    involved: drop the first week, keep the latest week, advance the date,
    shift the totals, then apply the overrides of [feat_dict] in order. *)
Definition simulate_test (dataset : DataFrame) (feat_dict : list (string * value))
    : result (DataFrame * DataFrame) :=
  dataset ← drop_first_week dataset;
  dates ← getitem dataset "as_of_date";
  last ← iloc_last dates;
  latest_week ← week_attr last;
  weeks ← dt_week dataset "as_of_date";
  let test := loc_mask dataset ((λ w, bool_decide (w = latest_week)) <$> weeks) in
  dates ← getitem test "as_of_date";
  next ← traverse (λ x, w ← week_attr x; mret (Int (w + 1))) dates;
  let test := setitem_series test "as_of_date" next in
  total ← getitem test "total_prisoner_cases";
  let test := setitem_series test "lag_prisoner_cases" total in
  total ← getitem test "total_prisoner_cases";
  new ← getitem test "new_prisoner_cases";
  sums ← traverse (λ p, Py.add p.1 p.2) (zip total new);
  let test := setitem_series test "total_prisoner_cases" sums in
  let test := foldl (λ test kv, setitem_scalar test kv.1 kv.2) test feat_dict in
  mret (dataset, test).

(** One entry of the dictionary returned by [run_temporal_cv]. *)
Record winner : Type := mkWinner {
  win_degree : Z;
  win_params : kwargs;
  win_model_type : string
}.

Definition simulate `{Collaborators} (dataset : DataFrame)
    (feat_dict : list (string * value)) (feat_type : string)
    (best_model : list (string * winner)) (s : session)
    : result (list (value * Q) * session) :=
  '(dataset, test) ← simulate_test dataset feat_dict;
  '(X_train, y_train, X_test, y_test) ←
    normalize_prep_eval_data dataset test feat_type true;
  best ← dict_get best_model feat_type;
  _ ← dict_get (registry s) (win_model_type best);
  let model_type := win_model_type best in
  let best_params := win_params best in
  '(predictions, s) ←
    fit_and_predict (AsFrame X_train) y_train (AsFrame X_test) model_type
      best_params s;
  dates ← getitem test "as_of_date";
  mret (zip dates predictions, s).

End Prep.

(** ** Cross-validation orchestrator *)

Module CV.
Import Grid Prep.

(** One row of the evaluation table [cv_df]. A label that the pattern does
    not produce is missing ([NaN]). *)
Record cv_row : Type := mkCvRow {
  model : option string;
  mse : Q;
  mae : Q;
  rss : Q;
  run_time : Q;
  parameters : kwargs;
  model_type : string;
  test_week : Z;
  degree : Z
}.

(** A row of the evaluation table without its [run_time]. *)
Definition without_run_time (r : cv_row) : cv_row :=
  mkCvRow (model r) (mse r) (mae r) (rss r) 0 (parameters r) (model_type r)
          (test_week r) (degree r).

(** A word character of the pattern [\w], for ASCII text. *)
Definition is_word (c : Ascii.ascii) : bool :=
  let n := Ascii.N_of_ascii c in
  ((48 <=? n) && (n <=? 57) || (65 <=? n) && (n <=? 90) ||
   (97 <=? n) && (n <=? 122) || (n =? 95))%N.

(** [re.search(r"(\w+)\(", s)]: the first maximal run of word characters
    that is directly followed by an opening parenthesis. [run] is the run
    read so far, reversed. *)
Fixpoint extract_go (run : string) (s : string) : option string :=
  match s with
  | EmptyString => None
  | String c s' =>
      if (Ascii.N_of_ascii c =? 40)%N   (* the character "(" *)
      then match run with
           | EmptyString => extract_go EmptyString s'
           | String _ _ => Some (String.rev run)
           end
      else if is_word c then extract_go (String c run) s'
      else extract_go EmptyString s'
  end.

Definition extract_family (s : string) : option string :=
  extract_go EmptyString s.

Section with_collaborators.
Context `{Collaborators}.
Variable now : nat → Q.

(** The label of a row: family, degree and parameters. *)
Definition label (r : grid_row) : option string :=
  family ← extract_family (index r);
  mret (family +:+ " " +:+ "degree_" +:+ pretty (row_degree r) +:+ " "
          +:+ str_dict (perf_parameters (measures r))).

Definition relabel (r : grid_row) : cv_row :=
  let p := measures r in
  mkCvRow (label r) (perf_mse p) (perf_mae p) (perf_rss p)
          (perf_run_time p) (perf_parameters p) (perf_model_type p)
          (row_test_week r) (row_degree r).

(** The two design matrices of one fold and one degree, with the
    expansion object as it is left afterwards. *)
Definition design_matrices (train test : DataFrame) (features : list string)
    (deg : Z) : result (Matrix * Matrix * PolynomialFeatures) :=
  let poly := new_poly deg in
  train_features ← loc_columns train features;
  train_values ← values train_features;
  '(poly, X_train) ← fit_transform poly train_values;
  test_features ← loc_columns test features;
  test_values ← values test_features;
  '(poly, X_test) ← fit_transform poly test_values;
  mret (X_train, X_test, poly).

(** The loop over [degrees] for one fold. *)
Fixpoint degree_loop (train test : DataFrame) (test_week : Z)
    (features : list string) (target : string) (degrees : list Z)
    (grid : list (string * list kwargs)) (cv_eval : list (list grid_row))
    (s : session) : result (list (list grid_row) * session) :=
  match degrees with
  | [] => Ok (cv_eval, s)
  | deg :: degrees' =>
      '(X_train, X_test, _) ← design_matrices train test features deg;
      y_train ← getitem train target;
      y_test ← getitem test target;
      '(model_perf, s) ←
        run_grid_search now (AsArray X_train) y_train (AsArray X_test) y_test
          test_week deg grid s;
      degree_loop train test test_week features target degrees' grid
        (cv_eval ++ [model_perf]) s
  end.

(** The loop over [temporal_splits]. *)
Fixpoint fold_loop (temporal_splits : list Splitter.fold)
    (features : list string) (target : string) (degrees : list Z)
    (grid : list (string * list kwargs)) (cv_eval : list (list grid_row))
    (s : session) : result (list (list grid_row) * session) :=
  match temporal_splits with
  | [] => Ok (cv_eval, s)
  | cv :: rest =>
      '(train, test) ←
        normalize_block (Splitter.cv_train cv) (Splitter.cv_test cv);
      '(cv_eval, s) ←
        degree_loop train test (Splitter.test_week cv) features target
          degrees grid cv_eval s;
      fold_loop rest features target degrees grid cv_eval s
  end.

(** [models] is the registry held by the session. Concatenating no frame
    at all is a [ValueError]; converting the metric columns of a table
    without rows is a [KeyError]. *)
Definition cross_validate (temporal_splits : list Splitter.fold)
    (features : list string) (target : string) (degrees : list Z)
    (grid : list (string * list kwargs)) (s : session)
    : result (list cv_row * session) :=
  _ ← dict_get FEATURES "population";
  '(cv_eval, s) ← fold_loop temporal_splits features target degrees grid [] s;
  match cv_eval with
  | [] => Err ValueError
  | _ :: _ =>
      match concat cv_eval with
      | [] => Err (KeyError "mse")
      | rows => Ok (relabel <$> rows, s)
      end
  end.

End with_collaborators.

End CV.

(** ** Best-model selector *)

Module Selector.
Import CV Prep.
Local Open Scope Q_scope.

(** One row of [by_model_means]: a label with the means of its group. *)
Record mean_row : Type := mkMeanRow {
  mean_model : string;
  mean_mse : Q;
  mean_mae : Q;
  mean_rss : Q
}.

(** The keys of [groupby('model')]: the labels that are present, each once,
    in increasing order. *)
Definition label_le (a b : string) : Prop := String.leb a b = true.

Global Instance label_le_dec (a b : string) : Decision (label_le a b).
Proof. unfold label_le. apply _. Defined.

Definition group_keys (labels : list (option string)) : list string :=
  merge_sort label_le (remove_dups (omap id labels)).

Definition group (cv_results : list cv_row) (key : string) : list cv_row :=
  filter (λ r, model r = Some key) cv_results.

(** [cv_results.groupby('model').mean()] followed by [reset_index] *)
Definition by_model_means (cv_results : list cv_row) : list mean_row :=
  (λ key,
     let g := group cv_results key in
     mkMeanRow key (Metrics.mean (mse <$> g)) (Metrics.mean (mae <$> g))
               (Metrics.mean (rss <$> g)))
    <$> group_keys (model <$> cv_results).

(** [column.min()] and the rows that attain it *)
Definition minimum (xs : list Q) : option Q :=
  match xs with
  | [] => None
  | x :: xs' => Some (foldl Qmin x xs')
  end.

Definition rows_at_min (col : mean_row → Q) (means : list mean_row)
    : list mean_row :=
  match minimum (col <$> means) with
  | None => []
  | Some m => filter (λ r, Qeq_bool (col r) m = true) means
  end.

Definition find_best_model (cv_results : list cv_row) : list mean_row :=
  let means := by_model_means cv_results in
  let best_mse := rows_at_min mean_mse means in
  let best_mae := rows_at_min mean_mae means in
  let best_rss := rows_at_min mean_rss means in
  best_mse ++ best_mae ++ best_rss.

(** [best_from_feat.groupby('model').size()] with the index reset: each
    label of the pool with its number of occurrences, numbered from 0 in
    increasing label order. *)
Definition best_type (best_from_feat : list mean_row)
    : list (nat * (string * nat)) :=
  let pool := mean_model <$> best_from_feat in
  imap (λ i key, (i, (key, length (filter (λ l, l = key) pool))))
       (group_keys (Some <$> pool)).

(** [sort_values('count', ascending=False)]: the rows are reordered, each
    keeps its index label. *)
Definition count_ge (a b : nat * (string * nat)) : Prop := (b.2.2 ≤ a.2.2)%nat.

Global Instance count_ge_dec a b : Decision (count_ge a b).
Proof. unfold count_ge. apply _. Defined.

Definition sort_by_count (frame : list (nat * (string * nat)))
    : list (nat * (string * nat)) :=
  merge_sort count_ge frame.

(** [frame.loc[0, 'model']]: the row whose index label is 0. *)
Definition loc_zero (frame : list (nat * (string * nat))) : result string :=
  match list_find (λ row, row.1 = 0%nat) frame with
  | Some (_, row) => Ok row.2.1
  | None => Err (KeyError "0")
  end.

(** The body of the loop of [run_temporal_cv] once the evaluation table of
    a feature set is known. *)
Definition select_winner (cv_df : list cv_row) : result (cv_row * winner) :=
  let best_from_feat := find_best_model cv_df in
  let best_type := sort_by_count (best_type best_from_feat) in
  best_single ← loc_zero best_type;
  let best := filter (λ r, model r = Some best_single) cv_df in
  best_model ← iloc_first best;
  label ← from_option Ok (Err TypeError) (model best_model);
  model_type ← iloc_first (String.words label);
  mret (best_model, mkWinner (degree best_model) (parameters best_model) model_type).

(** The labels pooled by [find_best_model], with repetitions. *)
Definition pool (cv_df : list cv_row) : list string :=
  mean_model <$> find_best_model cv_df.



(** The family of a label: its first word. *)
Definition family_of (label : string) : option string :=
  head (String.words label).


Section with_collaborators.
Context `{Collaborators}.
Variable now : nat → Q.

(** The loop of [run_temporal_cv] over the feature sets. *)
Fixpoint feature_loop (temporal_splits : list Splitter.fold)
    (states : list string) (feature_sets : list (string * list string))
    (best_models : list (string * winner)) (s : Grid.session)
    : result (list (string * winner) * Grid.session) :=
  match feature_sets with
  | [] => Ok (best_models, s)
  | (feat_type, feat_set) :: rest =>
      '(cv_df, s) ←
        cross_validate now temporal_splits (feat_set ++ states) TARGET
          DEGREES GRID s;
      '(_, params) ← select_winner cv_df;
      feature_loop temporal_splits states rest
        (dict_set best_models feat_type params) s
  end.

Definition run_temporal_cv (temporal_splits : list Splitter.fold)
    (s : Grid.session) : result (list (string * winner) * Grid.session) :=
  first ← iloc_first temporal_splits;
  let states :=
    filter (λ col, is_state_column col = true)
           (columns (Splitter.cv_train first)) in
  feature_loop temporal_splits states FEATURES [] s.

End with_collaborators.

End Selector.

(** ** The hold-out split: [timesplit_data] *)

Module Holdout.

(** [dataset] is the frame that [bpc.prep_df_for_analysis()] returns. The
    training part is every row of a week before the week of the last row,
    the test part every row of that week. *)
Definition timesplit_data (dataset : DataFrame) : result (DataFrame * DataFrame) :=
  dates ← getitem dataset "as_of_date";
  last ← iloc_last dates;
  latest_week ← week_attr last;
  weeks ← dt_week dataset "as_of_date";
  let train :=
    loc_mask dataset ((λ w, bool_decide (w < latest_week)) <$> weeks) in
  weeks ← dt_week dataset "as_of_date";
  let test :=
    loc_mask dataset ((λ w, bool_decide (w = latest_week)) <$> weeks) in
  mret (train, test).

End Holdout.

(** ** What the dictionary [model_perf] records *)

Module GridLog.
Import Grid.

(** The registry [reg] has the keys of [reg0], and under each key an
    instance of the class that [reg0] has there: what a registry becomes
    when its instances are only reconfigured. *)
Definition same_classes (reg0 reg : list (string * estimator)) : Prop :=
  reg.*1 = reg0.*1 ∧
  ∀ k m, dict_get reg k = Ok m → ∃ m0, dict_get reg0 k = Ok m0 ∧ cls m = cls m0.

(** Every entry of the grid of a family names the parameters that the
    other entries of that family name. *)
Definition uniform (grid : list (string * list kwargs)) : Prop :=
  Forall (λ fe : string * list kwargs,
            Forall (λ p : kwargs,
                      Forall (λ q : kwargs, q.*1 ⊆ p.*1) fe.2) fe.2) grid.

(** Two registries with the same keys whose instances every entry of the
    grid configures alike: applying an entry of the grid of a family to
    the instance of that family gives the same instance in both. *)
Definition alike (grid : list (string * list kwargs))
    (reg1 reg2 : list (string * estimator)) : Prop :=
  reg1.*1 = reg2.*1 ∧
  ∀ k m1 m2 entries p,
    dict_get reg1 k = Ok m1 → dict_get reg2 k = Ok m2 →
    dict_get grid k = Ok entries → p ∈ entries →
    set_params m1 p = set_params m2 p.

Section with_collaborators.
Context `{Collaborators}.

(** The key [key] is the text of an instance of the class of some family
    of the registry [reg0], and [param] is an entry of the grid of that
    family. *)
Definition from_grid (reg0 : list (string * estimator))
    (grid : list (string * list kwargs)) (key : string) (param : kwargs)
    : Prop :=
  ∃ family m entries e,
    dict_get reg0 family = Ok m ∧
    dict_get grid family = Ok entries ∧
    param ∈ entries ∧
    cls e = cls m ∧
    key = render e.

(** An entry of [model_perf] records one of the given combinations: its
    key and its [model_type] are the rendering of the instance configured
    for the combination, its [parameters] are those of the combination. *)
Definition recorded (combos : list (string * kwargs * estimator))
    (kv : string * perf) : Prop :=
  ∃ combo, combo ∈ combos ∧ records kv combo.

End with_collaborators.

End GridLog.

(** ** Words of a label *)

Module Labels.
Import CV.

(** Every character of [s] is a word character of the pattern [\w]. *)
Fixpoint all_word (s : string) : bool :=
  match s with
  | EmptyString => true
  | String c s' => is_word c && all_word s'
  end.

End Labels.

(** ** After the selection: importances, evaluation on the hold-out set,
       predictions for one state *)

Module Reports.
Import Grid Prep CV.

(** [feat_shrink['Coefficients'] > 0.001] *)
Definition above_threshold (c : Q) : bool := negb (Qle_bool c (1 # 1000)).

(** [frame[c] == 1] on one cell *)
Definition is_one (v : value) : bool :=
  match v with
  | Int n => bool_decide (n = 1)
  | Float x => Float64.eqb x (Float64.of_Z 1)
  | Timestamp _ => false
  end.

(** The order of [sort_values(by='Coefficients', ascending=False)]. *)
Definition coef_ge (a b : string * Q) : Prop := (b.2 <= a.2)%Q.

Global Instance coef_ge_dec (a b : string * Q) : Decision (coef_ge a b).
Proof.
  unfold coef_ge. destruct (Qlt_le_dec a.2 b.2) as [Hlt|Hle].
  - right. by apply Qlt_not_le.
  - by left.
Defined.

Section with_collaborators.
Context `{Collaborators}.
(** [now n] is the [n]-th reading of the clock. *)
Variable now : nat → Q.
(** [coef_ model X y] is the attribute [coef_] of the configured instance
    [model] once it has been fitted on [X] and [y]. *)
Variable coef_ : estimator → Matrix → list Q → list Q.
(** [sort_values(by='Coefficients', ascending=False)] on the rows of a
    frame with the columns [Features] and [Coefficients]; the order among
    rows with equal coefficients is left to the sorting routine. *)
Variable sort_values : list (string * Q) → list (string * Q).
(** [plotting.plot_predicted_data]: draws, returns nothing, may raise. *)
Variable plot_predicted_data :
  DataFrame → list value → DataFrame → list value → list Q → result unit.

(** [pd.DataFrame({'Features': ..., 'Coefficients': ...})]: columns of
    different lengths are a [ValueError]. *)
Definition two_columns (features : list string) (coefficients : list Q)
    : result (list (string * Q)) :=
  if decide (length features = length coefficients)
  then Ok (zip features coefficients)
  else Err ValueError.

(** [model] is a reference to an instance of the registry, represented by
    its key. *)
Definition get_feature_importance (model : string) (params : kwargs)
    (features : list string) (X_train : design) (y_train : list value)
    (X_test : design) (degree : option Z) (s : session)
    : result (list (string * Q) * session) :=
  let feature_list := Importance.feature_list features degree in
  test_model ← dict_get (registry s) model;
  let test_model := set_params test_model params in
  let s := mkSession (dict_set (registry s) model test_model) (clock s) in
  X ← as_matrix X_train;
  y ← traverse to_number y_train;
  X' ← as_matrix X_test;
  _ ← fit_predict test_model X y X';
  feat_shrink ← two_columns feature_list (coef_ test_model X y);
  let feat_shrink := (λ fc : string * Q, (fc.1, Qabs fc.2)) <$> feat_shrink in
  let feat_shrink := sort_values feat_shrink in
  let key_importances :=
    filter (λ fc : string * Q, above_threshold fc.2 = true) feat_shrink in
  mret (key_importances, s).

(** The loop of [compare_feat_import] over the keys of [best_models]. *)
Fixpoint importance_loop (train test : DataFrame) (states : list string)
    (best_models : list (string * winner))
    (importances : list (list (string * Q))) (s : session)
    : result (list (list (string * Q)) * session) :=
  match best_models with
  | [] => Ok (importances, s)
  | (feat_type, best) :: rest =>
      feat_set ← dict_get FEATURES feat_type;
      _ ← dict_get (registry s) (win_model_type best);
      let model := win_model_type best in
      let params := win_params best in
      let deg := win_degree best in
      let poly := new_poly deg in
      train_features ← loc_columns train (feat_set ++ states);
      train_values ← values train_features;
      '(poly, X_train) ← fit_transform poly train_values;
      y_train ← getitem train TARGET;
      test_features ← loc_columns test (feat_set ++ states);
      test_values ← values test_features;
      '(poly, X_test) ← fit_transform poly test_values;
      '(feat_import, s) ←
        get_feature_importance model params (feat_set ++ states)
          (AsArray X_train) y_train (AsArray X_test) (Some deg) s;
      importance_loop train test states rest (importances ++ [feat_import]) s
  end.

Definition compare_feat_import (best_models : list (string * winner))
    (temporal_splits : list Splitter.fold) (s : session)
    : result (list (list (string * Q)) * session) :=
  last ← iloc_last temporal_splits;
  let train := Splitter.cv_train last in
  let test := Splitter.cv_test last in
  first ← iloc_first temporal_splits;
  let states :=
    filter (λ col, is_state_column col = true)
           (columns (Splitter.cv_train first)) in
  importance_loop train test states best_models [] s.

(** [drop_features] is [False] or a list of column names; the empty list
    stands for every falsy value. The frame returned has one row per
    value of [model_perf]. *)
Definition predict_and_evaluate (train test : DataFrame) (feat_type : string)
    (best_model : list (string * winner)) (drop_features : list string)
    (s : session) : result (list perf * session) :=
  let model_perf : list (string * perf) := [] in
  '(X_train, y_train, X_test, y_test) ←
    normalize_prep_eval_data train test feat_type true;
  '(X_train, X_test) ←
    match drop_features with
    | [] => mret (X_train, X_test)
    | _ :: _ =>
        X_train ← drop_columns X_train drop_features;
        X_test ← drop_columns X_test drop_features;
        mret (X_train, X_test)
    end;
  best ← dict_get best_model feat_type;
  _ ← dict_get (registry s) (win_model_type best);
  let model_type := win_model_type best in
  let best_params := win_params best in
  '(model_perf, predictions, s) ←
    build_classifier now (AsFrame X_train) y_train (AsFrame X_test) y_test
      model_type best_params model_perf s;
  _ ← plot_predicted_data X_train y_train X_test y_test predictions;
  mret (model_perf.*2, s).

(** [X_test] merged with the predictions, position by position; the
    column of the predictions is renamed to [total_prisoner_cases]. A row
    of the result is the cell that [X_test] itself has under that name,
    if it has such a column, and the prediction. *)
Definition pred_north_carolina (X_train : design) (y_train : list value)
    (X_test : DataFrame) (y_test : list value) (model : string)
    (param : kwargs) (s : session)
    : result (list (option value * Q) * session) :=
  '(_, predictions, s) ←
    build_classifier now X_train y_train (AsFrame X_test) y_test model param
      [] s;
  let full_pred := zip (rows X_test) predictions in
  flags ← (if decide ("state_north_carolina" ∈ columns X_test)
           then traverse (λ rp : row * Q,
                            match rp.1 !! "state_north_carolina" with
                            | Some v => Ok (is_one v)
                            | None => Err (KeyError "state_north_carolina")
                            end) full_pred
           else Err (KeyError "state_north_carolina"));
  let selected := select flags full_pred in
  mret ((λ rp : row * Q,
           (if decide (TARGET ∈ columns X_test) then rp.1 !! TARGET else None,
            rp.2)) <$> selected, s).

End with_collaborators.

End Reports.

(** ** Concrete data used by the examples *)

Module Examples.

(** A row with a date in ISO week [w] and one count column. *)
Definition week_row (w n : Z) : row :=
  <["as_of_date" := Timestamp w]> (<["x" := Int n]> ∅).

(** Six observations over the weeks 1 to 4. *)
Definition four_weeks : DataFrame :=
  mkDataFrame ["as_of_date"; "x"]
    [week_row 1 10; week_row 1 11; week_row 2 20;
     week_row 3 30; week_row 3 31; week_row 4 40].

(** Two observations over the weeks 5 and 6. *)
Definition two_weeks : DataFrame :=
  mkDataFrame ["as_of_date"; "x"] [week_row 5 1; week_row 6 2].

(** One observation of a facility: the date, the three case counts, the
    population block and one state indicator. *)
Definition observation (w total new lag : Z) : row :=
  list_to_map
    [ ("as_of_date", Timestamp w);
      ("total_prisoner_cases", Int total);
      ("new_prisoner_cases", Int new);
      ("lag_prisoner_cases", Int lag);
      ("pop_2020", Int 900); ("pop_2018", Int 950);
      ("capacity", Int 1000); ("pct_occup", Float (Float64.of_Q (9 # 10)));
      ("state_ohio", Int 1) ].

Definition observation_columns : list string :=
  [ "as_of_date"; "total_prisoner_cases"; "new_prisoner_cases";
    "lag_prisoner_cases"; "pop_2020"; "pop_2018"; "capacity"; "pct_occup";
    "state_ohio" ].

(** Weeks 14 to 16 of one facility, two reports in the last week. *)
Definition three_weeks : DataFrame :=
  mkDataFrame observation_columns
    [ observation 14 5 0 0; observation 15 8 3 5;
      observation 16 12 4 8; observation 16 20 7 13 ].

(** The reports of week 17. *)
Definition week_17 : DataFrame :=
  mkDataFrame observation_columns
    [ observation 17 15 3 12; observation 17 29 9 20 ].

Definition naive_features : list string :=
  ["lag_prisoner_cases"; "new_prisoner_cases"].

(** Text of a hyperparameter value and of a list of keyword entries. *)
Definition show_hyper (h : hyper) : string :=
  match h with
  | HNone => "None"
  | HBool true => "True"
  | HBool false => "False"
  | HInt n => pretty n
  | HFloat x => pretty (Qnum x) +:+ "/" +:+ pretty (Zpos (Qden x))
  end.

Fixpoint show_entries (entries : list (string * hyper)) : string :=
  match entries with
  | [] => ""
  | [(k, v)] => k +:+ "=" +:+ show_hyper v
  | (k, v) :: rest => k +:+ "=" +:+ show_hyper v +:+ ", " +:+ show_entries rest
  end.

(** Stand-ins for the collaborators: a normalizer that leaves the data as
    it is, an expansion that returns its input, a model that predicts the
    mean of the training targets, a rendering of an instance that prints
    its class followed by all its parameters, and a summation from left to
    right. *)
Definition stand_ins : Collaborators := {|
  scaler := unit;
  normalize df _ := Ok (df, ());
  expand _ X := X;
  fit_predict _ _ y X_test := Ok ((λ _, Metrics.mean y) <$> data X_test);
  render e := cls e +:+ "(" +:+ show_entries (map_to_list (params e)) +:+ ")";
  str_dict param := "{" +:+ show_entries param +:+ "}";
  add_reduce := Float64.sum_left
|}.

(** Instances that start without any parameter, a split given as arrays,
    and a clock that advances by one second per reading. *)
Definition no_defaults : string → gmap string hyper := λ _, ∅.

Definition train_array : Matrix := mkMatrix 2 [[0; 0]; [5; 3]; [8; 4]; [13; 7]]%Q.

Definition test_array : Matrix := mkMatrix 2 [[12; 3]; [20; 9]]%Q.

Definition seconds : nat → Q := λ n, inject_Z (Z.of_nat n).

(** The folds of [three_weeks]: one fold, trained on week 15 and tested on
    week 16. *)
Definition three_weeks_folds : list Splitter.fold :=
  match Splitter.time_cv_split three_weeks with
  | Ok folds => folds
  | Err _ => []
  end.



(** A table where Ridge is best under two metrics and Lasso under one. *)
Definition lasso_and_ridge : list CV.cv_row :=
  [ CV.mkCvRow (Some "Ridge degree_1 {alpha=1}") 1 3 1 1
               [("alpha", HInt 1)] "Ridge(alpha=1)" 16 1;
    CV.mkCvRow (Some "Lasso degree_1 {alpha=1}") 2 2 2 1
               [("alpha", HInt 1)] "Lasso(alpha=1)" 16 1 ].

End Examples.

(** ** Further data used by the examples *)

Module Scenarios.
Import Examples.

(** Four observations over the weeks 1 to 5, none in week 4. *)
Definition missing_week : DataFrame :=
  mkDataFrame ["as_of_date"; "x"]
    [week_row 1 10; week_row 2 20; week_row 3 30; week_row 5 50].

(** Two observations, both in week 7. *)
Definition one_week : DataFrame :=
  mkDataFrame ["as_of_date"; "x"] [week_row 7 1; week_row 7 2].

(** A registry of two instances and a grid with three combinations; the
    two entries of Lasso configure the shared instance alike once both
    have been applied. *)
Definition two_models : list (string * estimator) :=
  [ ("Lasso", mkEstimator "Lasso" ∅); ("Ridge", mkEstimator "Ridge" ∅) ].

Definition small_grid : list (string * list kwargs) :=
  [ ("Lasso", [ [("alpha", HInt 2); ("fit_intercept", HBool false)];
                [("alpha", HInt 2)] ]);
    ("Ridge", [ [("alpha", HInt 1)] ]) ].

(** Weeks 14 to 18 of one facility, no report in week 17, and the folds
    cut from them: the fold with test week 17 has no test row. *)
Definition gap_weeks : DataFrame :=
  mkDataFrame observation_columns
    [ observation 14 5 0 0; observation 15 8 3 5;
      observation 16 12 4 8; observation 18 20 8 12 ].

Definition gap_folds : list Splitter.fold :=
  match Splitter.time_cv_split gap_weeks with
  | Ok folds => folds
  | Err _ => []
  end.

(** One row of a grid search: a Lasso instance at degree 2. *)
Definition lasso_grid_row : Grid.grid_row :=
  Grid.mkGridRow "Lasso(alpha=1)"
    (Grid.mkPerf 4 2 8 1 [("alpha", HInt 1)] "Lasso(alpha=1)") 16 2.

(** Stand-ins for what the reports rely on: a fitted model with a small
    intercept coefficient and a unit coefficient per column, a stable sort
    by decreasing coefficient, and a plot that draws nothing. *)
Definition unit_coefficients : estimator → Matrix → list Q → list Q :=
  λ _ X _, (1 # 2000)%Q :: replicate (n_cols X) 1%Q.

Definition sort_by_coefficient : list (string * Q) → list (string * Q) :=
  merge_sort Reports.coef_ge.

Definition no_plot
    : DataFrame → list value → DataFrame → list value → list Q → result unit :=
  λ _ _ _ _ _, Ok ().

(** Lasso at degree 1 as the winner of the naive feature set. *)
Definition naive_winner : list (string * Prep.winner) :=
  [("naive", Prep.mkWinner 1 [("alpha", HInt 1)] "Lasso")].

(** The reports of week 17 with an indicator for North Carolina: the
    second facility is there. *)
Definition week_17_by_state : DataFrame :=
  mkDataFrame ["lag_prisoner_cases"; "new_prisoner_cases";
               "state_north_carolina"]
    [ list_to_map [("lag_prisoner_cases", Int 12); ("new_prisoner_cases", Int 3);
                   ("state_north_carolina", Int 0)];
      list_to_map [("lag_prisoner_cases", Int 20); ("new_prisoner_cases", Int 9);
                   ("state_north_carolina", Int 1)] ].

(** One report per week over the weeks 14 to 17. *)
Definition four_reports : DataFrame :=
  mkDataFrame observation_columns
    [ observation 14 5 0 0; observation 15 8 3 5;
      observation 16 12 4 8; observation 17 20 8 12 ].

(** One observation with every column that a feature set names. *)
Definition full_observation (w total new lag : Z) : row :=
  list_to_map
    [ ("no_visits", Int 1); ("lawyer_access", Int 1); ("phone_access", Int 0);
      ("video_access", Int 1); ("no_volunteers", Int 1);
      ("limiting_movement", Int 0); ("screening", Int 1);
      ("healthcare_support", Int 0) ] ∪ observation w total new lag.

Definition full_columns : list string :=
  observation_columns ++
  [ "no_visits"; "lawyer_access"; "phone_access"; "video_access";
    "no_volunteers"; "limiting_movement"; "screening"; "healthcare_support" ].

(** Weeks 14 to 16 with every column, and their folds. *)
Definition full_weeks : DataFrame :=
  mkDataFrame full_columns
    [ full_observation 14 5 0 0; full_observation 15 8 3 5;
      full_observation 16 12 4 8; full_observation 16 20 7 13 ].

Definition full_folds : list Splitter.fold :=
  match Splitter.time_cv_split full_weeks with
  | Ok folds => folds
  | Err _ => []
  end.

(** A grid whose second entry sets a parameter that the first leaves
    alone, and a registry with the one instance it configures. *)
Definition uneven_grid : list (string * list kwargs) :=
  [("Lasso", [ [("alpha", HInt 2)];
               [("alpha", HInt 2); ("fit_intercept", HBool false)] ])].

Definition lasso_only : list (string * estimator) :=
  [("Lasso", mkEstimator "Lasso" ∅)].

(** Three weeks of one facility whose last report holds the largest int64
    as its total and one new case. *)
Definition largest_total : DataFrame :=
  mkDataFrame Examples.observation_columns
    [ Examples.observation 14 5 0 0; Examples.observation 15 8 3 5;
      Examples.observation 16 9223372036854775807 1 8 ].

(** Three targets and three predictions with the residuals 2, 0 and 3. *)
Definition three_targets : Metrics.ndarray :=
  Metrics.Float64Array (Float64.of_Z <$> [3; 5; 10]).

Definition three_predictions : Metrics.ndarray :=
  Metrics.Float64Array (Float64.of_Z <$> [1; 5; 7]).

(** Forty-nine targets, a one followed by zeros, and forty-nine predictions
    that are all zero. *)
Definition one_and_zeros : Metrics.ndarray :=
  Metrics.Float64Array (Float64.of_Z 1 :: replicate 48 Float64.zero).

Definition only_zeros : Metrics.ndarray :=
  Metrics.Float64Array (replicate 49 Float64.zero).

End Scenarios.

(** * Properties *)

(** ** The error monad and list helpers *)

(** Reduce a bind whose first computation is a known outcome. *)
Ltac result_simpl :=
  cbn [mbind mret fmap result_bind result_ret result_fmap Py.bind].

Section traverse_facts.
Context {A B : Type}.
Implicit Types (f : A → result B) (l : list A).

Lemma traverse_total f (g : A → B) l :
  (∀ x, x ∈ l → f x = Ok (g x)) → traverse f l = Ok (g <$> l).
Proof.
  induction l as [|x l IH]; intros Hf; simpl; [done|].
  rewrite Hf by left. rewrite IH; [done|].
  intros y Hy. apply Hf. by right.
Qed.

Lemma traverse_length f l ys : traverse f l = Ok ys → length ys = length l.
Proof.
  revert ys. induction l as [|x l IH]; intros ys; simpl.
  - by intros [= <-].
  - destruct (f x); [|done]. destruct (traverse f l) eqn:E; [|done].
    intros [= <-]. simpl. f_equal. by apply IH.
Qed.

Lemma traverse_select f l ys (mask : list bool) :
  traverse f l = Ok ys → traverse f (select mask l) = Ok (select mask ys).
Proof.
  revert ys mask. induction l as [|x l IH]; intros ys mask; simpl.
  - intros [= <-]. by destruct mask.
  - destruct (f x) eqn:Ex; [|done]. destruct (traverse f l) eqn:E; [|done].
    intros [= <-]. destruct mask as [|[] mask]; simpl; [done| |].
    + rewrite Ex. by rewrite (IH _ mask eq_refl).
    + by apply IH.
Qed.
End traverse_facts.

Lemma select_fmap_filter {A B} (P : B → Prop) `{!∀ b, Decision (P b)}
    (xs : list A) (ws : list B) :
  select ((λ w, bool_decide (P w)) <$> ws) xs
  = (filter (λ p, P p.2) (zip xs ws)).*1.
Proof.
  revert xs. induction ws as [|w ws IH]; intros [|x xs]; simpl; try done.
  rewrite filter_cons. simpl. case_bool_decide.
  - rewrite decide_True by done. simpl. by rewrite IH.
  - rewrite decide_False by done. by rewrite IH.
Qed.

Lemma select_fmap_elem {A} (p : A → bool) (ws : list A) (w : A) :
  w ∈ select (p <$> ws) ws → p w = true ∧ w ∈ ws.
Proof.
  induction ws as [|w' ws IH]; simpl; [by intros ?%elem_of_nil|].
  destruct (p w') eqn:E.
  - intros [->|H]%elem_of_cons; [split; [done|by left]|].
    destruct (IH H). split; [done|by right].
  - intros H. destruct (IH H). split; [done|by right].
Qed.

Lemma range_elem (lo hi w : Z) : w ∈ Py.range lo hi ↔ lo ≤ w < hi.
Proof.
  unfold Py.range. rewrite list_elem_of_fmap. split.
  - intros (i & -> & Hi%elem_of_seq). lia.
  - intros H. exists (Z.to_nat (w - lo)). split; [lia|].
    apply elem_of_seq. lia.
Qed.

Lemma range_empty (lo hi : Z) : hi ≤ lo → Py.range lo hi = [].
Proof. intros H. unfold Py.range. by replace (Z.to_nat (hi - lo)) with 0%nat by lia. Qed.

(** ** Temporal splitter *)

Module SplitterFacts.
Import Splitter.

Lemma dt_week_loc_mask df c ws mask :
  dt_week df c = Ok ws → dt_week (loc_mask df mask) c = Ok (select mask ws).
Proof.
  unfold dt_week, getitem. simpl.
  destruct (decide (c ∈ columns df)); [|done].
  destruct (traverse _ (rows df)) as [cells|] eqn:E; [|done]. simpl.
  intros Hw. erewrite traverse_select by exact E. simpl.
  by apply traverse_select.
Qed.

Lemma dt_week_dates df c ws :
  dt_week df c = Ok ws →
  ∃ dates, getitem df c = Ok dates ∧ traverse week_attr dates = Ok ws.
Proof.
  unfold dt_week. destruct (getitem df c) as [dates|]; [|done].
  intros H. by exists dates.
Qed.

Lemma traverse_week_first dates ws :
  traverse week_attr dates = Ok ws →
  (iloc_first dates ≫= week_attr) = iloc_first ws.
Proof.
  destruct dates as [|d dates]; simpl.
  - by intros [= <-].
  - destruct (week_attr d) eqn:E; [|done].
    destruct (traverse week_attr dates); [|done]. by intros [= <-].
Qed.

Lemma traverse_week_last dates ws :
  traverse week_attr dates = Ok ws →
  (iloc_last dates ≫= week_attr) = iloc_last ws.
Proof.
  revert ws. induction dates as [|d dates IH]; intros ws; simpl.
  - by intros [= <-].
  - destruct (week_attr d) as [w|] eqn:E; [|done].
    destruct (traverse week_attr dates) as [ws'|] eqn:E'; [|done].
    intros [= <-]. specialize (IH _ eq_refl).
    destruct dates as [|d' dates].
    + simpl in E'. injection E' as <-. unfold iloc_last. simpl. by rewrite E.
    + assert (∃ w' ws'', ws' = w' :: ws'') as (w' & ws'' & ->).
      { simpl in E'. destruct (week_attr d'); [|done].
        destruct (traverse week_attr dates); [|done]. injection E' as <-. eauto. }
      exact IH.
Qed.

(** What [time_cv_split] returns on a frame whose date column is well formed
    and non-empty. *)
Lemma time_cv_split_unfold train ws earliest latest :
  dt_week train as_of_date = Ok ws →
  iloc_first ws = Ok earliest → iloc_last ws = Ok latest →
  time_cv_split train
  = Ok ((λ week, mkFold (week + 1)
          (loc_mask train
             ((λ w, bool_decide (w ≤ week) && negb (bool_decide (w = earliest)))
                <$> ws))
          (loc_mask train ((λ w, bool_decide (w = week + 1)) <$> ws)))
        <$> Py.range (earliest + 1) latest).
Proof.
  intros Hw Hfirst Hlast.
  destruct (dt_week_dates _ _ _ Hw) as (dates & Hd & Ht).
  unfold time_cv_split. rewrite Hd. simpl.
  pose proof (traverse_week_first _ _ Ht) as H1. rewrite Hfirst in H1.
  pose proof (traverse_week_last _ _ Ht) as H2. rewrite Hlast in H2.
  destruct (iloc_first dates) as [d1|]; [|done]. simpl in H1 |- *. rewrite H1. simpl.
  destruct (iloc_last dates) as [d2|]; [|done]. simpl in H2 |- *. rewrite H2. simpl.
  apply traverse_total. intros week _. unfold split_at. by rewrite Hw.
Qed.

Lemma Sorted_first_le (ws : list Z) (w0 w : Z) :
  Sorted Z.le ws → iloc_first ws = Ok w0 → w ∈ ws → w0 ≤ w.
Proof.
  intros Hs%(Sorted_StronglySorted Z.le) Hf Hw.
  destruct ws as [|w1 ws]; [done|]. injection Hf as ->.
  apply StronglySorted_inv in Hs as [_ Hall].
  apply elem_of_cons in Hw as [->|Hw]; [lia|].
  by eapply Forall_forall in Hall.
Qed.

(** C4. For a training frame sorted by week, [time_cv_split] returns a list
    of folds, and in every fold: each week of the training part is at most
    [test_week - 1]; the globally earliest week of the frame does not occur
    in the training part; the test part consists of exactly the rows of the
    frame whose week is [test_week], in their order. *)
Theorem time_cv_split_folds_respect_time (train : DataFrame) (ws : list Z) :
  dt_week train as_of_date = Ok ws →
  ws ≠ [] →
  Sorted Z.le ws →
  ∃ folds, time_cv_split train = Ok folds ∧
    ∀ f, f ∈ folds →
      (∃ tw, dt_week (cv_train f) as_of_date = Ok tw ∧
         (∀ w, w ∈ tw → w ≤ test_week f - 1) ∧
         (∀ w0, w0 ∈ ws → (∀ w, w ∈ ws → w0 ≤ w) → w0 ∉ tw)) ∧
      rows (cv_test f)
      = (filter (λ p, p.2 = test_week f) (zip (rows train) ws)).*1.
Proof.
  intros Hw Hne Hsorted.
  destruct (iloc_first ws) as [earliest|] eqn:Hfirst;
    [|by destruct ws].
  destruct (iloc_last ws) as [latest|] eqn:Hlast.
  2:{ unfold iloc_last in Hlast. destruct (last ws) eqn:El; [done|].
      by apply last_None in El. }
  eexists. split; [by eapply time_cv_split_unfold|].
  intros f (week & -> & Hweek%range_elem)%list_elem_of_fmap. simpl. split.
  - eexists. split; [by apply dt_week_loc_mask|]. split.
    + intros w [Hp _]%select_fmap_elem.
      apply andb_true_iff in Hp as [Hle%bool_decide_eq_true _]. lia.
    + intros w0 Hin Hmin [Hp _]%select_fmap_elem.
      apply andb_true_iff in Hp as [_ Hneq%negb_true_iff].
      apply bool_decide_eq_false in Hneq. apply Hneq.
      assert (earliest ∈ ws) by (destruct ws; [done|]; injection Hfirst as ->; by left).
      pose proof (Sorted_first_le _ _ _ Hsorted Hfirst Hin).
      pose proof (Hmin _ H). lia.
  - exact (select_fmap_filter (λ w, w = week + 1) (rows train) ws).
Qed.

Lemma time_cv_split_folds_respect_time_witness :
  ∃ folds, time_cv_split Examples.four_weeks = Ok folds ∧
    ∀ f, f ∈ folds →
      (∃ tw, dt_week (cv_train f) as_of_date = Ok tw ∧
         (∀ w, w ∈ tw → w ≤ test_week f - 1) ∧
         (∀ w0, w0 ∈ [1; 1; 2; 3; 3; 4] →
            (∀ w, w ∈ [1; 1; 2; 3; 3; 4] → w0 ≤ w) → w0 ∉ tw)) ∧
      rows (cv_test f)
      = (filter (λ p, p.2 = test_week f)
           (zip (rows Examples.four_weeks) [1; 1; 2; 3; 3; 4])).*1.
Proof.
  apply (time_cv_split_folds_respect_time Examples.four_weeks [1; 1; 2; 3; 3; 4]).
  - vm_compute. reflexivity.
  - discriminate.
  - repeat constructor; lia.
Defined.

(** The scenario of the design document: weeks 1 to 4 give the two folds
    with test weeks 3 and 4, trained on the weeks {2} and {2, 3}. *)
Example time_cv_split_four_weeks :
  match time_cv_split Examples.four_weeks with
  | Ok folds =>
      map (λ f, (test_week f, dt_week (cv_train f) as_of_date,
                 dt_week (cv_test f) as_of_date)) folds
      = [(3, Ok [2], Ok [3; 3]); (4, Ok [2; 3; 3], Ok [4])]
  | Err _ => False
  end.
Proof. vm_compute. reflexivity. Qed.

(** C10. When the week of the last row is at most one more than the week of
    the first row, [time_cv_split] returns the empty list of folds and does
    not raise. *)
Theorem time_cv_split_short_span (train : DataFrame) (dates : list value)
    (earliest latest : Z) :
  getitem train as_of_date = Ok dates →
  (iloc_first dates ≫= week_attr) = Ok earliest →
  (iloc_last dates ≫= week_attr) = Ok latest →
  latest ≤ earliest + 1 →
  time_cv_split train = Ok [].
Proof.
  intros Hd Hfirst Hlast Hspan. unfold time_cv_split. rewrite Hd. simpl.
  destruct (iloc_first dates) as [d1|]; [|done]. simpl in Hfirst |- *.
  rewrite Hfirst. simpl.
  destruct (iloc_last dates) as [d2|]; [|done]. simpl in Hlast |- *.
  rewrite Hlast. simpl.
  by rewrite range_empty by lia.
Qed.

Lemma time_cv_split_short_span_witness :
  time_cv_split Examples.two_weeks = Ok [].
Proof.
  apply (time_cv_split_short_span Examples.two_weeks
           [Timestamp 5; Timestamp 6] 5 6).
  - vm_compute. reflexivity.
  - reflexivity.
  - reflexivity.
  - lia.
Defined.

End SplitterFacts.

(** ** Machine arithmetic *)

Module Int64Facts.

Lemma wrap_ext (a b : Z) :
  a mod 2 ^ 64 = b mod 2 ^ 64 → Int64.wrap a = Int64.wrap b.
Proof.
  intros Hab. unfold Int64.wrap.
  rewrite <- (Zplus_mod_idemp_l a), <- (Zplus_mod_idemp_l b). by rewrite Hab.
Qed.

Lemma wrap_mod (z : Z) : Int64.wrap z mod 2 ^ 64 = z mod 2 ^ 64.
Proof.
  unfold Int64.wrap. rewrite Zminus_mod_idemp_l. f_equal. lia.
Qed.

Lemma wrap_in_range (z : Z) : Int64.in_range z → Int64.wrap z = z.
Proof.
  unfold Int64.in_range, Int64.wrap. intros Hz.
  rewrite Z.mod_small; lia.
Qed.

Lemma wrap_mul (a b : Z) :
  Int64.wrap (Int64.wrap a * Int64.wrap b) = Int64.wrap (a * b).
Proof.
  apply wrap_ext. rewrite Zmult_mod, !wrap_mod. by rewrite <- Zmult_mod.
Qed.

Lemma wrap_add_r (a b : Z) : Int64.wrap (a + Int64.wrap b) = Int64.wrap (a + b).
Proof.
  apply wrap_ext. rewrite Zplus_mod, wrap_mod. by rewrite <- Zplus_mod.
Qed.

Lemma wrap_add_l (a b : Z) : Int64.wrap (Int64.wrap a + b) = Int64.wrap (a + b).
Proof. rewrite (Z.add_comm (Int64.wrap a)), wrap_add_r. f_equal. lia. Qed.

End Int64Facts.

Module FloatFacts.
Import Float64.

(** A double and the rational it denotes, back and forth, on some values. *)
Example of_Q_to_Q :
  (λ x, of_Q <$> to_Q x)
    <$> [of_Z 0; of_Z 1; of_Z (-3); of_Q (9 # 10); of_Q (1 # 1000);
         of_Z (2 ^ 63 - 1); div (of_Z 1) (of_Z 49)]
  = Some <$> [of_Z 0; of_Z 1; of_Z (-3); of_Q (9 # 10); of_Q (1 # 1000);
              of_Z (2 ^ 63 - 1); div (of_Z 1) (of_Z 49)].
Proof. by vm_compute. Qed.

Lemma of_Q_finite (q : Q) : is_finite (of_Q q) = true.
Proof.
  unfold of_Q. destruct (Qnum q); [done| |]; by destruct (div _ _).
Qed.

Lemma sub_diag (x : float64) : is_finite x = true → sub x x = zero.
Proof.
  destruct x as [[]|[]| |s m e]; try done. intros _.
  unfold sub, SFsub. by rewrite Z.sub_diag.
Qed.

(** Rounding does not look at the sign. *)
Lemma binary_round_aux_abs (s s' : bool) (m e : Z) (l : location) :
  SFabs (binary_round_aux prec emax s m e l)
  = SFabs (binary_round_aux prec emax s' m e l).
Proof.
  unfold binary_round_aux.
  destruct (shr_fexp prec emax m e l) as [mrs' e'].
  destruct (shr_fexp prec emax _ e' loc_Exact) as [mrs'' e''].
  destruct (shr_m mrs''); [done| |done]. by destruct (Z.leb _ _).
Qed.

Lemma binary_normalize_abs_opp (z e : Z) :
  SFabs (binary_normalize prec emax z e false)
  = SFabs (binary_normalize prec emax (- z) e false).
Proof.
  destruct z as [|p|p]; [done| |].
  - change (- Z.pos p) with (Z.neg p). unfold binary_normalize, binary_round.
    destruct (shl_align _ _ _). apply binary_round_aux_abs.
  - change (- Z.neg p) with (Z.pos p). unfold binary_normalize, binary_round.
    destruct (shl_align _ _ _). apply binary_round_aux_abs.
Qed.

Lemma abs_sub_swap (x y : float64) : SFabs (sub x y) = SFabs (sub y x).
Proof.
  destruct x as [[]|[]| |sx mx ex], y as [[]|[]| |sy my ey]; try done.
  unfold sub, SFsub. rewrite (Z.min_comm ey ex).
  rewrite binary_normalize_abs_opp. f_equal. f_equal. lia.
Qed.

Lemma mul_self_abs (x y : float64) : SFabs x = SFabs y → mul x x = mul y y.
Proof.
  destruct x as [sx|sx| |sx mx ex], y as [sy|sy| |sy my ey]; try done.
  - by destruct sx, sy.
  - by destruct sx, sy.
  - intros [= -> ->]. unfold mul, SFmul. by destruct sx, sy.
Qed.

Lemma square_sub_swap (x y : float64) :
  mul (sub x y) (sub x y) = mul (sub y x) (sub y x).
Proof. apply mul_self_abs, abs_sub_swap. Qed.

(** *** Conversion of a positive integer *)

Lemma shr_m_shr_1 (mrs : shr_record) :
  0 ≤ shr_m mrs → shr_m (shr_1 mrs) = shr_m mrs / 2.
Proof.
  destruct mrs as [m r s]. cbn [shr_m]. intros Hm.
  rewrite <- Z.div2_div. by destruct m as [|[p|p|]|p].
Qed.

Lemma shr_m_iter (k : positive) (mrs : shr_record) :
  0 ≤ shr_m mrs →
  shr_m (SpecFloat.iter_pos shr_1 k mrs) = shr_m mrs / 2 ^ Z.pos k.
Proof.
  revert mrs. induction k as [k IH|k IH|]; intros mrs Hm;
    cbn [SpecFloat.iter_pos].
  - assert (0 < 2 ^ Z.pos k) as Hpow by (apply Z.pow_pos_nonneg; lia).
    assert (0 ≤ shr_m (shr_1 mrs)) as H1.
    { rewrite shr_m_shr_1 by done. apply Z.div_pos; lia. }
    assert (0 ≤ shr_m (SpecFloat.iter_pos shr_1 k (shr_1 mrs))) as H2.
    { rewrite IH by done. apply Z.div_pos; lia. }
    rewrite IH, IH, shr_m_shr_1 by done.
    rewrite !Z.div_div by lia.
    f_equal. replace (Z.pos k~1) with (Z.pos k + Z.pos k + 1) by lia.
    rewrite !Z.pow_add_r, Z.pow_1_r by lia. lia.
  - assert (0 < 2 ^ Z.pos k) as Hpow by (apply Z.pow_pos_nonneg; lia).
    assert (0 ≤ shr_m (SpecFloat.iter_pos shr_1 k mrs)) as H2.
    { rewrite IH by done. apply Z.div_pos; lia. }
    rewrite IH, IH by done.
    rewrite !Z.div_div by lia.
    f_equal. replace (Z.pos k~0) with (Z.pos k + Z.pos k) by lia.
    rewrite Z.pow_add_r by lia. lia.
  - rewrite shr_m_shr_1 by done. done.
Qed.

Lemma digits2_pos_lower (p : positive) :
  2 ^ (Z.pos (digits2_pos p) - 1) ≤ Z.pos p.
Proof.
  induction p as [p IH|p IH|]; cbn [digits2_pos]; [| |done].
  - rewrite Pos2Z.inj_succ. replace (Z.succ (Z.pos (digits2_pos p)) - 1)
      with (Z.succ (Z.pos (digits2_pos p) - 1)) by lia.
    rewrite Z.pow_succ_r by lia. lia.
  - rewrite Pos2Z.inj_succ. replace (Z.succ (Z.pos (digits2_pos p)) - 1)
      with (Z.succ (Z.pos (digits2_pos p) - 1)) by lia.
    rewrite Z.pow_succ_r by lia. lia.
Qed.

(** Shifting a positive mantissa to the precision of the format leaves it
    positive when the exponent is not below the smallest one. *)
Lemma shr_fexp_pos (m e : Z) (l : location) :
  0 < m → emin prec emax ≤ e →
  0 < shr_m (shr_fexp prec emax m e l).1 ∧
  emin prec emax ≤ (shr_fexp prec emax m e l).2.
Proof.
  intros Hm He. destruct m as [|p|p]; [done| |done].
  unfold shr_fexp, shr.
  assert (shr_m (shr_record_of_loc (Z.pos p) l) = Z.pos p) as Hrec.
  { by destruct l as [|[]]. }
  destruct (fexp prec emax (Zdigits2 (Z.pos p) + e) - e) as [|k|k] eqn:Hk;
    cbn [fst snd]; rewrite ?Hrec; try done.
  split; [|lia].
  rewrite shr_m_iter by (by rewrite Hrec). rewrite Hrec.
  pose proof (digits2_pos_lower p) as Hd.
  unfold fexp, emin, prec, emax in *. cbn [Zdigits2] in Hk.
  assert (Z.pos k ≤ Z.pos (digits2_pos p) - 1) as Hle by lia.
  apply Z.div_str_pos. split; [by apply Z.pow_pos_nonneg|].
  etrans; [|exact Hd]. apply Z.pow_le_mono_r; lia.
Qed.

Lemma round_nearest_even_pos (m : Z) (l : location) :
  0 < m → 0 < round_nearest_even m l.
Proof.
  intros Hm. destruct l as [|[]]; cbn [round_nearest_even]; try lia.
  destruct (Z.even m); lia.
Qed.

Lemma binary_round_aux_pos (m e : Z) (l : location) :
  0 < m → emin prec emax ≤ e →
  (∃ m' e', binary_round_aux prec emax false m e l = S754_finite false m' e')
  ∨ binary_round_aux prec emax false m e l = S754_infinity false.
Proof.
  intros Hm He. unfold binary_round_aux.
  destruct (shr_fexp_pos m e l Hm He) as [Hm1 He1].
  destruct (shr_fexp prec emax m e l) as [mrs' e']. cbn [fst snd] in Hm1, He1.
  pose proof (round_nearest_even_pos _ (loc_of_shr_record mrs') Hm1) as Hm2.
  destruct (shr_fexp_pos _ e' loc_Exact Hm2 He1) as [Hm3 _].
  destruct (shr_fexp prec emax _ e' loc_Exact) as [mrs'' e''].
  cbn [fst] in Hm3. destruct (shr_m mrs'') as [|p|p]; [done| |done].
  destruct (Z.leb _ _); eauto.
Qed.

Lemma of_Z_pos (n : Z) :
  0 < n →
  (∃ m e, of_Z n = S754_finite false m e) ∨ of_Z n = S754_infinity false.
Proof.
  intros Hn. destruct n as [|p|p]; [done| |done].
  unfold of_Z, binary_normalize, binary_round, shl_align.
  destruct (fexp prec emax (Z.pos (digits2_pos p) + 0) - 0) as [|k|k] eqn:Hk;
    apply binary_round_aux_pos; try done.
  unfold fexp, emin, prec, emax in *. lia.
Qed.

(** Zero divided by a count is zero. *)
Lemma div_zero_count (n : nat) :
  n ≠ 0%nat → div zero (of_Z (Z.of_nat n)) = zero.
Proof.
  intros Hn. destruct (of_Z_pos (Z.of_nat n)) as [(m & e & ->)| ->]; [lia|done..].
Qed.

Lemma sum_left_zeros (l : list float64) :
  Forall (λ x, x = zero) l → sum_left l = zero.
Proof.
  unfold sum_left. induction 1 as [|x l -> _ IH]; [done|]. exact IH.
Qed.

End FloatFacts.

(** ** Metric evaluator *)

Module MetricsFacts.
Import Metrics.

Lemma size_as_array (l : list Q) : size (as_array l) = length l.
Proof. unfold as_array. cbn [size]. by rewrite length_fmap. Qed.

Lemma all_finite_as_array (l : list Q) : all_finite (as_array l) = true.
Proof.
  unfold as_array. cbn [all_finite]. induction l as [|q l IH]; [done|].
  cbn [fmap list_fmap forallb]. rewrite FloatFacts.of_Q_finite. exact IH.
Qed.

(** The squared residuals do not depend on the side the difference is
    taken from. *)
Lemma float_squares_swap (x y : list float64) :
  (λ v, Float64.mul v v) <$> zip_with Float64.sub x y
  = (λ v, Float64.mul v v) <$> zip_with Float64.sub y x.
Proof.
  revert y. induction x as [|a x IH]; intros [|b y]; [done..|].
  cbn [zip_with fmap list_fmap]. f_equal; [apply FloatFacts.square_sub_swap|].
  apply IH.
Qed.

Lemma int_squares_swap (x y : list Z) :
  (λ m, Int64.wrap (m * m)) <$> zip_with (λ m n, Int64.wrap (m - n)) x y
  = (λ m, Int64.wrap (m * m)) <$> zip_with (λ m n, Int64.wrap (m - n)) y x.
Proof.
  revert y. induction x as [|a x IH]; intros [|b y]; [done..|].
  cbn [zip_with fmap list_fmap]. f_equal; [|apply IH].
  rewrite !Int64Facts.wrap_mul. f_equal. lia.
Qed.

Lemma square_subtract_swap (a b : ndarray) :
  square (subtract a b) = square (subtract b a).
Proof.
  destruct a as [x|x], b as [y|y]; cbn [subtract square]; f_equal;
    auto using float_squares_swap, int_squares_swap.
Qed.

(** The residuals of a sequence against itself, or against the same
    numbers held as doubles, are zero. *)
Lemma float_residuals_zero (x : list float64) :
  forallb Float64.is_finite x = true →
  Forall (λ v, v = Float64.zero) (zip_with Float64.sub x x).
Proof.
  intros Hfin. induction x as [|a x IH]; [constructor|].
  cbn [forallb] in Hfin. apply andb_true_iff in Hfin as [Ha Hx].
  cbn [zip_with]. constructor; [by apply FloatFacts.sub_diag|by apply IH].
Qed.

Lemma int_residuals_zero (x : list Z) :
  Forall (λ v, v = 0) (zip_with (λ m n, Int64.wrap (m - n)) x x).
Proof.
  induction x as [|a x IH]; [constructor|]. cbn [zip_with].
  constructor; [by rewrite Z.sub_diag|done].
Qed.

Lemma Forall_fmap_const {A B} (f : A → B) (a : A) (b : B) (l : list A) :
  f a = b → Forall (λ v, v = a) l → Forall (λ v, v = b) (f <$> l).
Proof. intros Hf Hl. apply Forall_fmap. eapply Forall_impl; [exact Hl|]. by intros ? ->. Qed.

Lemma foldr_add_zeros (l : list Z) : Forall (λ v, v = 0) l → foldr Z.add 0 l = 0.
Proof. induction 1 as [|x l -> _ IH]; [done|]. cbn [foldr]. by rewrite IH. Qed.

Section with_reduction.
Variable add_reduce : list float64 → float64.

Lemma evaluate_model_unfold (y p : ndarray) :
  size y = size p → size y ≠ 0%nat →
  all_finite y = true → all_finite p = true →
  evaluate_model add_reduce y p
  = Ok (mkMetrics (average add_reduce (square (subtract y p)))
                  (average add_reduce (absolute (subtract p y)))
                  (array_sum add_reduce (square (subtract p y)))).
Proof.
  intros Hlen Hne Hy Hp. unfold evaluate_model, mean_squared_error,
    mean_absolute_error, check_targets.
  rewrite decide_True by done. rewrite decide_False by done.
  rewrite Hy, Hp. reflexivity.
Qed.

Lemma evaluate_model_inv (y p : ndarray) (m : eval_metrics) :
  evaluate_model add_reduce y p = Ok m →
  size y = size p ∧ size y ≠ 0%nat ∧
  all_finite y = true ∧ all_finite p = true.
Proof.
  unfold evaluate_model, mean_squared_error, check_targets.
  destruct (decide (size y = size p)); [|done].
  destruct (decide (size y = 0%nat)); [done|].
  destruct (all_finite y), (all_finite p); done.
Qed.

Lemma size_square_subtract (a b : ndarray) :
  size a = size b → size (square (subtract a b)) = size a.
Proof.
  destruct a as [x|x], b as [y|y]; cbn [size subtract square astype_float];
    intros Hlen; rewrite length_fmap, length_zip_with, ?length_fmap; lia.
Qed.

Lemma average_zeros (a : ndarray) :
  (∀ l, Forall (λ x, x = Float64.zero) l → add_reduce l = Float64.zero) →
  Forall (λ x, x = Float64.zero) (astype_float a) →
  size a ≠ 0%nat →
  average add_reduce a = Float64.zero.
Proof.
  intros Hsum Hzero Hne. unfold average. rewrite (Hsum _ Hzero).
  by apply FloatFacts.div_zero_count.
Qed.

(** The residuals of two arrays that hold the same numbers. *)
Lemma residuals_same_numbers (p y : ndarray) :
  all_finite y = true → all_finite p = true → same_numbers p y →
  (∃ l, subtract p y = Float64Array l ∧ Forall (λ x, x = Float64.zero) l) ∨
  (∃ l, subtract p y = Int64Array l ∧ Forall (λ x, x = 0) l).
Proof.
  intros Hy Hp [->|[Heq (l & Hl)]].
  - destruct y as [x|x]; cbn [subtract astype_float].
    + right. eexists. split; [done|]. apply int_residuals_zero.
    + left. eexists. split; [done|]. by apply float_residuals_zero.
  - left. assert (subtract p y
                  = Float64Array (zip_with Float64.sub (astype_float y)
                                    (astype_float y))) as ->.
    { destruct Hl as [->| ->].
      - destruct y; cbn [subtract]; by rewrite <- Heq.
      - destruct p; cbn [subtract]; by rewrite Heq. }
    eexists. split; [done|]. apply float_residuals_zero.
    destruct Hl as [->| ->].
    + rewrite <- Heq. exact Hp.
    + exact Hy.
Qed.

End with_reduction.

(** C6. The evaluator returns on two sequences of the same positive length
    without infinity or NaN, and raises [ValueError] on empty ones. What it
    returns is computed from one list of squared residuals: [rss] is their
    sum and [mse] their average, so for arrays of doubles [mse] is [rss]
    divided by the number of elements, rounded to a double. When the two
    sequences hold the same numbers and adding zeros gives zero, the three
    metrics are zero. *)
Theorem evaluate_model_relations (add_reduce : list float64 → float64)
    (y p : ndarray) :
  size y = size p →
  (size y ≠ 0%nat → all_finite y = true → all_finite p = true →
     ∃ m, evaluate_model add_reduce y p = Ok m) ∧
  (size y = 0%nat → evaluate_model add_reduce y p = Err ValueError) ∧
  ∀ m, evaluate_model add_reduce y p = Ok m →
    mse m = average add_reduce (square (subtract p y)) ∧
    rss m = array_sum add_reduce (square (subtract p y)) ∧
    (∀ r, rss m = NpFloat64 r →
          mse m = Float64.div r (Float64.of_Z (Z.of_nat (size y)))) ∧
    ((∀ l, Forall (λ x, x = Float64.zero) l → add_reduce l = Float64.zero) →
     same_numbers p y →
     mse m = Float64.zero ∧ mae m = Float64.zero ∧
     (rss m = NpFloat64 Float64.zero ∨ rss m = NpInt64 0)).
Proof.
  intros Hlen. split; [|split].
  - intros Hne Hy Hp. rewrite evaluate_model_unfold by done. by eexists.
  - intros Hzero. unfold evaluate_model, mean_squared_error, check_targets.
    rewrite decide_True by done. by rewrite decide_True by done.
  - intros m Hm.
    destruct (evaluate_model_inv _ _ _ _ Hm) as (_ & Hne & Hy & Hp).
    rewrite evaluate_model_unfold in Hm by done. injection Hm as <-.
    cbn [mse mae rss]. rewrite (square_subtract_swap y p).
    split; [done|]. split; [done|]. split.
    + intros r Hr. unfold average.
      rewrite size_square_subtract by done. rewrite <- Hlen.
      destruct (square (subtract p y)) as [x|x]; [done|].
      cbn [array_sum astype_float] in *. by injection Hr as <-.
    + intros Hsum Hsame.
      assert (size (subtract p y) = size y) as Hsize.
      { destruct p, y; cbn [size subtract astype_float] in *;
          rewrite length_zip_with, ?length_fmap; lia. }
      destruct (residuals_same_numbers p y Hy Hp Hsame)
        as [(l & Hsub & Hl)|(l & Hsub & Hl)];
        rewrite Hsub in *; cbn [size] in Hsize.
      * cbn [square absolute array_sum]. split; [|split; [|left]].
        -- apply average_zeros; [done| |cbn [size]; rewrite length_fmap; lia].
           cbn [astype_float]. by apply (Forall_fmap_const _ Float64.zero).
        -- apply average_zeros; [done| |cbn [size]; rewrite length_fmap; lia].
           cbn [astype_float]. by apply (Forall_fmap_const _ Float64.zero).
        -- f_equal. apply Hsum. by apply (Forall_fmap_const _ Float64.zero).
      * cbn [square absolute array_sum]. split; [|split; [|right]].
        -- apply average_zeros; [done| |cbn [size]; rewrite length_fmap; lia].
           cbn [astype_float]. apply (Forall_fmap_const _ 0); [done|].
           by apply (Forall_fmap_const _ 0).
        -- apply average_zeros; [done| |cbn [size]; rewrite length_fmap; lia].
           cbn [astype_float]. apply (Forall_fmap_const _ 0); [done|].
           by apply (Forall_fmap_const _ 0).
        -- f_equal. rewrite foldr_add_zeros; [done|].
           by apply (Forall_fmap_const _ 0).
Qed.

Lemma evaluate_model_relations_witness :
  (∃ m r,
     evaluate_model Float64.sum_left Scenarios.three_targets
       Scenarios.three_predictions = Ok m ∧
     rss m = NpFloat64 r ∧
     r = Float64.of_Z 13 ∧
     mse m = Float64.div r (Float64.of_Z 3)) ∧
  (∃ m,
     evaluate_model Float64.sum_left Scenarios.three_targets
       Scenarios.three_targets = Ok m ∧
     mse m = Float64.zero ∧ mae m = Float64.zero ∧
     (rss m = NpFloat64 Float64.zero ∨ rss m = NpInt64 0)).
Proof.
  split.
  - destruct (evaluate_model_relations Float64.sum_left
                Scenarios.three_targets Scenarios.three_predictions eq_refl)
      as (Hreturns & _ & Hall).
    destruct Hreturns as [m Hm]; [discriminate|reflexivity|reflexivity|].
    destruct (Hall m Hm) as (_ & Hrss & Hmse & _).
    exists m, (Float64.of_Z 13). split; [exact Hm|].
    assert (rss m = NpFloat64 (Float64.of_Z 13)) as Hr.
    { rewrite Hrss. by vm_compute. }
    split; [exact Hr|]. split; [reflexivity|]. exact (Hmse _ Hr).
  - destruct (evaluate_model_relations Float64.sum_left
                Scenarios.three_targets Scenarios.three_targets eq_refl)
      as (Hreturns & _ & Hall).
    destruct Hreturns as [m Hm]; [discriminate|reflexivity|reflexivity|].
    destruct (Hall m Hm) as (_ & _ & _ & Hzero).
    exists m. split; [exact Hm|].
    apply Hzero; [exact FloatFacts.sum_left_zeros|by left].
Defined.

(** The claim as the design document states it fails in double arithmetic:
    for one residual of 1 among 49 elements [rss] is 1, [mse] is the double
    nearest to 1/49, and neither the double product nor the exact product
    of that double by 49 is 1. *)
Lemma rss_is_not_mse_times_n :
  ∃ m,
    evaluate_model Float64.sum_left Scenarios.one_and_zeros
      Scenarios.only_zeros = Ok m ∧
    size Scenarios.one_and_zeros = 49%nat ∧
    rss m = NpFloat64 (Float64.of_Z 1) ∧
    Float64.eqb (Float64.mul (mse m) (Float64.of_Z 49)) (Float64.of_Z 1)
    = false ∧
    ¬ (Float64.rational (mse m) * 49 == 1)%Q.
Proof.
  eexists. split; [by vm_compute|]. split; [reflexivity|].
  split; [by vm_compute|]. split; [by vm_compute|].
  vm_compute. discriminate.
Qed.

(** Residuals 2, 0, 3 on doubles give [rss = 13], and [mse] and [mae] are
    the doubles nearest to 13/3 and 5/3. *)
Example evaluate_model_three :
  evaluate_model Float64.sum_left Scenarios.three_targets
    Scenarios.three_predictions
  = Ok (mkMetrics (Float64.of_Q (13 # 3)) (Float64.of_Q (5 # 3))
                  (NpFloat64 (Float64.of_Z 13))).
Proof. by vm_compute. Qed.

(** Both checked on integers: the squares are taken modulo [2 ^ 64], so a
    residual of 4000000000 gives a negative [rss]. *)
Example evaluate_model_int64_wraps :
  match evaluate_model Float64.sum_left (Int64Array [4000000000])
          (Int64Array [0]) with
  | Ok m => rss m = NpInt64 (-2446744073709551616)
          ∧ Float64.rational (mse m) = (-2446744073709551616)%Q
  | Err _ => False
  end.
Proof. by vm_compute. Qed.

End MetricsFacts.

(** ** Feature importance extractor *)

Module ImportanceFacts.
Import Importance.

Lemma foldl_extend {A B} (f : B → list A) (acc : list A) (l : list B) :
  foldl (λ acc x, acc ++ f x) acc l = acc ++ (x ← l; f x).
Proof.
  revert acc. induction l as [|x l IH]; intros acc; simpl.
  - by rewrite app_nil_r.
  - rewrite IH. by rewrite app_assoc.
Qed.

(** C8. With degree 2 and the features [a], [b] the labels are
    [1, a^1, b^1, a^2, b^2]; for any truthy degree [d] the labels are the
    bias label followed, for each power from 1 to [d] in increasing order,
    by the label of every feature at that power, in the order of the
    feature list. *)
Theorem feature_list_labels :
  feature_list ["a"; "b"] (Some 2) = ["1"; "a^1"; "b^1"; "a^2"; "b^2"] ∧
  ∀ (features : list string) (d : Z),
    features ≠ [] → d ≠ 0 →
    feature_list features (Some d)
    = "1" :: (p ← Py.range 1 (d + 1);
              (λ feat, feat +:+ "^" +:+ pretty p) <$> features).
Proof.
  split; [by vm_compute|].
  intros features d _ Hd. unfold feature_list, truthy.
  rewrite bool_decide_eq_false_2 by done. simpl.
  by rewrite foldl_extend.
Qed.

Lemma feature_list_labels_witness :
  feature_list ["x"; "y"; "z"] (Some 3)
  = "1" :: (p ← Py.range 1 (3 + 1);
            (λ feat, feat +:+ "^" +:+ pretty p) <$> ["x"; "y"; "z"]).
Proof.
  apply (proj2 feature_list_labels ["x"; "y"; "z"] 3); [discriminate | lia].
Defined.


(** A falsy degree gives no bias label and the first powers only. *)
Example feature_list_no_degree :
  feature_list ["a"; "b"] None = ["a^1"; "b^1"].
Proof. by vm_compute. Qed.

End ImportanceFacts.

(** ** Feature assembly *)

Module PrepFacts.
Import Grid Prep.

Lemma weather_unknown :
  "weather" ∉ ["naive"; "population"; "policy"; "total"].
Proof.
  rewrite !elem_of_cons, elem_of_nil.
  intros [?|[?|[?|[?|[]]]]]; discriminate.
Qed.

Lemma dict_get_missing {V} (d : list (string * V)) (k : string) :
  k ∉ d.*1 → dict_get d k = Err (KeyError k).
Proof.
  intros Hk. unfold dict_get.
  destruct (list_find _ d) as [[i kv]|] eqn:E; [|done].
  apply list_find_Some in E as (Hl & Hkv & _). exfalso. apply Hk.
  apply list_elem_of_fmap. exists kv. split; [done|].
  by eapply list_elem_of_lookup_2.
Qed.

Lemma dict_get_Ok {V} (d : list (string * V)) (k : string) (v : V) :
  dict_get d k = Ok v → (k, v) ∈ d.
Proof.
  unfold dict_get.
  destruct (list_find _ d) as [[i [k' v']]|] eqn:E; [|done].
  apply list_find_Some in E as (Hl & Hkv & _). simpl in *.
  intros [= <-]. subst k'. by eapply list_elem_of_lookup_2.
Qed.

(** C9, as the code has it. A feature-set name outside the four known ones
    makes [normalize_prep_eval_data] raise; when normalization and the
    removal of the first week go through, the exception is the [KeyError]
    of the lookup in [FEATURES], carrying the unknown name. *)
Theorem normalize_prep_eval_data_unknown_feat_type `{Collaborators}
    (train test : DataFrame) (feat_type : string) (include_date : bool) :
  feat_type ∉ ["naive"; "population"; "policy"; "total"] →
  raises (normalize_prep_eval_data train test feat_type include_date) ∧
  ∀ train' test' train'',
    normalize_block train test = Ok (train', test') →
    drop_first_week train' = Ok train'' →
    normalize_prep_eval_data train test feat_type include_date
    = Err (KeyError feat_type).
Proof.
  intros Hft.
  assert (dict_get FEATURES feat_type = Err (KeyError feat_type)) as Hget
    by (by apply dict_get_missing).
  unfold normalize_prep_eval_data. split.
  - destruct (normalize_block train test) as [[train' test']|e]; result_simpl;
      [|by exists e].
    destruct (drop_first_week train') as [train''|e]; result_simpl;
      [|by exists e].
    rewrite Hget. by eexists.
  - intros train' test' train'' E1 E2. rewrite E1. result_simpl.
    rewrite E2. result_simpl. by rewrite Hget.
Qed.

Lemma normalize_prep_eval_data_unknown_feat_type_witness :
  raises (normalize_prep_eval_data (H := Examples.stand_ins)
            Examples.three_weeks Examples.three_weeks "weather" false) ∧
  ∀ train' test' train'',
    normalize_block (H := Examples.stand_ins)
      Examples.three_weeks Examples.three_weeks = Ok (train', test') →
    drop_first_week train' = Ok train'' →
    normalize_prep_eval_data (H := Examples.stand_ins)
      Examples.three_weeks Examples.three_weeks "weather" false
    = Err (KeyError "weather").
Proof.
  apply (normalize_prep_eval_data_unknown_feat_type (H := Examples.stand_ins)).
  rewrite !elem_of_cons, elem_of_nil.
  intros [?|[?|[?|[?|[]]]]]; discriminate.
Defined.

(** The claim as the design document words it fails: on a well-formed
    frame an unknown name ends in a [KeyError], which is not a
    [ConfigurationError]. *)
Lemma unknown_feat_type_not_configuration_error :
  ("weather" ∉ ["naive"; "population"; "policy"; "total"]) ∧
  normalize_prep_eval_data (H := Examples.stand_ins)
    Examples.three_weeks Examples.three_weeks "weather" false
  = Err (KeyError "weather") ∧
  (normalize_prep_eval_data (H := Examples.stand_ins)
     Examples.three_weeks Examples.three_weeks "weather" false)
  ≠ Err ConfigurationError.
Proof.
  split; [exact weather_unknown|].
  assert (normalize_prep_eval_data (H := Examples.stand_ins)
            Examples.three_weeks Examples.three_weeks "weather" false
          = Err (KeyError "weather")) as E by (by vm_compute).
  split; [exact E|]. rewrite E. discriminate.
Qed.

(** A known name goes through on the same frame. *)
Example normalize_prep_eval_data_naive :
  match normalize_prep_eval_data (H := Examples.stand_ins)
          Examples.three_weeks Examples.three_weeks "naive" false with
  | Ok (X_train, y_train, _, y_test) =>
      columns X_train = ["lag_prisoner_cases"; "new_prisoner_cases"; "state_ohio"]
      ∧ y_train = [Int 8; Int 12; Int 20]
      ∧ y_test = [Int 5; Int 8; Int 12; Int 20]
  | Err _ => False
  end.
Proof. by vm_compute. Qed.

End PrepFacts.

(** ** Cross-validation orchestrator: the design matrices *)

Module DesignFacts.
Import Grid Prep CV.

Lemma loc_columns_columns df cols df' :
  loc_columns df cols = Ok df' → columns df' = cols.
Proof.
  unfold loc_columns. destruct (list_find _ cols) as [[? ?]|]; [done|].
  by intros [= <-].
Qed.

Lemma values_n_cols df m : values df = Ok m → n_cols m = length (columns df).
Proof.
  unfold values. destruct (traverse _ (rows df)); [|done].
  result_simpl. by intros [= <-].
Qed.

Lemma poly_fit_Ok poly X :
  data X ≠ [] →
  poly_fit poly X
  = Ok (mkPoly (poly_degree poly) (Some (n_cols X)) (fitted_on poly ++ [X])).
Proof. unfold poly_fit. by destruct (data X). Qed.

Lemma fit_transform_Ok `{Collaborators} poly X :
  data X ≠ [] →
  fit_transform poly X
  = Ok (mkPoly (poly_degree poly) (Some (n_cols X)) (fitted_on poly ++ [X]),
        expand (poly_degree poly) X).
Proof.
  intros Hne. unfold fit_transform. rewrite poly_fit_Ok by done. result_simpl.
  unfold poly_transform. cbn [n_input_features poly_degree].
  by rewrite decide_True by done.
Qed.

(** C2, as the code has it. For one fold and one degree the expansion
    object is fitted on the training features and then fitted again on the
    test features: the test design matrix is the result of [fit_transform]
    on the test data. As fitting records nothing but the number of columns,
    that matrix is also what the expansion fitted on the training data
    returns for the test data. *)
Theorem design_matrices_refit_on_test `{Collaborators}
    (train test : DataFrame) (features : list string) (deg : Z)
    (train_features test_features : DataFrame) (train_values test_values : Matrix) :
  loc_columns train features = Ok train_features →
  values train_features = Ok train_values →
  data train_values ≠ [] →
  loc_columns test features = Ok test_features →
  values test_features = Ok test_values →
  data test_values ≠ [] →
  ∃ fitted_on_train fitted_on_test,
    poly_fit (new_poly deg) train_values = Ok fitted_on_train ∧
    poly_fit fitted_on_train test_values = Ok fitted_on_test ∧
    fitted_on fitted_on_test = [train_values; test_values] ∧
    design_matrices train test features deg
    = Ok (expand deg train_values, expand deg test_values, fitted_on_test) ∧
    poly_transform fitted_on_train test_values = Ok (expand deg test_values).
Proof.
  intros Htf Htv Htne Hsf Hsv Hsne.
  assert (n_cols train_values = length features) as Hn1.
  { rewrite (values_n_cols _ _ Htv). by rewrite (loc_columns_columns _ _ _ Htf). }
  assert (n_cols test_values = length features) as Hn2.
  { rewrite (values_n_cols _ _ Hsv). by rewrite (loc_columns_columns _ _ _ Hsf). }
  eexists _, _. split; [by apply poly_fit_Ok|]. split; [by apply poly_fit_Ok|].
  split; [done|]. split.
  - unfold design_matrices. rewrite Htf. result_simpl. rewrite Htv. result_simpl.
    rewrite fit_transform_Ok by done. result_simpl.
    rewrite Hsf. result_simpl. rewrite Hsv. result_simpl.
    rewrite fit_transform_Ok by done. result_simpl. done.
  - unfold poly_transform. cbn [n_input_features poly_degree new_poly].
    rewrite decide_True by congruence. done.
Qed.

Lemma design_matrices_refit_on_test_witness :
  ∃ fitted_on_train fitted_on_test,
    poly_fit (new_poly 2)
      (mkMatrix 2 [[0; 0]; [5; 3]; [8; 4]; [13; 7]]%Q) = Ok fitted_on_train ∧
    poly_fit fitted_on_train (mkMatrix 2 [[12; 3]; [20; 9]]%Q)
    = Ok fitted_on_test ∧
    fitted_on fitted_on_test
    = [mkMatrix 2 [[0; 0]; [5; 3]; [8; 4]; [13; 7]]%Q;
       mkMatrix 2 [[12; 3]; [20; 9]]%Q] ∧
    design_matrices (H := Examples.stand_ins) Examples.three_weeks
      Examples.week_17 Examples.naive_features 2
    = Ok (expand (Collaborators := Examples.stand_ins) 2
            (mkMatrix 2 [[0; 0]; [5; 3]; [8; 4]; [13; 7]]%Q),
          expand (Collaborators := Examples.stand_ins) 2
            (mkMatrix 2 [[12; 3]; [20; 9]]%Q),
          fitted_on_test) ∧
    poly_transform (H := Examples.stand_ins) fitted_on_train
      (mkMatrix 2 [[12; 3]; [20; 9]]%Q)
    = Ok (expand (Collaborators := Examples.stand_ins) 2
            (mkMatrix 2 [[12; 3]; [20; 9]]%Q)).
Proof.
  eapply (design_matrices_refit_on_test (H := Examples.stand_ins)
            Examples.three_weeks Examples.week_17 Examples.naive_features 2).
  - by vm_compute.
  - by vm_compute.
  - discriminate.
  - by vm_compute.
  - by vm_compute.
  - discriminate.
Defined.

(** The claim as the design document words it fails: after the design
    matrices of a fold are built, the test data is among the arrays the
    expansion object has been fitted on. *)
Lemma expansion_is_refit_on_test :
  match design_matrices (H := Examples.stand_ins) Examples.three_weeks
          Examples.week_17 Examples.naive_features 2 with
  | Ok (_, _, poly) =>
      ∃ test_values,
        (loc_columns Examples.week_17 Examples.naive_features ≫= values)
        = Ok test_values ∧
        test_values ∈ fitted_on poly
  | Err _ => False
  end.
Proof.
  vm_compute. eexists. split; [reflexivity|]. right. left.
Qed.

End DesignFacts.

(** ** Forward simulator *)

Module SimulateFacts.
Import Grid Prep.

Lemma select_nil_r {A} (mask : list bool) : select mask ([] : list A) = [].
Proof. by destruct mask as [|[] ?]. Qed.

Lemma select_fmap_self {A} (P : A → Prop) `{!∀ a, Decision (P a)} (ws : list A) :
  select ((λ w, bool_decide (P w)) <$> ws) ws = filter P ws.
Proof.
  induction ws as [|w ws IH]; [done|]. cbn [fmap list_fmap select].
  rewrite filter_cons. case_bool_decide.
  - rewrite decide_True by done. by f_equal.
  - by rewrite decide_False by done.
Qed.

Lemma select_twice {A B} (P1 P2 : B → Prop)
    `{!∀ b, Decision (P1 b)} `{!∀ b, Decision (P2 b)}
    (xs : list A) (ws : list B) :
  select ((λ w, bool_decide (P2 w)) <$> select ((λ w, bool_decide (P1 w)) <$> ws) ws)
         (select ((λ w, bool_decide (P1 w)) <$> ws) xs)
  = select ((λ w, bool_decide (P1 w ∧ P2 w)) <$> ws) xs.
Proof.
  revert xs. induction ws as [|w ws IH]; intros xs; [done|].
  destruct xs as [|x xs].
  - cbn [fmap list_fmap select]. by rewrite !select_nil_r.
  - cbn [fmap list_fmap select]. destruct (decide (P1 w)) as [H1|H1].
    + rewrite (bool_decide_eq_true_2 (P1 w)) by done.
      cbn [fmap list_fmap select]. destruct (decide (P2 w)) as [H2|H2].
      * rewrite (bool_decide_eq_true_2 (P2 w)) by done.
        rewrite (bool_decide_eq_true_2 (P1 w ∧ P2 w)) by done.
        f_equal. apply IH.
      * rewrite (bool_decide_eq_false_2 (P2 w)) by done.
        rewrite (bool_decide_eq_false_2 (P1 w ∧ P2 w)) by tauto.
        apply IH.
    + rewrite (bool_decide_eq_false_2 (P1 w)) by done.
      rewrite (bool_decide_eq_false_2 (P1 w ∧ P2 w)) by tauto.
      apply IH.
Qed.

Lemma traverse_Forall2 {A B} (f : A → result B) (l : list A) (ys : list B) :
  traverse f l = Ok ys → Forall2 (λ x y, f x = Ok y) l ys.
Proof.
  revert ys. induction l as [|x l IH]; intros ys; simpl.
  - intros [= <-]. constructor.
  - destruct (f x) eqn:E; [|done]. destruct (traverse f l); [|done].
    intros [= <-]. constructor; [done|]. by apply IH.
Qed.

Lemma getitem_fmap {A} (cols : list string) (F : A → row) (L : list A)
    (c : string) (g : A → value) :
  c ∈ cols →
  Forall (λ a, F a !! c = Some (g a)) L →
  getitem (mkDataFrame cols (F <$> L)) c = Ok (g <$> L).
Proof.
  intros Hc HL. unfold getitem. cbn [columns rows].
  rewrite decide_True by done.
  induction HL as [|a L Ha _ IH]; [done|].
  cbn [fmap list_fmap traverse]. rewrite Ha.
  change (list_fmap A row F L) with (F <$> L). rewrite IH. done.
Qed.

Lemma elem_of_with_column (x c : string) (cols : list string) :
  x ∈ cols → x ∈ with_column c cols.
Proof.
  intros Hx. unfold with_column. case_decide; [done|].
  apply elem_of_app. by left.
Qed.

Lemma setitem_series_fmap {A} (cols : list string) (F : A → row) (L : list A)
    (c : string) (g : A → value) :
  setitem_series (mkDataFrame cols (F <$> L)) c (g <$> L)
  = mkDataFrame (with_column c cols) ((λ a, <[c := g a]> (F a)) <$> L).
Proof.
  unfold setitem_series, with_column. cbn [columns rows]. f_equal.
  induction L as [|a L IH]; [done|]. cbn [fmap list_fmap zip_with].
  f_equal. apply IH.
Qed.

Lemma traverse_fmap_total {A B C} (f : B → result C) (h : A → B) (g : A → C)
    (L : list A) :
  Forall (λ a, f (h a) = Ok (g a)) L → traverse f (h <$> L) = Ok (g <$> L).
Proof.
  induction 1 as [|a L Ha _ IH]; [done|].
  cbn [fmap list_fmap traverse]. rewrite Ha.
  change (list_fmap A B h L) with (h <$> L). by rewrite IH.
Qed.

Lemma zip_fmap_same {A B C} (f : A → B) (g : A → C) (L : list A) :
  zip (f <$> L) (g <$> L) = (λ a, (f a, g a)) <$> L.
Proof. induction L as [|a L IH]; [done|]. simpl. by f_equal. Qed.

Lemma bind_bind_Ok {A B C} (m : result A) (f : A → result B)
    (k : B → result C) (v : B) :
  (m ≫= f) = Ok v → (m ≫= λ x, f x ≫= k) = k v.
Proof. destruct m as [a|]; [|done]. result_simpl. by intros ->. Qed.

Lemma getitem_column df c vs : getitem df c = Ok vs → c ∈ columns df.
Proof. unfold getitem. by case_decide. Qed.

Lemma getitem_loc_mask df c vs mask :
  getitem df c = Ok vs → getitem (loc_mask df mask) c = Ok (select mask vs).
Proof.
  unfold getitem. cbn [loc_mask columns rows]. case_decide; [|done].
  apply traverse_select.
Qed.

Lemma dt_week_lookup df c ws :
  dt_week df c = Ok ws →
  Forall2 (λ (r : row) w, r !! c = Some (Timestamp w)) (rows df) ws.
Proof.
  intros (dates & Hd & Ht)%SplitterFacts.dt_week_dates.
  unfold getitem in Hd. case_decide; [|done].
  apply traverse_Forall2 in Hd. apply traverse_Forall2 in Ht.
  revert ws Ht. induction Hd as [|r d rs ds Hr _ IH]; intros ws Ht.
  - inversion Ht. constructor.
  - inversion Ht as [|? w ? ws' Hdw Hrest]; subst. constructor.
    + destruct (r !! c) as [v|]; [|done]. injection Hr as ->.
      destruct d; try done. by injection Hdw as ->.
    + by apply IH.
Qed.

Lemma filter_zip_Forall {A B} (R : A → B → Prop) (P : B → Prop)
    `{!∀ b, Decision (P b)} (xs : list A) (ws : list B) :
  Forall2 R xs ws →
  Forall (λ x, ∃ w, R x w ∧ P w) (filter (λ p, P p.2) (zip xs ws)).*1.
Proof.
  induction 1 as [|x w xs ws HR _ IH]; [constructor|].
  cbn [zip zip_with]. rewrite filter_cons. cbn [snd]. case_decide; [|done].
  cbn [fmap list_fmap fst]. constructor; [by exists w|done].
Qed.

Lemma drop_first_week_Ok df ws earliest :
  dt_week df "as_of_date" = Ok ws →
  iloc_first ws = Ok earliest →
  drop_first_week df
  = Ok (loc_mask df ((λ w, bool_decide (w ≠ earliest)) <$> ws)).
Proof.
  intros Hw Hfirst.
  destruct (SplitterFacts.dt_week_dates _ _ _ Hw) as (dates & Hd & Ht).
  unfold drop_first_week. rewrite Hd. result_simpl.
  rewrite (bind_bind_Ok _ _ _ earliest).
  2:{ by rewrite (SplitterFacts.traverse_week_first _ _ Ht). }
  rewrite Hw. result_simpl. do 2 f_equal.
  apply list_fmap_ext. intros _ w _. by rewrite bool_decide_not.
Qed.

Lemma setitem_series_columns df c s :
  c ∈ columns df → columns (setitem_series df c s) = columns df.
Proof.
  intros Hc. unfold setitem_series, with_column. cbn.
  by rewrite decide_True by done.
Qed.

Lemma foldl_setitem_scalar_rows (feat_dict : list (string * value)) df :
  rows (foldl (λ test kv, setitem_scalar test kv.1 kv.2) df feat_dict)
  = (λ r : row, foldl (λ r kv, <[kv.1 := kv.2]> r) r feat_dict) <$> rows df.
Proof.
  revert df. induction feat_dict as [|[k v] fd IH]; intros df; simpl.
  - by rewrite list_fmap_id.
  - rewrite IH. cbn [setitem_scalar rows]. by rewrite <- list_fmap_compose.
Qed.

Lemma foldl_insert_union (feat_dict : list (string * value)) (r : row) :
  foldl (λ r kv, <[kv.1 := kv.2]> r) r feat_dict
  = (list_to_map (reverse feat_dict) : row) ∪ r.
Proof.
  revert r. induction feat_dict as [|[k v] fd IH]; intros r; simpl.
  - by rewrite (left_id_L ∅ (∪)).
  - rewrite IH, reverse_cons, list_to_map_app. simpl.
    rewrite insert_empty, <- (assoc_L (∪)).
    by rewrite <- insert_union_singleton_l.
Qed.

(** The rows built by [simulate], with the column sum as [Py.add] returns
    it. *)
Lemma simulate_test_rows (dataset : DataFrame)
    (feat_dict : list (string * value)) (ws : list Z)
    (earliest latest_week : Z) :
  dt_week dataset "as_of_date" = Ok ws →
  iloc_first ws = Ok earliest →
  last (filter (λ w, w ≠ earliest) ws) = Some latest_week →
  "total_prisoner_cases" ∈ columns dataset →
  "new_prisoner_cases" ∈ columns dataset →
  Forall (λ r : row, ∃ total new sum,
            r !! "total_prisoner_cases" = Some total ∧
            r !! "new_prisoner_cases" = Some new ∧
            Py.add total new = Ok sum)
         (filter (λ p, p.2 = latest_week) (zip (rows dataset) ws)).*1 →
  ∃ remaining test,
    simulate_test dataset feat_dict = Ok (remaining, test) ∧
    Forall2 (λ r r' : row, ∃ total new sum,
               r !! "as_of_date" = Some (Timestamp latest_week) ∧
               r !! "total_prisoner_cases" = Some total ∧
               r !! "new_prisoner_cases" = Some new ∧
               Py.add total new = Ok sum ∧
               r' = (list_to_map (reverse feat_dict) : row) ∪
                    <["total_prisoner_cases" := sum]>
                      (<["lag_prisoner_cases" := total]>
                         (<["as_of_date" := Int (latest_week + 1)]> r)))
            (filter (λ p, p.2 = latest_week) (zip (rows dataset) ws)).*1
            (rows test).
Proof.
  intros Hw Hfirst Hlast Htot Hnew Hrows.
  set (L := (filter (λ p, p.2 = latest_week) (zip (rows dataset) ws)).*1) in *.
  set (m1 := (λ w, bool_decide (w ≠ earliest)) <$> ws).
  destruct (SplitterFacts.dt_week_dates _ _ _ Hw) as (dates & Hd & Ht).
  pose proof (getitem_column _ _ _ Hd) as Hdate.
  assert (latest_week ≠ earliest) as Hne.
  { apply last_Some_elem_of, list_elem_of_filter in Hlast. tauto. }
  (* the rows of the latest week *)
  assert (loc_mask (loc_mask dataset m1)
            ((λ w, bool_decide (w = latest_week)) <$> select m1 ws)
          = mkDataFrame (columns dataset) ((λ r : row, r) <$> L)) as Htest.
  { unfold loc_mask. cbn [columns rows]. f_equal. rewrite list_fmap_id.
    unfold m1. rewrite (select_twice (λ w, w ≠ earliest) (λ w, w = latest_week)).
    unfold L.
    etrans; [|exact (select_fmap_filter (λ w, w = latest_week) (rows dataset) ws)].
    f_equal. apply list_fmap_ext. intros _ w _.
    apply bool_decide_ext. split; [tauto|]. intros ->. done. }
  assert (Forall (λ r : row, r !! "as_of_date" = Some (Timestamp latest_week)) L)
    as Hdates.
  { pose proof (filter_zip_Forall _ (λ w, w = latest_week) _ _
                  (dt_week_lookup _ _ _ Hw)) as HF.
    eapply Forall_impl; [exact HF|]. by intros r (w & Hr & ->). }
  (* total, new cases and their sum as functions of a row *)
  set (T := λ r : row, default (Int 0) (r !! "total_prisoner_cases")).
  set (N := λ r : row, default (Int 0) (r !! "new_prisoner_cases")).
  set (S := λ r : row, match Py.add (T r) (N r) with Ok v => v | Err _ => Int 0 end).
  assert (Forall (λ r : row, r !! "total_prisoner_cases" = Some (T r) ∧
                             r !! "new_prisoner_cases" = Some (N r) ∧
                             Py.add (T r) (N r) = Ok (S r)) L) as HTNS.
  { eapply Forall_impl; [exact Hrows|]. intros r (t & n & s & Ht' & Hn' & Hs).
    unfold S, T, N. rewrite Ht', Hn'. simpl. by rewrite Hs. }
  eexists _, _. split.
  - unfold simulate_test.
    rewrite (drop_first_week_Ok _ _ _ Hw Hfirst). result_simpl. fold m1.
    rewrite (getitem_loc_mask _ _ _ m1 Hd). result_simpl.
    rewrite (bind_bind_Ok _ _ _ latest_week).
    2:{ rewrite (SplitterFacts.traverse_week_last _ (select m1 ws))
          by (by apply traverse_select).
        unfold m1. rewrite (select_fmap_self (λ w, w ≠ earliest)).
        unfold iloc_last. by rewrite Hlast. }
    rewrite (SplitterFacts.dt_week_loc_mask _ _ _ m1 Hw). result_simpl.
    rewrite Htest.
    rewrite (getitem_fmap _ _ _ "as_of_date" (λ _, Timestamp latest_week)) by done.
    result_simpl.
    rewrite (traverse_fmap_total _ _ (λ _, Int (latest_week + 1)))
      by (by apply Forall_true).
    result_simpl. rewrite setitem_series_fmap.
    rewrite (getitem_fmap _ _ _ "total_prisoner_cases" T).
    2:{ by apply elem_of_with_column. }
    2:{ eapply Forall_impl; [exact HTNS|]. intros r (Hr & _).
        rewrite lookup_insert_ne by discriminate. exact Hr. }
    result_simpl. rewrite setitem_series_fmap.
    rewrite (getitem_fmap _ _ _ "total_prisoner_cases" T).
    2:{ by do 2 apply elem_of_with_column. }
    2:{ eapply Forall_impl; [exact HTNS|]. intros r (Hr & _).
        rewrite !lookup_insert_ne by discriminate. exact Hr. }
    result_simpl.
    rewrite (getitem_fmap _ _ _ "new_prisoner_cases" N).
    2:{ by do 2 apply elem_of_with_column. }
    2:{ eapply Forall_impl; [exact HTNS|]. intros r (_ & Hr & _).
        rewrite !lookup_insert_ne by discriminate. exact Hr. }
    result_simpl. rewrite zip_fmap_same.
    rewrite (traverse_fmap_total _ _ S).
    2:{ eapply Forall_impl; [exact HTNS|]. by intros r (_ & _ & Hr). }
    result_simpl. rewrite setitem_series_fmap. reflexivity.
  - rewrite foldl_setitem_scalar_rows. cbn [rows].
    rewrite <- list_fmap_compose. apply Forall2_fmap_r, Forall_Forall2_diag.
    rewrite Forall_forall. intros r Hr.
    pose proof (proj1 (Forall_forall _ _) Hdates r Hr) as Hrd.
    pose proof (proj1 (Forall_forall _ _) HTNS r Hr) as (Hrt & Hrn & Hrs).
    exists (T r), (N r), (S r). repeat split; try done.
    simpl. by rewrite foldl_insert_union.
Qed.

Lemma add_is_number (total new : value) :
  is_number total → is_number new → ∃ sum, Py.add total new = Ok sum.
Proof. destruct total, new; try done; by eexists. Qed.

(** C5. On a dataset whose dates are well formed, let [latest_week] be the
    week of the last row outside the first week. [simulate] builds one
    simulated row per row of that week; before the overrides its lag is
    the row's total, its date label is [latest_week + 1], and its target is
    the row's total plus its new cases in the arithmetic of the two cells:
    for two integers the sum modulo [2 ^ 64] in the int64 range, which is
    the exact sum whenever that lies in the range, and the IEEE sum as soon
    as one of them is a double. The overrides of [feat_dict] are then
    written on top, a later one for the same column winning, over any
    column including these three. With an empty [feat_dict] nothing is
    written on top. *)
Theorem simulate_test_next_week (dataset : DataFrame)
    (feat_dict : list (string * value)) (ws : list Z)
    (earliest latest_week : Z) :
  dt_week dataset "as_of_date" = Ok ws →
  iloc_first ws = Ok earliest →
  last (filter (λ w, w ≠ earliest) ws) = Some latest_week →
  "total_prisoner_cases" ∈ columns dataset →
  "new_prisoner_cases" ∈ columns dataset →
  Forall (λ r : row, ∃ total new,
            r !! "total_prisoner_cases" = Some total ∧
            r !! "new_prisoner_cases" = Some new ∧
            is_number total ∧ is_number new)
         (filter (λ p, p.2 = latest_week) (zip (rows dataset) ws)).*1 →
  ∃ remaining test,
    simulate_test dataset feat_dict = Ok (remaining, test) ∧
    Forall2 (λ r r' : row, ∃ total new sum,
               r !! "as_of_date" = Some (Timestamp latest_week) ∧
               r !! "total_prisoner_cases" = Some total ∧
               r !! "new_prisoner_cases" = Some new ∧
               sum = match total, new with
                     | Int t, Int n => Int (Int64.wrap (t + n))
                     | Int t, Float y => Float (Float64.add (Float64.of_Z t) y)
                     | Float x, Int n => Float (Float64.add x (Float64.of_Z n))
                     | Float x, Float y => Float (Float64.add x y)
                     | _, _ => sum
                     end ∧
               (∀ t n, total = Int t → new = Int n →
                       Int64.in_range (t + n) → sum = Int (t + n)) ∧
               r' = (list_to_map (reverse feat_dict) : row) ∪
                    <["total_prisoner_cases" := sum]>
                      (<["lag_prisoner_cases" := total]>
                         (<["as_of_date" := Int (latest_week + 1)]> r)))
            (filter (λ p, p.2 = latest_week) (zip (rows dataset) ws)).*1
            (rows test).
Proof.
  intros Hw Hfirst Hlast Htot Hnew Hrows.
  destruct (simulate_test_rows dataset feat_dict ws earliest latest_week)
    as (remaining & test & Hsim & Hall); try done.
  { eapply Forall_impl; [exact Hrows|].
    intros r (total & new & Ht & Hn & Hnt & Hnn).
    destruct (add_is_number total new Hnt Hnn) as [sum Hsum]. eauto 10. }
  exists remaining, test. split; [exact Hsim|].
  eapply Forall2_impl; [exact Hall|].
  intros r r' (total & new & sum & Hd & Ht & Hn & Hsum & Hr').
  exists total, new, sum. repeat split; try done.
  - destruct total, new; try done; by injection Hsum as <-.
  - intros t n -> -> Hrange. injection Hsum as <-.
    by rewrite Int64Facts.wrap_in_range.
Qed.

Lemma simulate_test_next_week_witness :
  ∃ remaining test,
    simulate_test Examples.three_weeks [("no_visits", Int 1)]
    = Ok (remaining, test) ∧
    Forall2 (λ r r' : row, ∃ total new sum,
               r !! "as_of_date" = Some (Timestamp 16) ∧
               r !! "total_prisoner_cases" = Some total ∧
               r !! "new_prisoner_cases" = Some new ∧
               sum = match total, new with
                     | Int t, Int n => Int (Int64.wrap (t + n))
                     | Int t, Float y => Float (Float64.add (Float64.of_Z t) y)
                     | Float x, Int n => Float (Float64.add x (Float64.of_Z n))
                     | Float x, Float y => Float (Float64.add x y)
                     | _, _ => sum
                     end ∧
               (∀ t n, total = Int t → new = Int n →
                       Int64.in_range (t + n) → sum = Int (t + n)) ∧
               r' = (list_to_map (reverse [("no_visits", Int 1)]) : row) ∪
                    <["total_prisoner_cases" := sum]>
                      (<["lag_prisoner_cases" := total]>
                         (<["as_of_date" := Int (16 + 1)]> r)))
            (filter (λ p, p.2 = 16)
               (zip (rows Examples.three_weeks) [14; 15; 16; 16])).*1
            (rows test).
Proof.
  apply (simulate_test_next_week Examples.three_weeks
           [("no_visits", Int 1)] [14; 15; 16; 16] 14 16).
  - by vm_compute.
  - reflexivity.
  - reflexivity.
  - apply (bool_decide_unpack _). by vm_compute.
  - apply (bool_decide_unpack _). by vm_compute.
  - repeat (apply Forall_cons; split; [by eexists (Int _), (Int _)|]).
    apply Forall_nil_2.
Defined.

(** The sum is not the sum of the integers when it leaves the int64 range:
    the largest int64 as total and one new case give the smallest int64 as
    the simulated target. *)
Lemma simulated_target_wraps :
  match simulate_test Scenarios.largest_total [] with
  | Ok (_, test) =>
      (λ c, getitem test c) <$>
        ["new_prisoner_cases"; "lag_prisoner_cases"; "total_prisoner_cases"]
      = [Ok [Int 1]; Ok [Int 9223372036854775807];
         Ok [Int (-9223372036854775808)]] ∧
      9223372036854775807 + 1 ≠ -9223372036854775808
  | Err _ => False
  end.
Proof. by vm_compute. Qed.

(** The scenario of the design document: with no override, the two reports
    of week 16 (totals 12 and 20, new cases 4 and 7) become the rows of
    week 17 with targets 16 and 27 and lags 12 and 20. *)
Example simulate_test_no_override :
  match simulate_test Examples.three_weeks [] with
  | Ok (_, test) =>
      (λ c, getitem test c) <$>
        ["as_of_date"; "total_prisoner_cases"; "lag_prisoner_cases"]
      = [Ok [Int 17; Int 17]; Ok [Int 16; Int 27]; Ok [Int 12; Int 20]]
  | Err _ => False
  end.
Proof. by vm_compute. Qed.

(** An override replaces a column that was just computed. *)
Example simulate_test_override_total :
  match simulate_test Examples.three_weeks
          [("total_prisoner_cases", Int 0); ("no_visits", Int 1)] with
  | Ok (_, test) =>
      (λ c, getitem test c) <$> ["total_prisoner_cases"; "no_visits"]
      = [Ok [Int 0; Int 0]; Ok [Int 1; Int 1]]
  | Err _ => False
  end.
Proof. by vm_compute. Qed.

End SimulateFacts.

(** ** Grid search runner *)

Module GridFacts.
Import Grid.

(** *** Dictionaries in insertion order *)

Lemma dict_get_cons {V} (d : list (string * V)) (k k' : string) (v' : V) :
  dict_get ((k', v') :: d) k = if decide (k' = k) then Ok v' else dict_get d k.
Proof.
  unfold dict_get. simpl. case_decide; [done|].
  by destruct (list_find _ d) as [[? ?]|].
Qed.

Lemma dict_set_fresh {V} (d : list (string * V)) (k : string) (v : V) :
  k ∉ d.*1 → dict_set d k v = d ++ [(k, v)].
Proof.
  induction d as [|[k' v'] d IH]; intros Hk; simpl; [done|].
  rewrite fmap_cons, not_elem_of_cons in Hk. destruct Hk as [Hne Hk].
  rewrite decide_False by done. by rewrite IH.
Qed.

Lemma dict_get_set_eq {V} (d : list (string * V)) (k : string) (v : V) :
  dict_get (dict_set d k v) k = Ok v.
Proof.
  induction d as [|[k' v'] d IH]; simpl.
  - rewrite dict_get_cons. by rewrite decide_True.
  - case_decide; rewrite dict_get_cons.
    + by rewrite decide_True.
    + by rewrite decide_False.
Qed.

Lemma dict_get_set_ne {V} (d : list (string * V)) (k k' : string) (v : V) :
  k' ≠ k → dict_get (dict_set d k v) k' = dict_get d k'.
Proof.
  intros Hne. induction d as [|[k0 v0] d IH]; simpl.
  - rewrite dict_get_cons. by rewrite decide_False.
  - case_decide; rewrite !dict_get_cons.
    + subst k0. by rewrite !decide_False.
    + case_decide; [done|]. apply IH.
Qed.

Lemma dict_get_elem_of {V} (d : list (string * V)) (k : string) (v : V) :
  dict_get d k = Ok v → k ∈ d.*1.
Proof.
  intros Hk%PrepFacts.dict_get_Ok. apply list_elem_of_fmap. by exists (k, v).
Qed.

Lemma dict_set_keys {V} (d : list (string * V)) (k : string) (v : V) :
  k ∈ d.*1 → (dict_set d k v).*1 = d.*1.
Proof.
  induction d as [|[k' v'] d IH]; simpl.
  - by intros ?%elem_of_nil.
  - intros Hk. case_decide; [by subst|]. rewrite fmap_cons. simpl. f_equal.
    apply IH. apply elem_of_cons in Hk as [->|Hk]; done.
Qed.

Lemma dict_get_is_Ok {V} (d : list (string * V)) (k : string) :
  k ∈ d.*1 → ∃ v, dict_get d k = Ok v.
Proof.
  induction d as [|[k' v'] d IH]; [by intros ?%elem_of_nil|].
  rewrite fmap_cons. intros Hk. rewrite dict_get_cons. case_decide; [eauto|].
  apply IH. apply elem_of_cons in Hk as [->|Hk]; done.
Qed.

Lemma bind_ext_elem {A B} (f g : A → list B) (l : list A) :
  (∀ x, x ∈ l → f x = g x) → l ≫= f = l ≫= g.
Proof.
  induction l as [|x l IH]; intros Hfg; [done|]. cbn.
  rewrite (Hfg x) by left. f_equal. apply IH. intros y Hy. apply Hfg. by right.
Qed.

Lemma length_instances (model : estimator) (entries : list kwargs) :
  length (instances model entries) = length entries.
Proof.
  revert model. induction entries as [|p ps IH]; intros m; simpl; [done|].
  by rewrite IH.
Qed.

(** *** One train/test split given as arrays *)

Section one_split.
Context `{Collaborators}.
Variable now : nat → Q.
Variables (X_train X_test : Matrix) (y_train y_test : list value).
Variables (train_targets test_targets : list Q).
Hypothesis y_train_numeric : traverse to_number y_train = Ok train_targets.
Hypothesis y_test_numeric : traverse to_number y_test = Ok test_targets.
Hypothesis y_test_nonempty : test_targets ≠ [].
Hypothesis fit_succeeds :
  ∀ model, ∃ predictions,
    fit_predict model X_train train_targets X_test = Ok predictions ∧
    length predictions = length test_targets.

Lemma build_classifier_Ok (model_type : string) (param : kwargs)
    (model_perf : list (string * perf)) (s : session) (model : estimator) :
  dict_get (registry s) model_type = Ok model →
  ∃ entry predictions,
    build_classifier now (AsArray X_train) y_train (AsArray X_test) y_test
      model_type param model_perf s
    = Ok (dict_set model_perf (render (set_params model param)) entry,
          predictions,
          mkSession (dict_set (registry s) model_type (set_params model param))
                    (S (S (clock s)))) ∧
    perf_parameters entry = param ∧
    perf_model_type entry = render (set_params model param).
Proof.
  intros Hget.
  destruct (fit_succeeds (set_params model param)) as (predictions & Hfit & Hlen).
  unfold build_classifier, fit_and_predict.
  cbn [registry clock as_matrix]. result_simpl. rewrite Hget. result_simpl.
  cbn [registry clock as_matrix]. rewrite y_train_numeric. result_simpl.
  rewrite Hfit. result_simpl. rewrite y_test_numeric. result_simpl.
  rewrite MetricsFacts.evaluate_model_unfold;
    [|by rewrite !MetricsFacts.size_as_array
     |rewrite MetricsFacts.size_as_array; by destruct test_targets
     |apply MetricsFacts.all_finite_as_array..].
  result_simpl.
  cbn [registry clock]. rewrite dict_get_set_eq. result_simpl.
  eexists _, _. split; [reflexivity|]. done.
Qed.

Lemma grid_loop_Ok (model_type : string) (entries : list kwargs) :
  ∀ (model : estimator) (model_perf : list (string * perf)) (s : session),
  dict_get (registry s) model_type = Ok model →
  NoDup (model_perf.*1 ++ (render <$> instances model entries)) →
  ∃ perfs s',
    grid_loop now (AsArray X_train) y_train (AsArray X_test) y_test
      model_type entries model_perf s
    = Ok (model_perf ++ perfs, s') ∧
    Forall2 records perfs
      (zip ((λ param, (model_type, param)) <$> entries)
           (instances model entries)) ∧
    (registry s').*1 = (registry s).*1 ∧
    (∀ k, k ≠ model_type →
          dict_get (registry s') k = dict_get (registry s) k) ∧
    clock s' = (clock s + 2 * length entries)%nat.
Proof.
  induction entries as [|param entries IH]; intros model model_perf s Hget Hnd.
  - exists [], s. cbn [grid_loop]. rewrite app_nil_r.
    repeat split; [constructor|simpl; lia].
  - cbn [instances] in Hnd. set (model' := set_params model param) in *.
    destruct (build_classifier_Ok model_type param model_perf s model Hget)
      as (entry & predictions & Hbuild & Hparam & Htype).
    fold model' in Hbuild, Htype.
    assert (render model' ∉ model_perf.*1) as Hfresh.
    { apply NoDup_app in Hnd as (_ & Hdisj & _). intros Hin.
      apply (Hdisj _ Hin). rewrite fmap_cons. by left. }
    rewrite dict_set_fresh in Hbuild by done.
    set (s1 := mkSession (dict_set (registry s) model_type model')
                         (S (S (clock s)))) in *.
    destruct (IH model' (model_perf ++ [(render model', entry)]) s1)
      as (perfs & s' & Hloop & Hrec & Hkeys & Hother & Hclock).
    { apply dict_get_set_eq. }
    { rewrite fmap_app, <- app_assoc. exact Hnd. }
    exists ((render model', entry) :: perfs), s'.
    cbn [grid_loop]. rewrite Hbuild. result_simpl. rewrite Hloop.
    rewrite <- app_assoc. split; [done|]. split.
    { cbn [instances fmap list_fmap zip zip_with]. fold model'.
      constructor; [done|exact Hrec]. }
    split.
    { rewrite Hkeys. cbn [s1 registry]. apply dict_set_keys.
      by eapply dict_get_elem_of. }
    split.
    { intros k Hk. rewrite (Hother k Hk). cbn [s1 registry].
      by apply dict_get_set_ne. }
    rewrite Hclock. cbn [s1 clock length]. lia.
Qed.

Lemma records_keys (perfs : list (string * perf))
    (combos : list (string * kwargs * estimator)) :
  Forall2 records perfs combos → perfs.*1 = render <$> combos.*2.
Proof.
  induction 1 as [|kv combo perfs combos (Hk & _) _ IH]; [done|].
  rewrite !fmap_cons. by f_equal.
Qed.

Lemma family_combinations_instances (models : list (string * estimator))
    (grid : list (string * list kwargs)) (model_key : string)
    (model : estimator) (entries : list kwargs) :
  dict_get models model_key = Ok model →
  dict_get grid model_key = Ok entries →
  family_combinations models grid model_key
  = zip ((λ param, (model_key, param)) <$> entries) (instances model entries)
  ∧ (family_combinations models grid model_key).*2 = instances model entries.
Proof.
  intros Hm He. unfold family_combinations. rewrite Hm, He. split; [done|].
  apply snd_zip. by rewrite length_fmap, length_instances.
Qed.

Lemma models_loop_Ok (grid : list (string * list kwargs)) (keys : list string) :
  ∀ (model_perf : list (string * perf)) (s : session),
  NoDup keys →
  (∀ k, k ∈ keys → (∃ model, dict_get (registry s) k = Ok model) ∧
                    (∃ entries, dict_get grid k = Ok entries)) →
  NoDup (model_perf.*1 ++
         (render <$> (keys ≫= family_combinations (registry s) grid).*2)) →
  ∃ perfs s',
    models_loop now (AsArray X_train) y_train (AsArray X_test) y_test
      keys grid model_perf s
    = Ok (model_perf ++ perfs, s') ∧
    Forall2 records perfs (keys ≫= family_combinations (registry s) grid).
Proof.
  induction keys as [|key keys IH]; intros model_perf s Hkeys Hok Hnd.
  - exists [], s. cbn [models_loop]. rewrite app_nil_r. split; [done|constructor].
  - apply NoDup_cons in Hkeys as [Hkey Hkeys].
    destruct (Hok key) as [[model Hm] [entries He]]; [by left|].
    destruct (family_combinations_instances _ _ _ _ _ Hm He) as [Hfam Hfam2].
    change ((key :: keys) ≫= family_combinations (registry s) grid)
      with (family_combinations (registry s) grid key ++
            (keys ≫= family_combinations (registry s) grid)) in *.
    rewrite !fmap_app, Hfam2 in Hnd.
    destruct (grid_loop_Ok key entries model model_perf s Hm)
      as (perfs1 & s1 & Hloop & Hrec1 & Hk1 & Hother & _).
    { rewrite app_assoc in Hnd. by apply NoDup_app in Hnd as (? & _ & _). }
    assert (keys ≫= family_combinations (registry s1) grid
            = keys ≫= family_combinations (registry s) grid) as Hsame.
    { apply bind_ext_elem. intros k Hk. unfold family_combinations.
      rewrite Hother; [done|]. intros ->. done. }
    destruct (IH (model_perf ++ perfs1) s1 Hkeys) as (perfs2 & s' & Hrest & Hrec2).
    { intros k Hk. destruct (Hok k) as [[m Hkm] Hke]; [by right|].
      split; [|done]. exists m. rewrite Hother; [done|]. intros ->. done. }
    { rewrite Hsame, fmap_app, (records_keys _ _ Hrec1), <- Hfam, Hfam2.
      by rewrite <- app_assoc. }
    exists (perfs1 ++ perfs2), s'. split.
    + cbn [models_loop]. rewrite Hm. result_simpl. rewrite He. result_simpl.
      rewrite Hloop. result_simpl. rewrite Hrest. by rewrite <- app_assoc.
    + apply Forall2_app; [by rewrite Hfam|]. by rewrite <- Hsame.
Qed.

Lemma run_grid_search_Ok (models : list (string * estimator))
    (grid : list (string * list kwargs)) (ticks : nat) (test_week degree : Z) :
  NoDup models.*1 →
  (∀ k, k ∈ models.*1 → ∃ entries, dict_get grid k = Ok entries) →
  NoDup (render <$> (combinations models grid).*2) →
  ∃ table s',
    run_grid_search now (AsArray X_train) y_train (AsArray X_test) y_test
      test_week degree grid (mkSession models ticks)
    = Ok (table, s') ∧
    Forall2 (λ row combo,
               index row = render combo.2 ∧
               perf_parameters (measures row) = combo.1.2 ∧
               row_test_week row = test_week ∧
               row_degree row = degree)
            table (combinations models grid).
Proof.
  intros Hkeys Hgrid Hnd.
  destruct (models_loop_Ok grid models.*1 [] (mkSession models ticks) Hkeys)
    as (perfs & s' & Hloop & Hrec).
  { intros k Hk. split; [by apply dict_get_is_Ok|by apply Hgrid]. }
  { exact Hnd. }
  eexists _, s'. split.
  - unfold run_grid_search. cbn [registry]. rewrite Hloop. result_simpl.
    reflexivity.
  - rewrite app_nil_l. apply Forall2_fmap_l.
    eapply Forall2_impl; [exact Hrec|]. intros kv combo (Hk & Hp & _). done.
Qed.

End one_split.

(** *** The registry and the grid of the module *)

Lemma class_and_alpha_instances (model : estimator) (xs : list hyper) :
  class_and_alpha <$>
    instances model ((λ x, [("alpha", x); ("random_state", HInt 0)]) <$> xs)
  = (λ x, (cls model, Some x)) <$> xs.
Proof.
  revert model. induction xs as [|x xs IH]; intros model; [done|].
  cbn [fmap list_fmap instances]. f_equal.
  - unfold class_and_alpha. cbn. f_equal.
    rewrite lookup_insert_ne by discriminate. by rewrite lookup_insert_eq.
  - by rewrite IH.
Qed.

Lemma module_instances (defaults : string → gmap string hyper) :
  (combinations (MODELS defaults) GRID).*2
  = instances (mkEstimator "LinearRegression" (defaults "LinearRegression"))
      [ [("normalize", HBool false); ("fit_intercept", HBool true)] ]
    ++ instances (mkEstimator "Lasso" (defaults "Lasso")) alpha_grid
    ++ instances (mkEstimator "Ridge" (defaults "Ridge")) alpha_grid
    ++ instances (mkEstimator "ElasticNet" (defaults "ElasticNet")) alpha_grid.
Proof. reflexivity. Qed.

Lemma module_instances_NoDup (defaults : string → gmap string hyper) :
  NoDup (combinations (MODELS defaults) GRID).*2.
Proof.
  apply (NoDup_fmap_1 class_and_alpha). rewrite module_instances.
  rewrite !fmap_app. unfold alpha_grid. rewrite !class_and_alpha_instances.
  cbn [instances fmap list_fmap app cls]. unfold class_and_alpha at 1.
  cbn [cls set_params]. generalize (params
    (set_params (mkEstimator "LinearRegression" (defaults "LinearRegression"))
       [("normalize", HBool false); ("fit_intercept", HBool true)]) !! "alpha").
  intros d. apply NoDup_cons. split.
  - intros Hin. apply list_elem_of_fmap_2 with (f := fst) in Hin.
    revert Hin. apply (bool_decide_unpack _). by vm_compute.
  - apply (bool_decide_unpack _). by vm_compute.
Qed.

Lemma NoDup_fmap_on {A B} (f : A → B) `{!EqDecision B} (l : list A) :
  NoDup (f <$> l) → ∀ x y, x ∈ l → y ∈ l → f x = f y → x = y.
Proof.
  induction l as [|a l IH]; intros Hnd x y Hx Hy Hxy.
  - by apply elem_of_nil in Hx.
  - rewrite fmap_cons in Hnd. apply NoDup_cons in Hnd as [Ha Hnd].
    apply elem_of_cons in Hx as [->|Hx]; apply elem_of_cons in Hy as [->|Hy].
    + done.
    + exfalso. apply Ha. rewrite Hxy. by apply list_elem_of_fmap_2.
    + exfalso. apply Ha. rewrite <- Hxy. by apply list_elem_of_fmap_2.
    + by apply IH.
Qed.

(** C3. For one split given as arrays and one degree, with the registry and
    the grid of the module, a model that fits and a rendering that tells
    the configured instances apart: the grid search returns 25 rows, one
    per (family, hyperparameter) combination in the order of the registry
    and the grid, each keyed by the rendering of the instance configured
    for it and carrying its hyperparameters, and no two keys are equal. *)
Theorem run_grid_search_one_row_per_combination `{Collaborators}
    (now : nat → Q) (defaults : string → gmap string hyper)
    (X_train X_test : Matrix) (y_train y_test : list value)
    (train_targets test_targets : list Q) (test_week degree : Z) (ticks : nat) :
  traverse to_number y_train = Ok train_targets →
  traverse to_number y_test = Ok test_targets →
  test_targets ≠ [] →
  (∀ model, ∃ predictions,
     fit_predict model X_train train_targets X_test = Ok predictions ∧
     length predictions = length test_targets) →
  (∀ e1 e2, e1 ∈ (combinations (MODELS defaults) GRID).*2 →
            e2 ∈ (combinations (MODELS defaults) GRID).*2 →
            render e1 = render e2 → e1 = e2) →
  ∃ table s',
    run_grid_search now (AsArray X_train) y_train (AsArray X_test) y_test
      test_week degree GRID (mkSession (MODELS defaults) ticks)
    = Ok (table, s') ∧
    length table = 25%nat ∧
    (combinations (MODELS defaults) GRID).*1
    = ('(family, entries) ← GRID; (λ param, (family, param)) <$> entries) ∧
    Forall2 (λ row combo,
               index row = render combo.2 ∧
               perf_parameters (measures row) = combo.1.2 ∧
               row_test_week row = test_week ∧
               row_degree row = degree)
            table (combinations (MODELS defaults) GRID) ∧
    NoDup (index <$> table).
Proof.
  intros Hy Hyt Hne Hfit Hinj.
  assert (NoDup (render <$> (combinations (MODELS defaults) GRID).*2)) as Hnd.
  { apply NoDup_fmap_2_strong; [exact Hinj|apply module_instances_NoDup]. }
  destruct (run_grid_search_Ok now X_train X_test y_train y_test
              train_targets test_targets Hy Hyt Hne Hfit
              (MODELS defaults) GRID ticks test_week degree)
    as (table & s' & Hrun & Hrows).
  { apply (bool_decide_unpack _). by vm_compute. }
  { intros k Hk. change ((MODELS defaults).*1)
      with ["LinearRegression"; "Lasso"; "Ridge"; "ElasticNet"] in Hk.
    rewrite !elem_of_cons, elem_of_nil in Hk.
    destruct Hk as [->|[->|[->|[->|[]]]]]; by eexists. }
  { exact Hnd. }
  exists table, s'. split; [exact Hrun|].
  assert (index <$> table = render <$> (combinations (MODELS defaults) GRID).*2)
    as Hindex.
  { clear -Hrows. induction Hrows as [|row combo ? ? (Hi & _) _ IH]; [done|].
    rewrite !fmap_cons. by f_equal. }
  split; [|split; [reflexivity|split; [exact Hrows|by rewrite Hindex]]].
  by rewrite (Forall2_length _ _ _ Hrows).
Qed.

Lemma run_grid_search_one_row_per_combination_witness :
  ∃ table s',
    run_grid_search (H := Examples.stand_ins) Examples.seconds
      (AsArray Examples.train_array) [Int 5; Int 8; Int 12; Int 20]
      (AsArray Examples.test_array) [Int 15; Int 29]
      17 2 GRID (mkSession (MODELS Examples.no_defaults) 0)
    = Ok (table, s') ∧
    length table = 25%nat ∧
    (combinations (MODELS Examples.no_defaults) GRID).*1
    = ('(family, entries) ← GRID; (λ param, (family, param)) <$> entries) ∧
    Forall2 (λ row combo,
               index row = render (Collaborators := Examples.stand_ins) combo.2 ∧
               perf_parameters (measures row) = combo.1.2 ∧
               row_test_week row = 17 ∧
               row_degree row = 2)
            table (combinations (MODELS Examples.no_defaults) GRID) ∧
    NoDup (index <$> table).
Proof.
  apply (run_grid_search_one_row_per_combination (H := Examples.stand_ins)
           Examples.seconds Examples.no_defaults Examples.train_array
           Examples.test_array [Int 5; Int 8; Int 12; Int 20] [Int 15; Int 29]
           [5; 8; 12; 20]%Q [15; 29]%Q 17 2 0).
  - reflexivity.
  - reflexivity.
  - discriminate.
  - intros model. eexists. split; reflexivity.
  - apply (NoDup_fmap_on (render (Collaborators := Examples.stand_ins))).
    apply (bool_decide_unpack _). by vm_compute.
Defined.

(** Two entries that configure the shared instance alike get the same key,
    and the second record replaces the first: the grid search then returns
    fewer rows than the grid has entries. *)
Example run_grid_search_same_configuration :
  match run_grid_search (H := Examples.stand_ins) Examples.seconds
          (AsArray Examples.train_array) [Int 5; Int 8; Int 12; Int 20]
          (AsArray Examples.test_array) [Int 15; Int 29] 17 2
          [("Lasso", [ [("alpha", HInt 2); ("fit_intercept", HBool false)];
                       [("alpha", HInt 2)] ])]
          (mkSession [("Lasso", mkEstimator "Lasso" ∅)] 0) with
  | Ok (table, _) => length table = 1%nat
  | Err _ => False
  end.
Proof. by vm_compute. Qed.

End GridFacts.

(** ** Best-model selector *)

Module SelectorFacts.
Import CV Prep Selector.

(** *** Grouping *)

Lemma group_keys_elem (labels : list (option string)) (l : string) :
  l ∈ group_keys labels ↔ Some l ∈ labels.
Proof.
  unfold group_keys. rewrite merge_sort_Permutation, elem_of_remove_dups.
  rewrite list_elem_of_omap. split.
  - intros (x & Hx & Hid). simpl in Hid. by subst x.
  - intros Hl. by exists (Some l).
Qed.




(** *** The minimum of a column *)








(** *** The pool *)




(** *** The tally and the winner *)





Lemma iloc_first_filter {A} (P : A → Prop) `{!∀ x, Decision (P x)}
    (l : list A) (x : A) :
  x ∈ l → P x →
  ∃ i y, list_find P l = Some (i, y) ∧ iloc_first (filter P l) = Ok y.
Proof.
  induction l as [|a l IH]; intros Hx HP; [by apply elem_of_nil in Hx|].
  rewrite filter_cons. simpl. destruct (decide (P a)) as [Ha|Ha].
  - by exists 0%nat, a.
  - apply elem_of_cons in Hx as [->|Hx]; [done|].
    destruct (IH Hx HP) as (i & y & Hfind & Hfirst).
    exists (S i), y. by rewrite Hfind.
Qed.




(** What the tally does not decide: a label that occurs twice in the pool
    does not win against a label that occurs once and sorts before it. *)
Example select_winner_with_a_lower_count :
  pool Examples.lasso_and_ridge
  = ["Ridge degree_1 {alpha=1}"; "Lasso degree_1 {alpha=1}";
     "Ridge degree_1 {alpha=1}"] ∧
  match select_winner Examples.lasso_and_ridge with
  | Ok (best_model, _) => model best_model = Some "Lasso degree_1 {alpha=1}"
  | Err _ => False
  end.
Proof. by vm_compute. Qed.

End SelectorFacts.

(** ** Hold-out split and folds: further properties *)

Module HoldoutFacts.
Import Splitter Holdout.

Lemma select_none {A} (p : Z → bool) (xs : list A) (ws : list Z) :
  Forall (λ w, p w = false) ws → select (p <$> ws) xs = [].
Proof.
  intros Hall. revert xs. induction Hall as [|w ws Hw _ IH]; intros [|x xs];
    try done.
  cbn [fmap list_fmap select]. rewrite Hw. apply IH.
Qed.

Lemma select_all {A} (p : Z → bool) (xs : list A) (ws : list Z) :
  length xs = length ws → Forall (λ w, p w = true) ws →
  select (p <$> ws) xs = xs.
Proof.
  intros Hlen Hall. revert xs Hlen.
  induction Hall as [|w ws Hw _ IH]; intros [|x xs] Hlen; try done.
  cbn [fmap list_fmap select]. rewrite Hw. f_equal. apply IH.
  by injection Hlen.
Qed.

Lemma dt_week_length df c ws :
  dt_week df c = Ok ws → length (rows df) = length ws.
Proof.
  intros (dates & Hd & Ht)%SplitterFacts.dt_week_dates.
  unfold getitem in Hd. case_decide; [|done].
  apply traverse_length in Hd. apply traverse_length in Ht. congruence.
Qed.

Lemma iloc_last_elem (ws : list Z) (w : Z) : iloc_last ws = Ok w → w ∈ ws.
Proof.
  unfold iloc_last. destruct (last ws) eqn:E; [|done].
  intros [= <-]. by apply last_Some_elem_of.
Qed.

(** In a sorted list every element is at most the last one. *)
Lemma Sorted_le_last (ws : list Z) (latest w : Z) :
  Sorted Z.le ws → iloc_last ws = Ok latest → w ∈ ws → w ≤ latest.
Proof.
  intros Hs%(Sorted_StronglySorted Z.le) Hlast Hw.
  unfold iloc_last in Hlast. destruct (last ws) as [l|] eqn:E; [|done].
  injection Hlast as ->. apply last_Some in E as [ws' ->].
  apply elem_of_app in Hw as [Hw|Hw].
  - induction ws' as [|a ws' IH]; [by apply elem_of_nil in Hw|].
    simpl in Hs. apply StronglySorted_inv in Hs as [Hs Ha].
    apply elem_of_cons in Hw as [->|Hw]; [|by apply IH].
    rewrite Forall_forall in Ha. apply Ha. apply elem_of_app. right. by left.
  - apply list_elem_of_singleton in Hw as ->. lia.
Qed.

(** Rows below a bound come first in a sorted frame, rows at the bound
    last. *)
Lemma sorted_split_at_bound {A} (xs : list A) (ws : list Z) (bound : Z) :
  length xs = length ws →
  Sorted Z.le ws →
  Forall (λ w, w ≤ bound) ws →
  select ((λ w, bool_decide (w < bound)) <$> ws) xs
  ++ select ((λ w, bool_decide (w = bound)) <$> ws) xs = xs.
Proof.
  intros Hlen Hs%(Sorted_StronglySorted Z.le) Hall. revert xs Hlen.
  induction Hs as [|w ws Hs IH Hw]; intros [|x xs] Hlen; try done.
  apply Forall_cons in Hall as [Hwb Hall]. injection Hlen as Hlen.
  cbn [fmap list_fmap select].
  destruct (decide (w < bound)) as [Hlt|Hge].
  - rewrite (bool_decide_eq_true_2 _ Hlt).
    rewrite (bool_decide_eq_false_2 (w = bound)) by lia.
    simpl. f_equal. by apply IH.
  - rewrite (bool_decide_eq_false_2 _ Hge).
    rewrite (bool_decide_eq_true_2 (w = bound)) by lia.
    assert (Forall (λ w', w' = bound) ws) as Heq.
    { rewrite Forall_forall in Hw, Hall. apply Forall_forall. intros w' Hw'.
      specialize (Hw _ Hw'). specialize (Hall _ Hw'). lia. }
    rewrite select_none.
    2:{ eapply Forall_impl; [exact Heq|]. intros w' ->.
        apply bool_decide_eq_false_2. lia. }
    rewrite select_all; [done|done|].
    eapply Forall_impl; [exact Heq|]. intros w' ->.
    by apply bool_decide_eq_true_2.
Qed.

Lemma timesplit_data_unfold dataset ws latest :
  dt_week dataset "as_of_date" = Ok ws →
  iloc_last ws = Ok latest →
  timesplit_data dataset
  = Ok (loc_mask dataset ((λ w, bool_decide (w < latest)) <$> ws),
        loc_mask dataset ((λ w, bool_decide (w = latest)) <$> ws)).
Proof.
  intros Hw Hlast.
  destruct (SplitterFacts.dt_week_dates _ _ _ Hw) as (dates & Hd & Ht).
  unfold timesplit_data. rewrite Hd. result_simpl.
  rewrite (SimulateFacts.bind_bind_Ok _ _ _ latest).
  2:{ by rewrite (SplitterFacts.traverse_week_last _ _ Ht). }
  rewrite Hw. by result_simpl.
Qed.

Lemma select_elem_of {A} (mask : list bool) (xs : list A) (x : A) :
  x ∈ select mask xs → x ∈ xs.
Proof.
  revert mask. induction xs as [|y xs IH]; intros [|[] mask]; simpl;
    try by intros ?%elem_of_nil.
  - intros [->|Hx]%elem_of_cons; [by left|]. right. by eapply IH.
  - intros Hx. right. by eapply IH.
Qed.

Lemma select_fmap_elem_2 {A} (p : A → bool) (ws : list A) (w : A) :
  p w = true → w ∈ ws → w ∈ select (p <$> ws) ws.
Proof.
  intros Hp. induction ws as [|w' ws IH]; [by intros ?%elem_of_nil|].
  cbn [fmap list_fmap select]. intros [->|Hw]%elem_of_cons.
  - rewrite Hp. by left.
  - destruct (p w'); [right|]; by apply IH.
Qed.

Lemma select_nil_iff {A} (p : Z → bool) (xs : list A) (ws : list Z) :
  length xs = length ws →
  select (p <$> ws) xs = [] ↔ Forall (λ w, p w = false) ws.
Proof.
  intros Hlen. split; [|apply select_none].
  revert xs Hlen. induction ws as [|w ws IH]; intros [|x xs] Hlen Hsel;
    try done.
  cbn [fmap list_fmap select] in Hsel. injection Hlen as Hlen.
  destruct (p w) eqn:E; [done|]. constructor; [done|]. by eapply IH.
Qed.

Lemma iloc_last_is_Ok {A} (l : list A) : l ≠ [] → ∃ x, iloc_last l = Ok x.
Proof.
  intros Hne. unfold iloc_last. destruct (last l) as [x|] eqn:E; [by eexists|].
  by apply last_None in E.
Qed.

Lemma iloc_first_is_Ok {A} (l : list A) : l ≠ [] → ∃ x, iloc_first l = Ok x.
Proof. destruct l; [done|]. by eexists. Qed.

Lemma iloc_first_elem {A} (l : list A) (x : A) : iloc_first l = Ok x → x ∈ l.
Proof. destruct l; [done|]. intros [= <-]. by left. Qed.

Lemma dt_week_column df c ws : dt_week df c = Ok ws → c ∈ columns df.
Proof.
  unfold dt_week, getitem. by case_decide.
Qed.

Lemma range_succ (lo hi : Z) :
  Z.succ <$> Py.range lo hi = Py.range (lo + 1) (hi + 1).
Proof.
  unfold Py.range. rewrite <- list_fmap_compose.
  replace (hi + 1 - (lo + 1)) with (hi - lo) by lia.
  apply list_fmap_ext. intros _ i _. simpl. lia.
Qed.

Lemma range_lookup (lo hi : Z) (i : nat) (w : Z) :
  Py.range lo hi !! i = Some w → w = lo + Z.of_nat i ∧ w < hi.
Proof.
  unfold Py.range. rewrite list_lookup_fmap.
  destruct (seq 0 (Z.to_nat (hi - lo)) !! i) as [j|] eqn:E; [|done].
  apply lookup_seq in E as [-> Hlt]. intros [= <-]. simpl. lia.
Qed.

(** In a frame sorted by week, the rows up to week [week + 1] are the rows
    up to [week] followed by the rows of [week + 1]. *)
Lemma sorted_window_grows {A} (xs : list A) (ws : list Z) (earliest week : Z) :
  Sorted Z.le ws →
  earliest ≤ week →
  select ((λ w, bool_decide (w ≤ week + 1)
                && negb (bool_decide (w = earliest))) <$> ws) xs
  = select ((λ w, bool_decide (w ≤ week)
                  && negb (bool_decide (w = earliest))) <$> ws) xs
    ++ select ((λ w, bool_decide (w = week + 1)) <$> ws) xs.
Proof.
  intros Hs%(Sorted_StronglySorted Z.le) He. revert xs.
  induction Hs as [|w ws Hs IH Hw]; intros [|x xs]; try done.
  cbn [fmap list_fmap select].
  destruct (decide (w ≤ week)) as [Hle|Hgt].
  - rewrite (bool_decide_eq_true_2 (w ≤ week + 1)) by lia.
    rewrite (bool_decide_eq_true_2 (w ≤ week)) by lia.
    rewrite (bool_decide_eq_false_2 (w = week + 1)) by lia.
    rewrite !andb_true_l. destruct (negb _); simpl; by rewrite IH.
  - rewrite (bool_decide_eq_false_2 (w ≤ week)) by lia.
    rewrite andb_false_l.
    rewrite (select_none (λ w, bool_decide (w ≤ week)
                               && negb (bool_decide (w = earliest)))).
    2:{ eapply Forall_impl; [exact Hw|]. intros w' Hw'. simpl.
        rewrite (bool_decide_eq_false_2 (w' ≤ week)) by lia. done. }
    rewrite app_nil_l. rewrite IH.
    rewrite (select_none (λ w, bool_decide (w ≤ week)
                               && negb (bool_decide (w = earliest)))).
    2:{ eapply Forall_impl; [exact Hw|]. intros w' Hw'. simpl.
        rewrite (bool_decide_eq_false_2 (w' ≤ week)) by lia. done. }
    rewrite app_nil_l.
    destruct (decide (w = week + 1)) as [Heq|Hne].
    + rewrite (bool_decide_eq_true_2 (w ≤ week + 1)) by lia.
      rewrite (bool_decide_eq_false_2 (w = earliest)) by lia.
      by rewrite (bool_decide_eq_true_2 (w = week + 1)) by lia.
    + rewrite (bool_decide_eq_false_2 (w ≤ week + 1)) by lia.
      by rewrite (bool_decide_eq_false_2 (w = week + 1)) by lia.
Qed.

(** X1. For a dataset sorted by week, [timesplit_data] cuts the rows in
    two consecutive blocks: the training part is the rows before the week
    of the last row, the test part is the rows of that week, in their
    order; nothing is lost, and the test part is not empty. *)
Theorem timesplit_data_partition (dataset : DataFrame) (ws : list Z)
    (latest : Z) :
  dt_week dataset "as_of_date" = Ok ws →
  iloc_last ws = Ok latest →
  Sorted Z.le ws →
  ∃ train test,
    timesplit_data dataset = Ok (train, test) ∧
    columns train = columns dataset ∧
    columns test = columns dataset ∧
    rows train ++ rows test = rows dataset ∧
    (∃ tw, dt_week train "as_of_date" = Ok tw ∧ ∀ w, w ∈ tw → w < latest) ∧
    (∃ tw, dt_week test "as_of_date" = Ok tw ∧ tw ≠ [] ∧
           ∀ w, w ∈ tw → w = latest).
Proof.
  intros Hw Hlast Hsorted.
  eexists _, _. split; [by apply timesplit_data_unfold|].
  split; [done|]. split; [done|]. split; [|split].
  - cbn [rows loc_mask]. apply sorted_split_at_bound.
    + by eapply dt_week_length.
    + done.
    + apply Forall_forall. intros w Hin. by eapply Sorted_le_last.
  - eexists. split; [by apply SplitterFacts.dt_week_loc_mask|].
    intros w [Hp%bool_decide_eq_true _]%select_fmap_elem. done.
  - eexists. split; [by apply SplitterFacts.dt_week_loc_mask|]. split.
    + intros Hnil.
      assert (latest ∈ select ((λ w, bool_decide (w = latest)) <$> ws) ws)
        as Hin.
      { apply select_fmap_elem_2; [by apply bool_decide_eq_true_2|].
        by apply iloc_last_elem. }
      rewrite Hnil in Hin. by apply elem_of_nil in Hin.
    + intros w [Hp%bool_decide_eq_true _]%select_fmap_elem. done.
Qed.

Lemma timesplit_data_partition_witness :
  ∃ train test,
    timesplit_data Examples.four_weeks = Ok (train, test) ∧
    columns train = columns Examples.four_weeks ∧
    columns test = columns Examples.four_weeks ∧
    rows train ++ rows test = rows Examples.four_weeks ∧
    (∃ tw, dt_week train "as_of_date" = Ok tw ∧ ∀ w, w ∈ tw → w < 4) ∧
    (∃ tw, dt_week test "as_of_date" = Ok tw ∧ tw ≠ [] ∧
           ∀ w, w ∈ tw → w = 4).
Proof.
  apply (timesplit_data_partition Examples.four_weeks [1; 1; 2; 3; 3; 4] 4).
  - vm_compute. reflexivity.
  - reflexivity.
  - repeat constructor; lia.
Defined.

(** X2. The folds cut from the training part of [timesplit_data] never
    touch the held-out week: when some row is older than the week of the
    last row, both functions return, and in every fold the test week and
    all the weeks of the training and of the test rows are before the
    held-out week. The rows need not be sorted. *)
Theorem folds_never_touch_holdout (dataset : DataFrame) (ws : list Z)
    (latest : Z) :
  dt_week dataset "as_of_date" = Ok ws →
  iloc_last ws = Ok latest →
  (∃ w, w ∈ ws ∧ w < latest) →
  ∃ train test folds,
    timesplit_data dataset = Ok (train, test) ∧
    time_cv_split train = Ok folds ∧
    ∀ f, f ∈ folds →
      test_week f < latest ∧
      (∃ tw, dt_week (cv_train f) as_of_date = Ok tw ∧
             ∀ w, w ∈ tw → w < latest) ∧
      (∃ tw, dt_week (cv_test f) as_of_date = Ok tw ∧
             ∀ w, w ∈ tw → w < latest).
Proof.
  intros Hw Hlast (w0 & Hw0 & Hlt0).
  set (mask := (λ w, bool_decide (w < latest)) <$> ws).
  pose proof (SplitterFacts.dt_week_loc_mask _ _ _ mask Hw) as Htw.
  assert (∀ w, w ∈ select mask ws → w < latest) as Hold.
  { intros w [Hp%bool_decide_eq_true _]%select_fmap_elem. done. }
  assert (select mask ws ≠ []) as Hne.
  { intros Hnil.
    assert (w0 ∈ select mask ws) as Hin
      by (apply select_fmap_elem_2; [by apply bool_decide_eq_true_2|done]).
    rewrite Hnil in Hin. by apply elem_of_nil in Hin. }
  destruct (iloc_first_is_Ok _ Hne) as [e He].
  destruct (iloc_last_is_Ok _ Hne) as [l Hl].
  eexists _, _, _. split; [by apply timesplit_data_unfold|].
  split; [by eapply SplitterFacts.time_cv_split_unfold|].
  intros f (week & -> & Hweek%range_elem)%list_elem_of_fmap.
  cbn [test_week cv_train cv_test].
  pose proof (Hold _ (iloc_last_elem _ _ Hl)). split; [lia|]. split.
  - eexists. split; [by apply SplitterFacts.dt_week_loc_mask|].
    intros w Hin%select_elem_of. by apply Hold.
  - eexists. split; [by apply SplitterFacts.dt_week_loc_mask|].
    intros w Hin%select_elem_of. by apply Hold.
Qed.

Lemma folds_never_touch_holdout_witness :
  ∃ train test folds,
    timesplit_data Examples.four_weeks = Ok (train, test) ∧
    time_cv_split train = Ok folds ∧
    ∀ f, f ∈ folds →
      test_week f < 4 ∧
      (∃ tw, dt_week (cv_train f) as_of_date = Ok tw ∧ ∀ w, w ∈ tw → w < 4) ∧
      (∃ tw, dt_week (cv_test f) as_of_date = Ok tw ∧ ∀ w, w ∈ tw → w < 4).
Proof.
  apply (folds_never_touch_holdout Examples.four_weeks [1; 1; 2; 3; 3; 4] 4).
  - vm_compute. reflexivity.
  - reflexivity.
  - exists 1. split; [by left|lia].
Defined.

(** X3. The folds of a frame sorted by week form an expanding window: from
    one fold to the next the test week advances by one, and the training
    rows of the next fold are the training rows of this fold followed by
    its test rows. *)
Theorem time_cv_split_expanding_window (train : DataFrame) (ws : list Z) :
  dt_week train as_of_date = Ok ws →
  ws ≠ [] →
  Sorted Z.le ws →
  ∃ folds, time_cv_split train = Ok folds ∧
    ∀ i f g, folds !! i = Some f → folds !! S i = Some g →
      test_week g = test_week f + 1 ∧
      rows (cv_train g) = rows (cv_train f) ++ rows (cv_test f).
Proof.
  intros Hw Hne Hsorted.
  destruct (iloc_first_is_Ok _ Hne) as [e He].
  destruct (iloc_last_is_Ok _ Hne) as [l Hl].
  eexists. split; [by eapply SplitterFacts.time_cv_split_unfold|].
  intros i f g Hf Hg. rewrite list_lookup_fmap in Hf, Hg.
  destruct (Py.range (e + 1) l !! i) as [week|] eqn:Ei; [|done].
  destruct (Py.range (e + 1) l !! S i) as [week'|] eqn:Ei'; [|done].
  apply range_lookup in Ei as [Hweek _]. apply range_lookup in Ei' as [Hweek' _].
  injection Hf as <-. injection Hg as <-.
  cbn [test_week cv_train cv_test rows loc_mask].
  replace week' with (week + 1) by lia. split; [done|].
  apply sorted_window_grows; [done|lia].
Qed.

Lemma time_cv_split_expanding_window_witness :
  ∃ folds, time_cv_split Examples.four_weeks = Ok folds ∧
    ∀ i f g, folds !! i = Some f → folds !! S i = Some g →
      test_week g = test_week f + 1 ∧
      rows (cv_train g) = rows (cv_train f) ++ rows (cv_test f).
Proof.
  apply (time_cv_split_expanding_window Examples.four_weeks
           [1; 1; 2; 3; 3; 4]).
  - vm_compute. reflexivity.
  - discriminate.
  - repeat constructor; lia.
Defined.

(** X4. [time_cv_split] makes one fold per week number strictly between
    the week after the first row's and the last row's week (inclusive of
    the latter), in increasing order, whether or not the frame has a row
    in that week: the test weeks are [earliest + 2, ..., latest], and the
    test part of a fold is empty exactly when the frame has no row in its
    test week. *)
Theorem time_cv_split_one_fold_per_week (train : DataFrame) (ws : list Z)
    (earliest latest : Z) :
  dt_week train as_of_date = Ok ws →
  iloc_first ws = Ok earliest →
  iloc_last ws = Ok latest →
  ∃ folds, time_cv_split train = Ok folds ∧
    test_week <$> folds = Py.range (earliest + 2) (latest + 1) ∧
    ∀ f, f ∈ folds → rows (cv_test f) = [] ↔ test_week f ∉ ws.
Proof.
  intros Hw He Hl.
  eexists. split; [by eapply SplitterFacts.time_cv_split_unfold|]. split.
  - rewrite <- list_fmap_compose.
    replace (earliest + 2) with (earliest + 1 + 1) by lia.
    rewrite <- range_succ. apply list_fmap_ext. intros _ week _. simpl. lia.
  - intros f (week & -> & _)%list_elem_of_fmap.
    cbn [test_week cv_test rows loc_mask].
    rewrite select_nil_iff by (by eapply dt_week_length).
    rewrite Forall_forall. split.
    + intros Hall Hin. specialize (Hall _ Hin).
      by apply bool_decide_eq_false in Hall.
    + intros Hnot w Hin. apply bool_decide_eq_false_2. by intros ->.
Qed.

Lemma time_cv_split_one_fold_per_week_witness :
  ∃ folds, time_cv_split Scenarios.missing_week = Ok folds ∧
    test_week <$> folds = Py.range (1 + 2) (5 + 1) ∧
    ∀ f, f ∈ folds → rows (cv_test f) = [] ↔ test_week f ∉ [1; 2; 3; 5].
Proof.
  apply (time_cv_split_one_fold_per_week Scenarios.missing_week
           [1; 2; 3; 5] 1 5).
  - vm_compute. reflexivity.
  - reflexivity.
  - reflexivity.
Defined.

(** X5. A dataset whose rows all fall in one week cannot be
    cross-validated: [timesplit_data] puts every row in the test part and
    leaves the training part empty, and [time_cv_split] on that training
    part raises [IndexError]. *)
Theorem single_week_dataset_has_no_training_data (dataset : DataFrame)
    (ws : list Z) (week : Z) :
  dt_week dataset "as_of_date" = Ok ws →
  ws ≠ [] →
  (∀ w, w ∈ ws → w = week) →
  ∃ train test,
    timesplit_data dataset = Ok (train, test) ∧
    rows train = [] ∧
    rows test = rows dataset ∧
    time_cv_split train = Err IndexError.
Proof.
  intros Hw Hne Hall.
  destruct (iloc_last_is_Ok _ Hne) as [l Hl].
  pose proof (Hall _ (iloc_last_elem _ _ Hl)) as ->.
  assert (rows (loc_mask dataset ((λ w, bool_decide (w < week)) <$> ws)) = [])
    as Hempty.
  { apply select_none, Forall_forall. intros w Hin.
    apply bool_decide_eq_false_2. rewrite (Hall _ Hin). lia. }
  eexists _, _. split; [by apply timesplit_data_unfold|].
  split; [exact Hempty|]. split.
  - apply select_all; [by eapply dt_week_length|].
    apply Forall_forall. intros w Hin. apply bool_decide_eq_true_2. by apply Hall.
  - unfold time_cv_split, getitem. cbn [columns loc_mask].
    rewrite decide_True by (by eapply dt_week_column).
    rewrite Hempty. done.
Qed.

Lemma single_week_dataset_has_no_training_data_witness :
  ∃ train test,
    timesplit_data Scenarios.one_week = Ok (train, test) ∧
    rows train = [] ∧
    rows test = rows Scenarios.one_week ∧
    time_cv_split train = Err IndexError.
Proof.
  apply (single_week_dataset_has_no_training_data Scenarios.one_week
           [7; 7] 7).
  - vm_compute. reflexivity.
  - discriminate.
  - intros w. rewrite !elem_of_cons, elem_of_nil. intros [->|[->|[]]]; done.
Defined.

End HoldoutFacts.

(** ** The metric evaluator on integers *)

Module MetricsBounds.
Import Metrics.

(** Sums of terms that agree modulo [2 ^ 64] reduce to the same int64. *)
Lemma wrap_sum_congruent (l1 l2 : list Z) :
  Forall2 (λ u v, u mod 2 ^ 64 = v mod 2 ^ 64) l1 l2 →
  Int64.wrap (foldr Z.add 0 l1) = Int64.wrap (foldr Z.add 0 l2).
Proof.
  induction 1 as [|u v l1 l2 Huv _ IH]; [done|]. cbn [foldr].
  rewrite <- Int64Facts.wrap_add_r, IH, Int64Facts.wrap_add_r.
  apply Int64Facts.wrap_ext. rewrite Zplus_mod, Huv. by rewrite <- Zplus_mod.
Qed.

Lemma squared_residuals_congruent (p y : list Z) :
  Forall2 (λ u v, u mod 2 ^ 64 = v mod 2 ^ 64)
    ((λ d, Int64.wrap (d * d)) <$> zip_with (λ a b, Int64.wrap (a - b)) p y)
    (zip_with (λ a b, (a - b) ^ 2) p y).
Proof.
  revert y. induction p as [|a p IH]; intros [|b y]; cbn; try constructor.
  - rewrite Int64Facts.wrap_mod, Zmult_mod, !Int64Facts.wrap_mod.
    rewrite <- Zmult_mod. f_equal. lia.
  - apply IH.
Qed.

Lemma sum_of_squares_nonneg (p y : list Z) :
  0 ≤ foldr Z.add 0 (zip_with (λ a b, (a - b) ^ 2) p y).
Proof.
  revert y. induction p as [|a p IH]; intros [|b y]; cbn [zip_with foldr];
    try lia.
  specialize (IH y).
  assert (0 ≤ (a - b) ^ 2) by (apply Z.pow_even_nonneg; by exists 1). lia.
Qed.

(** X6. On two int64 arrays the squares and their sum are computed in
    int64: [rss] is the sum of the squared differences reduced modulo
    [2 ^ 64] into the int64 range. It is the exact sum, and then not
    negative, whenever that sum lies in the range; beyond the range it can
    be negative. *)
Theorem evaluate_model_rss_on_integers (add_reduce : list float64 → float64)
    (y p : list Z) (m : eval_metrics) :
  evaluate_model add_reduce (Int64Array y) (Int64Array p) = Ok m →
  length y = length p ∧ y ≠ [] ∧
  rss m
  = NpInt64 (Int64.wrap (foldr Z.add 0 (zip_with (λ a b, (a - b) ^ 2) p y))) ∧
  (Int64.in_range (foldr Z.add 0 (zip_with (λ a b, (a - b) ^ 2) p y)) →
   ∃ n, rss m = NpInt64 n ∧ 0 ≤ n ∧
        n = foldr Z.add 0 (zip_with (λ a b, (a - b) ^ 2) p y)).
Proof.
  intros Hm.
  destruct (MetricsFacts.evaluate_model_inv _ _ _ _ Hm) as (Hlen & Hne & Hy & Hp).
  cbn [size] in Hlen, Hne.
  rewrite MetricsFacts.evaluate_model_unfold in Hm by done.
  injection Hm as <-. cbn [rss subtract square array_sum].
  assert (Int64.wrap
            (foldr Z.add 0
               ((λ d, Int64.wrap (d * d)) <$>
                  zip_with (λ a b, Int64.wrap (a - b)) p y))
          = Int64.wrap (foldr Z.add 0 (zip_with (λ a b, (a - b) ^ 2) p y)))
    as Hsum by apply wrap_sum_congruent, squared_residuals_congruent.
  split; [done|]. split; [by destruct y|]. split; [by rewrite Hsum|].
  intros Hrange. eexists. split; [by rewrite Hsum|].
  rewrite Int64Facts.wrap_in_range by done.
  split; [apply sum_of_squares_nonneg|done].
Qed.

Lemma evaluate_model_rss_on_integers_witness :
  ∃ m,
    evaluate_model Float64.sum_left (Int64Array [3; 5; 10])
      (Int64Array [1; 5; 7]) = Ok m ∧
    length [3; 5; 10] = length [1; 5; 7] ∧ [3; 5; 10] ≠ [] ∧
    rss m
    = NpInt64 (Int64.wrap
                 (foldr Z.add 0
                    (zip_with (λ a b, (a - b) ^ 2) [1; 5; 7] [3; 5; 10]))) ∧
    (Int64.in_range
       (foldr Z.add 0 (zip_with (λ a b, (a - b) ^ 2) [1; 5; 7] [3; 5; 10])) →
     ∃ n, rss m = NpInt64 n ∧ 0 ≤ n ∧
          n = foldr Z.add 0
                (zip_with (λ a b, (a - b) ^ 2) [1; 5; 7] [3; 5; 10])).
Proof.
  eexists. split; [by vm_compute|].
  eapply (evaluate_model_rss_on_integers Float64.sum_left [3; 5; 10] [1; 5; 7]).
  by vm_compute.
Defined.

End MetricsBounds.

(** ** Grid search: the shared instances, the clock and the keys *)

Module SessionFacts.
Import Grid GridLog.

Lemma bind_Ok {A B} (m : result A) (k : A → result B) (b : B) :
  m ≫= k = Ok b → ∃ a, m = Ok a ∧ k a = Ok b.
Proof. destruct m as [a|e]; [by exists a|done]. Qed.

(** Split an equation [m ≫= k = Ok b] into its two halves. *)
Ltac bind_inv H x Hx :=
  apply bind_Ok in H as (x & Hx & H).

Ltac result_simpl_in H :=
  cbn [mbind mret fmap result_bind result_ret result_fmap Py.bind] in H.

Lemma dict_set_same {V} (d : list (string * V)) (k : string) (v : V) :
  dict_get d k = Ok v → dict_set d k v = d.
Proof.
  induction d as [|[k' v'] d IH]; [done|].
  rewrite GridFacts.dict_get_cons. simpl. case_decide.
  - by intros [= ->]; subst.
  - intros Hget. by rewrite IH.
Qed.

Lemma dict_set_twice {V} (d : list (string * V)) (k : string) (v v' : V) :
  dict_set (dict_set d k v) k v' = dict_set d k v'.
Proof.
  induction d as [|[k0 v0] d IH]; simpl.
  - by rewrite decide_True.
  - case_decide; simpl.
    + by rewrite decide_True.
    + rewrite decide_False by done. by rewrite IH.
Qed.

Lemma dict_set_keys_NoDup {V} (d : list (string * V)) (k : string) (v : V) :
  NoDup d.*1 → NoDup (dict_set d k v).*1.
Proof.
  intros Hnd. destruct (decide (k ∈ d.*1)) as [Hin|Hout].
  - by rewrite GridFacts.dict_set_keys.
  - rewrite GridFacts.dict_set_fresh, fmap_app by done.
    apply NoDup_app. split; [done|]. split; [|apply NoDup_singleton].
    intros x Hx ->%list_elem_of_singleton. done.
Qed.

Lemma dict_set_length {V} (d : list (string * V)) (k : string) (v : V) :
  (length (dict_set d k v) ≤ S (length d))%nat.
Proof.
  induction d as [|[k' v'] d IH]; simpl; [lia|]. case_decide; simpl; lia.
Qed.

Lemma dict_set_Forall {V} (P : string * V → Prop) (d : list (string * V))
    (k : string) (v : V) :
  Forall P d → P (k, v) → Forall P (dict_set d k v).
Proof.
  intros Hd Hkv. induction Hd as [|[k' v'] d Hx Hd IH]; simpl.
  - by constructor.
  - case_decide; constructor; done.
Qed.

Section any_design.
Context `{Collaborators}.
Variable now : nat → Q.
Variables (X_train X_test : design) (y_train y_test : list value).

Lemma fit_and_predict_inv (model_type : string) (param : kwargs)
    (s s' : session) (predictions : list Q) :
  fit_and_predict X_train y_train X_test model_type param s
  = Ok (predictions, s') →
  ∃ model,
    dict_get (registry s) model_type = Ok model ∧
    s' = mkSession (dict_set (registry s) model_type (set_params model param))
                   (clock s).
Proof.
  unfold fit_and_predict. intros Hfit.
  bind_inv Hfit designs Hdesigns. destruct designs as [X X'].
  bind_inv Hfit model Hmodel. exists model. split; [done|].
  bind_inv Hfit Xa HXa. bind_inv Hfit ya Hya. bind_inv Hfit Xb HXb.
  bind_inv Hfit out Hout. by injection Hfit as _ <-.
Qed.

(** What one call of [build_classifier] leaves behind. *)
Lemma build_classifier_inv (model_type : string) (param : kwargs)
    (model_perf model_perf' : list (string * perf)) (s s' : session)
    (predictions : list Q) :
  build_classifier now X_train y_train X_test y_test model_type param
    model_perf s
  = Ok (model_perf', predictions, s') →
  ∃ model entry,
    dict_get (registry s) model_type = Ok model ∧
    s' = mkSession (dict_set (registry s) model_type (set_params model param))
                   (S (S (clock s))) ∧
    model_perf' = dict_set model_perf (render (set_params model param)) entry ∧
    perf_parameters entry = param ∧
    perf_model_type entry = render (set_params model param) ∧
    perf_run_time entry = (now (S (clock s)) - now (clock s))%Q.
Proof.
  unfold build_classifier. intros Hbuild.
  bind_inv Hbuild fitted Hfit. destruct fitted as [preds s1].
  apply fit_and_predict_inv in Hfit as (model & Hget & ->).
  cbn [registry clock] in *.
  bind_inv Hbuild y Hy. bind_inv Hbuild m Hm.
  rewrite GridFacts.dict_get_set_eq in Hbuild. result_simpl_in Hbuild.
  injection Hbuild as <- <- <-. eexists model, _.
  repeat split; done.
Qed.

(** The combinations of one family that [grid_loop] runs through. *)
Lemma grid_loop_inv (model_type : string) (entries : list kwargs) :
  ∀ (model : estimator) (model_perf model_perf' : list (string * perf))
    (s s' : session) (P : string * perf → Prop),
  grid_loop now X_train y_train X_test y_test model_type entries model_perf s
  = Ok (model_perf', s') →
  dict_get (registry s) model_type = Ok model →
  Forall P model_perf →
  (∀ kv param inst,
     (param, inst) ∈ zip entries (instances model entries) →
     kv.1 = render inst → perf_parameters kv.2 = param →
     perf_model_type kv.2 = render inst → P kv) →
  registry s'
  = dict_set (registry s) model_type (foldl set_params model entries) ∧
  clock s' = (clock s + 2 * length entries)%nat ∧
  (NoDup model_perf.*1 → NoDup model_perf'.*1) ∧
  (length model_perf' ≤ length model_perf + length entries)%nat ∧
  Forall P model_perf'.
Proof.
  induction entries as [|param entries IH];
    intros model model_perf model_perf' s s' P Hloop Hget HP Hstep.
  - cbn [grid_loop] in Hloop. injection Hloop as <- <-. cbn [foldl length].
    rewrite dict_set_same by done. repeat split; [lia|done|lia|done].
  - cbn [grid_loop] in Hloop. bind_inv Hloop built Hbuild.
    destruct built as [[model_perf1 preds] s1].
    apply build_classifier_inv in Hbuild
      as (model0 & entry & Hget0 & -> & -> & Hparam & Htype & _).
    rewrite Hget in Hget0. injection Hget0 as <-.
    set (model' := set_params model param) in *.
    destruct (IH model' _ _ _ _ P Hloop) as (Hreg & Hclock & Hnd & Hlen & HP').
    { cbn [registry]. apply GridFacts.dict_get_set_eq. }
    { apply dict_set_Forall; [done|].
      apply (Hstep _ param model'); [by left|done..]. }
    { intros kv p inst Hin. apply Hstep. cbn [instances zip zip_with].
      by right. }
    cbn [registry clock] in Hreg, Hclock.
    rewrite dict_set_twice in Hreg. cbn [foldl length].
    split; [done|]. split; [lia|]. split; [|split; [|done]].
    + intros Hnd0. by apply Hnd, dict_set_keys_NoDup.
    + pose proof (dict_set_length model_perf (render model') entry). lia.
Qed.

Lemma family_combinations_zip (models : list (string * estimator))
    (grid : list (string * list kwargs)) (model_key : string)
    (model : estimator) (entries : list kwargs) (param : kwargs)
    (inst : estimator) :
  dict_get models model_key = Ok model →
  dict_get grid model_key = Ok entries →
  (param, inst) ∈ zip entries (instances model entries) →
  (model_key, param, inst) ∈ family_combinations models grid model_key.
Proof.
  intros Hm He Hin. unfold family_combinations. rewrite Hm, He.
  apply list_elem_of_lookup in Hin as [i Hi].
  apply lookup_zip_with_Some in Hi as (p & e & [= <- <-] & Hp & Hinst).
  apply list_elem_of_lookup. exists i.
  apply lookup_zip_with_Some. exists (model_key, param), inst.
  split; [done|]. split; [|done]. by rewrite list_lookup_fmap, Hp.
Qed.

Lemma family_combinations_length (models : list (string * estimator))
    (grid : list (string * list kwargs)) (model_key : string)
    (model : estimator) (entries : list kwargs) :
  dict_get models model_key = Ok model →
  dict_get grid model_key = Ok entries →
  length (family_combinations models grid model_key) = length entries.
Proof.
  intros Hm He. unfold family_combinations. rewrite Hm, He.
  rewrite length_zip_with, length_fmap, GridFacts.length_instances. lia.
Qed.

Lemma bind_cons {A B} (f : A → list B) (x : A) (l : list A) :
  (x :: l) ≫= f = f x ++ (l ≫= f).
Proof. reflexivity. Qed.

(** The outer loop: what it leaves in the registry, on the clock and in
    [model_perf]. *)
Lemma models_loop_inv (grid : list (string * list kwargs)) (keys : list string) :
  ∀ (model_perf model_perf' : list (string * perf)) (s s' : session)
    (P : string * perf → Prop),
  models_loop now X_train y_train X_test y_test keys grid model_perf s
  = Ok (model_perf', s') →
  NoDup keys →
  Forall P model_perf →
  (∀ kv combo, combo ∈ keys ≫= family_combinations (registry s) grid →
               records kv combo → P kv) →
  (registry s').*1 = (registry s).*1 ∧
  (∀ k, k ∉ keys → dict_get (registry s') k = dict_get (registry s) k) ∧
  (∀ k, k ∈ keys → ∃ model entries,
     dict_get (registry s) k = Ok model ∧
     dict_get grid k = Ok entries ∧
     dict_get (registry s') k = Ok (foldl set_params model entries)) ∧
  clock s'
  = (clock s + 2 * length (keys ≫= family_combinations (registry s) grid))%nat ∧
  (NoDup model_perf.*1 → NoDup model_perf'.*1) ∧
  (length model_perf'
   ≤ length model_perf
     + length (keys ≫= family_combinations (registry s) grid))%nat ∧
  Forall P model_perf'.
Proof.
  induction keys as [|key keys IH];
    intros model_perf model_perf' s s' P Hloop Hkeys HP Hstep.
  - cbn [models_loop] in Hloop. injection Hloop as <- <-.
    split; [done|]. split; [done|]. split; [by intros k ?%elem_of_nil|].
    split; [simpl; lia|]. split; [done|]. split; [simpl; lia|done].
  - apply NoDup_cons in Hkeys as [Hkey Hkeys].
    cbn [models_loop] in Hloop. bind_inv Hloop model Hm.
    bind_inv Hloop entries He. bind_inv Hloop looped Hgrid.
    destruct looped as [model_perf1 s1].
    rewrite bind_cons in Hstep. rewrite bind_cons, length_app.
    rewrite (family_combinations_length _ _ _ _ _ Hm He).
    destruct (grid_loop_inv _ _ model _ _ _ _ P Hgrid Hm HP)
      as (Hreg1 & Hclock1 & Hnd1 & Hlen1 & HP1).
    { intros kv param inst Hin Hk Hp Ht. apply (Hstep kv (key, param, inst)).
      - apply elem_of_app. left. by eapply family_combinations_zip.
      - done. }
    assert (∀ k, k ≠ key →
              dict_get (registry s1) k = dict_get (registry s) k) as Hother.
    { intros k Hk. rewrite Hreg1. by apply GridFacts.dict_get_set_ne. }
    assert (keys ≫= family_combinations (registry s1) grid
            = keys ≫= family_combinations (registry s) grid) as Hsame.
    { apply GridFacts.bind_ext_elem. intros k Hk. unfold family_combinations.
      rewrite Hother; [done|]. by intros ->. }
    destruct (IH _ _ _ _ P Hloop Hkeys HP1)
      as (Hreg & Hout & Hin & Hclock & Hnd & Hlen & HP').
    { intros kv combo Hcombo. apply Hstep. apply elem_of_app. right.
      by rewrite <- Hsame. }
    rewrite Hsame in Hclock, Hlen.
    split; [|split; [|split; [|split; [|split; [|split]]]]].
    + rewrite Hreg, Hreg1. apply GridFacts.dict_set_keys.
      by eapply GridFacts.dict_get_elem_of.
    + intros k [Hne Hk]%not_elem_of_cons. rewrite (Hout k Hk). by apply Hother.
    + intros k [->|Hk]%elem_of_cons.
      * exists model, entries. split; [done|]. split; [done|].
        rewrite (Hout key Hkey), Hreg1. apply GridFacts.dict_get_set_eq.
      * destruct (Hin k Hk) as (m & es & Hkm & Hke & Hk').
        exists m, es. split; [|done]. rewrite <- Hother; [done|]. by intros ->.
    + lia.
    + intros Hnd0. by apply Hnd, Hnd1.
    + lia.
    + done.
Qed.

End any_design.

(** X7. A grid search leaves its mark on the shared model instances: after
    [run_grid_search] has returned, the registry has the same keys, every
    instance has received all the entries of its family's grid one after
    the other (so it stays configured as the last entries left it), and
    the clock has been read twice per combination. In particular every
    key of the registry has an entry in the grid. *)
Theorem run_grid_search_leaves_instances_configured `{Collaborators}
    (now : nat → Q) (X_train X_test : design) (y_train y_test : list value)
    (test_week degree : Z) (grid : list (string * list kwargs))
    (s s' : session) (table : list grid_row) :
  NoDup (registry s).*1 →
  run_grid_search now X_train y_train X_test y_test test_week degree grid s
  = Ok (table, s') →
  (registry s').*1 = (registry s).*1 ∧
  (∀ k model, dict_get (registry s) k = Ok model →
     ∃ entries, dict_get grid k = Ok entries ∧
       dict_get (registry s') k = Ok (foldl set_params model entries)) ∧
  clock s' = (clock s + 2 * length (combinations (registry s) grid))%nat.
Proof.
  intros Hkeys Hrun. unfold run_grid_search in Hrun.
  bind_inv Hrun looped Hloop. destruct looped as [model_perf s1].
  injection Hrun as _ <-.
  destruct (models_loop_inv now _ _ _ _ _ _ _ _ _ _ (λ _, True) Hloop Hkeys)
    as (Hreg & _ & Hin & Hclock & _); [constructor|done|].
  split; [done|]. split; [|done].
  intros k model Hk.
  destruct (Hin k) as (m & entries & Hm & He & Hk');
    [by eapply GridFacts.dict_get_elem_of|].
  rewrite Hk in Hm. injection Hm as <-. by exists entries.
Qed.

Lemma run_grid_search_leaves_instances_configured_witness :
  ∃ table s',
    run_grid_search (H := Examples.stand_ins) Examples.seconds
      (AsArray Examples.train_array) [Int 5; Int 8; Int 12; Int 20]
      (AsArray Examples.test_array) [Int 15; Int 29] 17 2
      Scenarios.small_grid (mkSession Scenarios.two_models 0)
    = Ok (table, s') ∧
    (registry s').*1 = (Scenarios.two_models).*1 ∧
    (∀ k model, dict_get Scenarios.two_models k = Ok model →
       ∃ entries, dict_get Scenarios.small_grid k = Ok entries ∧
         dict_get (registry s') k = Ok (foldl set_params model entries)) ∧
    clock s'
    = (0 + 2 * length (combinations Scenarios.two_models
                         Scenarios.small_grid))%nat.
Proof.
  eexists _, _. split; [reflexivity|].
  eapply (run_grid_search_leaves_instances_configured (H := Examples.stand_ins)
           Examples.seconds (AsArray Examples.train_array)
           (AsArray Examples.test_array) [Int 5; Int 8; Int 12; Int 20]
           [Int 15; Int 29] 17 2 Scenarios.small_grid
           (mkSession Scenarios.two_models 0)).
  - apply (bool_decide_unpack _). by vm_compute.
  - reflexivity.
Defined.

(** X8. Whatever the rendering of an instance is, the table returned by
    [run_grid_search] never has two rows with the same key and never has
    more rows than there are combinations; every row carries the test week
    and the degree of the call, its key is its [model_type], and it
    records a combination of the grid whose configured instance renders to
    that key. *)
Theorem run_grid_search_keys_are_distinct `{Collaborators}
    (now : nat → Q) (X_train X_test : design) (y_train y_test : list value)
    (test_week degree : Z) (grid : list (string * list kwargs))
    (s s' : session) (table : list grid_row) :
  NoDup (registry s).*1 →
  run_grid_search now X_train y_train X_test y_test test_week degree grid s
  = Ok (table, s') →
  NoDup (index <$> table) ∧
  (length table ≤ length (combinations (registry s) grid))%nat ∧
  ∀ row, row ∈ table →
    row_test_week row = test_week ∧
    row_degree row = degree ∧
    perf_model_type (measures row) = index row ∧
    ∃ combo, combo ∈ combinations (registry s) grid ∧
             index row = render combo.2 ∧
             perf_parameters (measures row) = combo.1.2.
Proof.
  intros Hkeys Hrun. unfold run_grid_search in Hrun.
  bind_inv Hrun looped Hloop. destruct looped as [model_perf s1].
  injection Hrun as <- _.
  destruct (models_loop_inv now _ _ _ _ _ _ _ _ _ _
              (recorded (combinations (registry s) grid)) Hloop Hkeys)
    as (_ & _ & _ & _ & Hnd & Hlen & Hrec).
  { constructor. }
  { intros kv combo Hin Hkv. by exists combo. }
  split; [|split].
  - rewrite <- list_fmap_compose. apply Hnd. constructor.
  - rewrite length_fmap. exact Hlen.
  - intros row (kv & -> & Hkv)%list_elem_of_fmap. cbn.
    rewrite Forall_forall in Hrec.
    destruct (Hrec kv Hkv) as (combo & Hin & Hk & Hp & Ht).
    split; [done|]. split; [done|]. split; [congruence|]. by exists combo.
Qed.

Lemma run_grid_search_keys_are_distinct_witness :
  ∃ table s',
    run_grid_search (H := Examples.stand_ins) Examples.seconds
      (AsArray Examples.train_array) [Int 5; Int 8; Int 12; Int 20]
      (AsArray Examples.test_array) [Int 15; Int 29] 17 2
      Scenarios.small_grid (mkSession Scenarios.two_models 0)
    = Ok (table, s') ∧
    NoDup (index <$> table) ∧
    (length table
     ≤ length (combinations Scenarios.two_models Scenarios.small_grid))%nat ∧
    ∀ row, row ∈ table →
      row_test_week row = 17 ∧
      row_degree row = 2 ∧
      perf_model_type (measures row) = index row ∧
      ∃ combo, combo ∈ combinations Scenarios.two_models Scenarios.small_grid ∧
               index row = render (Collaborators := Examples.stand_ins) combo.2 ∧
               perf_parameters (measures row) = combo.1.2.
Proof.
  eexists _, _. split; [reflexivity|].
  eapply (run_grid_search_keys_are_distinct (H := Examples.stand_ins)
           Examples.seconds (AsArray Examples.train_array)
           (AsArray Examples.test_array) [Int 5; Int 8; Int 12; Int 20]
           [Int 15; Int 29] 17 2 Scenarios.small_grid
           (mkSession Scenarios.two_models 0)).
  - apply (bool_decide_unpack _). by vm_compute.
  - reflexivity.
Defined.

End SessionFacts.

(** ** Cross-validation orchestrator: rows and failures *)

Module CVFacts.
Import Grid Prep CV GridLog.

Lemma raises_bind {A B} (m : result A) (k : A → result B) :
  raises m → raises (m ≫= k).
Proof. intros [e ->]. by exists e. Qed.

Lemma raises_bind_r {A B} (m : result A) (k : A → result B) :
  (∀ a, m = Ok a → raises (k a)) → raises (m ≫= k).
Proof. destruct m as [a|e]; [by intros Hk; apply Hk|by exists e]. Qed.

Lemma loc_columns_rows (df df' : DataFrame) (cols : list string) :
  loc_columns df cols = Ok df' → length (rows df') = length (rows df).
Proof.
  unfold loc_columns. destruct (list_find _ cols) as [[? ?]|]; [done|].
  intros [= <-]. cbn. by rewrite length_fmap.
Qed.

Lemma drop_columns_rows (df df' : DataFrame) (cols : list string) :
  drop_columns df cols = Ok df' → length (rows df') = length (rows df).
Proof.
  unfold drop_columns. destruct (list_find _ cols) as [[? ?]|]; [done|].
  intros [= <-]. cbn. by rewrite length_fmap.
Qed.

Lemma values_data (df : DataFrame) (m : Matrix) :
  values df = Ok m → length (data m) = length (rows df).
Proof.
  unfold values. intros Hv. apply SessionFacts.bind_Ok in Hv as (cells & Hc & Hv).
  injection Hv as <-. cbn. by apply traverse_length in Hc.
Qed.

Lemma elem_of_concat {A} (x : A) (ls : list (list A)) :
  x ∈ concat ls → ∃ l, x ∈ l ∧ l ∈ ls.
Proof.
  induction ls as [|l ls IH]; simpl; [by intros ?%elem_of_nil|].
  intros [Hx|Hx]%elem_of_app.
  - exists l. split; [done|by left].
  - destruct (IH Hx) as (l' & Hl' & Hin). exists l'. split; [done|by right].
Qed.

Section with_collaborators.
Context `{Collaborators}.
Variable now : nat → Q.

(** An array without rows cannot be expanded. *)
Lemma fit_transform_empty (poly : PolynomialFeatures) (X : Matrix) :
  data X = [] → fit_transform poly X = Err ValueError.
Proof. intros HX. unfold fit_transform, poly_fit. by rewrite HX. Qed.

Lemma design_matrices_empty (train test : DataFrame) (features : list string)
    (deg : Z) :
  rows train = [] ∨ rows test = [] →
  raises (design_matrices train test features deg).
Proof.
  intros Hempty. unfold design_matrices.
  apply raises_bind_r. intros train_features Htf.
  apply raises_bind_r. intros train_values Htv.
  destruct (decide (rows train = [])) as [Htrain|Htrain].
  { apply raises_bind. rewrite fit_transform_empty; [by eexists|].
    apply nil_length_inv.
    by rewrite (values_data _ _ Htv), (loc_columns_rows _ _ _ Htf), Htrain. }
  destruct Hempty as [?|Htest]; [done|].
  apply raises_bind_r. intros [poly X_train] _.
  apply raises_bind_r. intros test_features Htf'.
  apply raises_bind_r. intros test_values Htv'.
  apply raises_bind. rewrite fit_transform_empty; [by eexists|].
  apply nil_length_inv.
  by rewrite (values_data _ _ Htv'), (loc_columns_rows _ _ _ Htf'), Htest.
Qed.

Lemma normalize_block_rows (train test train' test' : DataFrame) :
  normalize_block train test = Ok (train', test') →
  (rows train = [] → rows train' = []) ∧ (rows test = [] → rows test' = []).
Proof.
  unfold normalize_block. intros Hn.
  apply SessionFacts.bind_Ok in Hn as (norm_features & _ & Hn).
  apply SessionFacts.bind_Ok in Hn as (train_block & _ & Hn).
  apply SessionFacts.bind_Ok in Hn as ([train_norm sc] & _ & Hn).
  apply SessionFacts.bind_Ok in Hn as (test_block & _ & Hn).
  apply SessionFacts.bind_Ok in Hn as ([test_norm sc'] & _ & Hn).
  apply SessionFacts.bind_Ok in Hn as (train_rest & Htrain & Hn).
  apply SessionFacts.bind_Ok in Hn as (test_rest & Htest & Hn).
  injection Hn as <- <-. cbn [rows merge_index].
  apply drop_columns_rows in Htrain, Htest. split; intros Hnil.
  - rewrite Hnil in Htrain. by apply nil_length_inv in Htrain as ->.
  - rewrite Hnil in Htest. by apply nil_length_inv in Htest as ->.
Qed.

Lemma degree_loop_empty (train test : DataFrame) (test_week : Z)
    (features : list string) (target : string) (degrees : list Z)
    (grid : list (string * list kwargs)) (cv_eval : list (list grid_row))
    (s : session) :
  rows train = [] ∨ rows test = [] →
  degrees ≠ [] →
  raises (degree_loop now train test test_week features target degrees grid
            cv_eval s).
Proof.
  intros Hempty Hdeg. destruct degrees as [|deg degrees]; [done|].
  cbn [degree_loop]. by apply raises_bind, design_matrices_empty.
Qed.

Lemma fold_loop_empty (temporal_splits : list Splitter.fold)
    (features : list string) (target : string) (degrees : list Z)
    (grid : list (string * list kwargs)) (f : Splitter.fold) :
  f ∈ temporal_splits →
  rows (Splitter.cv_train f) = [] ∨ rows (Splitter.cv_test f) = [] →
  degrees ≠ [] →
  ∀ cv_eval s,
    raises (fold_loop now temporal_splits features target degrees grid
              cv_eval s).
Proof.
  intros Hf Hempty Hdeg.
  induction temporal_splits as [|cv rest IH]; intros cv_eval s;
    [by apply elem_of_nil in Hf|].
  cbn [fold_loop]. apply raises_bind_r. intros [train test] Hnorm.
  apply elem_of_cons in Hf as [<-|Hf].
  - apply raises_bind, degree_loop_empty; [|done].
    apply normalize_block_rows in Hnorm as [Htrain Htest].
    destruct Hempty as [?|?]; [left; by apply Htrain|right; by apply Htest].
  - apply raises_bind_r. intros [cv_eval' s'] _. by apply IH.
Qed.

Lemma instances_cls (model e : estimator) (entries : list kwargs) :
  e ∈ instances model entries → cls e = cls model.
Proof.
  revert model. induction entries as [|param entries IH]; intros model;
    cbn [instances]; [by intros ?%elem_of_nil|].
  intros [->|Hin]%elem_of_cons; [done|]. by rewrite (IH _ Hin).
Qed.

Lemma foldl_set_params_cls (model : estimator) (entries : list kwargs) :
  cls (foldl set_params model entries) = cls model.
Proof.
  revert model. induction entries as [|param entries IH]; intros model;
    [done|]. cbn [foldl]. by rewrite IH.
Qed.

Lemma same_classes_refl (reg : list (string * estimator)) :
  same_classes reg reg.
Proof. split; [done|]. intros k m Hk. by exists m. Qed.

Lemma same_classes_trans (reg0 reg1 reg2 : list (string * estimator)) :
  same_classes reg0 reg1 → same_classes reg1 reg2 → same_classes reg0 reg2.
Proof.
  intros [Hk1 Hc1] [Hk2 Hc2]. split; [congruence|].
  intros k m Hk. destruct (Hc2 _ _ Hk) as (m1 & Hm1 & Hcls1).
  destruct (Hc1 _ _ Hm1) as (m0 & Hm0 & Hcls0). exists m0.
  split; [done|congruence].
Qed.

Lemma from_grid_mono (reg0 reg : list (string * estimator))
    (grid : list (string * list kwargs)) (key : string) (param : kwargs) :
  same_classes reg0 reg → from_grid reg grid key param →
  from_grid reg0 grid key param.
Proof.
  intros [_ Hcls] (family & m & entries & e & Hm & He & Hp & Hc & Hk).
  destruct (Hcls _ _ Hm) as (m0 & Hm0 & Hcls0).
  exists family, m0, entries, e. repeat split; [done..|congruence|done].
Qed.

(** What one grid search contributes: rows with the test week and the
    degree of the call, keyed by their [model_type], each recording an
    entry of the grid of a family of the registry; the instances of the
    registry are only reconfigured. *)
Lemma run_grid_search_rows (X_train X_test : design)
    (y_train y_test : list value) (test_week degree : Z)
    (grid : list (string * list kwargs)) (s s' : session)
    (table : list grid_row) :
  NoDup (registry s).*1 →
  run_grid_search now X_train y_train X_test y_test test_week degree grid s
  = Ok (table, s') →
  same_classes (registry s) (registry s') ∧
  Forall (λ row, row_test_week row = test_week ∧ row_degree row = degree ∧
                 perf_model_type (measures row) = index row ∧
                 from_grid (registry s) grid (index row)
                   (perf_parameters (measures row))) table.
Proof.
  intros Hkeys Hrun. unfold run_grid_search in Hrun.
  apply SessionFacts.bind_Ok in Hrun as ([model_perf s1] & Hloop & Hrun).
  injection Hrun as <- <-.
  destruct (SessionFacts.models_loop_inv now _ _ _ _ _ _ _ _ _ _
              (λ kv, perf_model_type kv.2 = kv.1 ∧
                     from_grid (registry s) grid kv.1 (perf_parameters kv.2))
              Hloop Hkeys)
    as (Hreg & _ & Hin & _ & _ & _ & HP).
  { constructor. }
  { intros kv combo Hcombo (Hk & Hp & Ht). split; [congruence|].
    apply list_elem_of_bind in Hcombo as (family & Hfam & _).
    unfold family_combinations in Hfam.
    destruct (dict_get (registry s) family) as [m|] eqn:Hm;
      [|by apply elem_of_nil in Hfam].
    destruct (dict_get grid family) as [entries|] eqn:He;
      [|by apply elem_of_nil in Hfam].
    destruct combo as [[fam param] e].
    pose proof (elem_of_zip_l _ _ _ _ Hfam) as Hl.
    pose proof (elem_of_zip_r _ _ _ _ Hfam) as Hr.
    apply list_elem_of_fmap in Hl as (param' & [= -> ->] & Hparam).
    exists family, m, entries, e. cbn in Hk, Hp.
    split; [done|]. split; [done|]. split; [by rewrite Hp|].
    split; [by eapply instances_cls|done]. }
  split.
  - split; [done|]. intros k m Hk.
    destruct (Hin k) as (m0 & entries & Hm0 & _ & Hk').
    { rewrite <- Hreg. by eapply GridFacts.dict_get_elem_of. }
    exists m0. split; [done|]. rewrite Hk in Hk'. injection Hk' as ->.
    apply foldl_set_params_cls.
  - apply Forall_fmap. eapply Forall_impl; [exact HP|].
    intros kv [Ht Hfrom]. done.
Qed.

(** The rows collected by the loop over the degrees of one fold. *)
Lemma degree_loop_rows (train test : DataFrame) (test_week : Z)
    (features : list string) (target : string)
    (grid : list (string * list kwargs)) (P : grid_row → Prop)
    (reg0 : list (string * estimator))
    (all_degrees : list Z) (degrees : list Z) :
  ∀ (cv_eval cv_eval' : list (list grid_row)) (s s' : session),
  degree_loop now train test test_week features target degrees grid cv_eval s
  = Ok (cv_eval', s') →
  NoDup (registry s).*1 →
  same_classes reg0 (registry s) →
  degrees ⊆ all_degrees →
  (∀ row, row_test_week row = test_week → row_degree row ∈ all_degrees →
          perf_model_type (measures row) = index row →
          from_grid reg0 grid (index row) (perf_parameters (measures row)) →
          P row) →
  Forall (Forall P) cv_eval →
  same_classes reg0 (registry s') ∧
  (registry s').*1 = (registry s).*1 ∧
  length cv_eval' = (length cv_eval + length degrees)%nat ∧
  Forall (Forall P) cv_eval'.
Proof.
  induction degrees as [|deg degrees IH];
    intros cv_eval cv_eval' s s' Hloop Hkeys Hsame Hsub HP Hall.
  - cbn [degree_loop] in Hloop. injection Hloop as <- <-.
    split; [done|]. split; [done|]. split; [simpl; lia|done].
  - cbn [degree_loop] in Hloop.
    apply SessionFacts.bind_Ok in Hloop as ([[Xa Xb] poly] & _ & Hloop).
    apply SessionFacts.bind_Ok in Hloop as (ya & _ & Hloop).
    apply SessionFacts.bind_Ok in Hloop as (yb & _ & Hloop).
    apply SessionFacts.bind_Ok in Hloop as ([table s1] & Hrun & Hloop).
    apply run_grid_search_rows in Hrun as [Hsame1 Hrows]; [|done].
    pose proof (proj1 Hsame1) as Hreg1.
    destruct (IH _ _ _ _ Hloop) as (Hsame' & Hreg & Hlen & Hall').
    { by rewrite Hreg1. }
    { by eapply same_classes_trans. }
    { intros d Hd. apply Hsub. by right. }
    { done. }
    { apply Forall_app. split; [done|]. constructor; [|constructor].
      eapply Forall_impl; [exact Hrows|]. intros row (Hw & Hd & Ht & Hfrom).
      apply HP; [done| |done|by eapply from_grid_mono].
      rewrite Hd. apply Hsub. by left. }
    split; [done|]. split; [by rewrite Hreg|]. split; [|done].
    rewrite Hlen, length_app. simpl. lia.
Qed.

(** The rows collected by the loop over the folds. *)
Lemma fold_loop_rows (features : list string) (target : string)
    (degrees : list Z) (grid : list (string * list kwargs))
    (P : grid_row → Prop) (reg0 : list (string * estimator))
    (all_folds : list Splitter.fold)
    (temporal_splits : list Splitter.fold) :
  ∀ (cv_eval cv_eval' : list (list grid_row)) (s s' : session),
  fold_loop now temporal_splits features target degrees grid cv_eval s
  = Ok (cv_eval', s') →
  NoDup (registry s).*1 →
  same_classes reg0 (registry s) →
  temporal_splits ⊆ all_folds →
  (∀ row, row_test_week row ∈ Splitter.test_week <$> all_folds →
          row_degree row ∈ degrees →
          perf_model_type (measures row) = index row →
          from_grid reg0 grid (index row) (perf_parameters (measures row)) →
          P row) →
  Forall (Forall P) cv_eval →
  same_classes reg0 (registry s') ∧
  (registry s').*1 = (registry s).*1 ∧
  length cv_eval'
  = (length cv_eval + length temporal_splits * length degrees)%nat ∧
  Forall (Forall P) cv_eval'.
Proof.
  induction temporal_splits as [|cv rest IH];
    intros cv_eval cv_eval' s s' Hloop Hkeys Hsame Hsub HP Hall.
  - cbn [fold_loop] in Hloop. injection Hloop as <- <-.
    split; [done|]. split; [done|]. split; [simpl; lia|done].
  - cbn [fold_loop] in Hloop.
    apply SessionFacts.bind_Ok in Hloop as ([train test] & _ & Hloop).
    apply SessionFacts.bind_Ok in Hloop as ([cv_eval1 s1] & Hdeg & Hloop).
    destruct (degree_loop_rows _ _ _ _ _ _ P reg0 degrees degrees
                _ _ _ _ Hdeg)
      as (Hsame1 & Hreg1 & Hlen1 & Hall1); [done|done|done| |done|].
    { intros row Hw Hd Ht Hfrom. apply HP; [|done..]. rewrite Hw.
      apply list_elem_of_fmap_2, Hsub. by left. }
    destruct (IH _ _ _ _ Hloop) as (Hsame' & Hreg & Hlen & Hall').
    { by rewrite Hreg1. }
    { done. }
    { intros f Hf. apply Hsub. by right. }
    { done. }
    { done. }
    split; [done|]. split; [by rewrite Hreg|]. split; [|done].
    rewrite Hlen, Hlen1. simpl. lia.
Qed.

(** The rows of the table of [cross_validate], before they are labelled. *)
Lemma cross_validate_inv (temporal_splits : list Splitter.fold)
    (features : list string) (target : string) (degrees : list Z)
    (grid : list (string * list kwargs)) (s s' : session)
    (cv_df : list cv_row) :
  NoDup (registry s).*1 →
  cross_validate now temporal_splits features target degrees grid s
  = Ok (cv_df, s') →
  same_classes (registry s) (registry s') ∧
  ∃ table, table ≠ [] ∧ cv_df = relabel <$> table ∧
    Forall (λ row,
              row_test_week row ∈ Splitter.test_week <$> temporal_splits ∧
              row_degree row ∈ degrees ∧
              perf_model_type (measures row) = index row ∧
              from_grid (registry s) grid (index row)
                (perf_parameters (measures row))) table.
Proof.
  intros Hkeys Hcv. unfold cross_validate in Hcv.
  apply SessionFacts.bind_Ok in Hcv as (norm_features & _ & Hcv).
  apply SessionFacts.bind_Ok in Hcv as ([cv_eval s1] & Hloop & Hcv).
  destruct cv_eval as [|table cv_eval]; [done|].
  destruct (concat (table :: cv_eval)) as [|row table_rows] eqn:Hrows; [done|].
  injection Hcv as <- <-.
  destruct (fold_loop_rows features target degrees grid
              (λ row, row_test_week row ∈ Splitter.test_week <$> temporal_splits
                      ∧ row_degree row ∈ degrees
                      ∧ perf_model_type (measures row) = index row
                      ∧ from_grid (registry s) grid (index row)
                          (perf_parameters (measures row)))
              (registry s) temporal_splits temporal_splits _ _ _ _ Hloop Hkeys)
    as (Hsame & _ & _ & Hall);
    [apply same_classes_refl|done|done|constructor|].
  split; [done|]. exists (row :: table_rows).
  split; [done|]. split; [done|]. rewrite <- Hrows.
  apply Forall_forall. intros row' (t & Hrow & Ht)%elem_of_concat.
  rewrite Forall_forall in Hall. specialize (Hall _ Ht).
  rewrite Forall_forall in Hall. by apply Hall.
Qed.

End with_collaborators.

(** X9. Every row of the table returned by [cross_validate] belongs to one
    fold and one degree of the call: its degree is one of [degrees], its
    test week is the test week of one of the folds, and its label is
    built from its own columns: the family extracted from [model_type],
    then the degree, then the text of [parameters]. The table is never
    empty, and the registry keeps its keys. *)
Theorem cross_validate_rows `{Collaborators} (now : nat → Q)
    (temporal_splits : list Splitter.fold) (features : list string)
    (target : string) (degrees : list Z)
    (grid : list (string * list kwargs)) (s s' : session)
    (cv_df : list cv_row) :
  NoDup (registry s).*1 →
  cross_validate now temporal_splits features target degrees grid s
  = Ok (cv_df, s') →
  cv_df ≠ [] ∧
  (registry s').*1 = (registry s).*1 ∧
  ∀ r, r ∈ cv_df →
    degree r ∈ degrees ∧
    test_week r ∈ Splitter.test_week <$> temporal_splits ∧
    model r = (family ← extract_family (model_type r);
               Some (family +:+ " " +:+ "degree_" +:+ pretty (degree r)
                       +:+ " " +:+ str_dict (parameters r))).
Proof.
  intros Hkeys Hcv.
  apply (cross_validate_inv now) in Hcv
    as ([Hreg _] & table & Hne & -> & Hall); [|done].
  split; [by destruct table|]. split; [done|].
  intros r (row & -> & Hin)%list_elem_of_fmap.
  rewrite Forall_forall in Hall. destruct (Hall _ Hin) as (Hw & Hd & Hm & _).
  cbn [relabel degree test_week model model_type parameters].
  split; [done|]. split; [done|]. unfold label. by rewrite Hm.
Qed.

Lemma cross_validate_rows_witness :
  ∃ cv_df s',
    cross_validate (H := Examples.stand_ins) Examples.seconds
      Examples.three_weeks_folds Examples.naive_features TARGET [1; 2]
      Scenarios.small_grid (mkSession Scenarios.two_models 0)
    = Ok (cv_df, s') ∧
    cv_df ≠ [] ∧
    (registry s').*1 = (Scenarios.two_models).*1 ∧
    ∀ r, r ∈ cv_df →
      degree r ∈ [1; 2] ∧
      test_week r ∈ Splitter.test_week <$> Examples.three_weeks_folds ∧
      model r = (family ← extract_family (model_type r);
                 Some (family +:+ " " +:+ "degree_" +:+ pretty (degree r)
                         +:+ " " +:+ str_dict (Collaborators := Examples.stand_ins)
                                       (parameters r))).
Proof.
  eexists _, _. split; [by vm_compute|].
  eapply (cross_validate_rows (H := Examples.stand_ins) Examples.seconds
            Examples.three_weeks_folds Examples.naive_features TARGET [1; 2]
            Scenarios.small_grid (mkSession Scenarios.two_models 0)).
  - apply (bool_decide_unpack _). by vm_compute.
  - by vm_compute.
Defined.

(** X10. A fold whose training part or test part has no row makes
    [cross_validate] raise, whatever the other folds hold: as soon as
    there is a degree to try, the call does not return a table. *)
Theorem cross_validate_empty_fold_raises `{Collaborators} (now : nat → Q)
    (temporal_splits : list Splitter.fold) (features : list string)
    (target : string) (degrees : list Z)
    (grid : list (string * list kwargs)) (s : session) (f : Splitter.fold) :
  f ∈ temporal_splits →
  rows (Splitter.cv_train f) = [] ∨ rows (Splitter.cv_test f) = [] →
  degrees ≠ [] →
  raises (cross_validate now temporal_splits features target degrees grid s).
Proof.
  intros Hf Hempty Hdeg. unfold cross_validate.
  apply raises_bind_r. intros norm_features _.
  apply raises_bind. by eapply fold_loop_empty.
Qed.

Lemma cross_validate_empty_fold_raises_witness :
  raises (cross_validate (H := Examples.stand_ins) Examples.seconds
            Scenarios.gap_folds Examples.naive_features TARGET [1; 2]
            Scenarios.small_grid (mkSession Scenarios.two_models 0)).
Proof.
  eapply (cross_validate_empty_fold_raises (H := Examples.stand_ins)).
  - apply (list_elem_of_lookup_2 _ 1%nat). reflexivity.
  - right. reflexivity.
  - discriminate.
Defined.

End CVFacts.

(** ** Labels, families and the winner *)

Module LabelFacts.
Import Grid Prep CV Selector Labels.

Lemma is_word_not_paren (c : Ascii.ascii) :
  is_word c = true → (Ascii.N_of_ascii c =? 40)%N = false.
Proof.
  unfold is_word. intros Hw. apply N.eqb_neq. intros Heq.
  rewrite Heq in Hw. by vm_compute in Hw.
Qed.

Lemma is_word_not_space (c : Ascii.ascii) :
  is_word c = true → Ascii.is_space c = false.
Proof. by destruct c as [[] [] [] [] [] [] [] []]. Qed.

Lemma app_single (c : Ascii.ascii) (s : string) :
  String c "" +:+ s = String c s.
Proof. reflexivity. Qed.

Lemma app_cons (c : Ascii.ascii) (s1 s2 : string) :
  String c s1 +:+ s2 = String c (s1 +:+ s2).
Proof. reflexivity. Qed.

(** A run of word characters followed by an opening parenthesis [paren] is
    what the pattern finds. *)
Lemma extract_go_name (paren : Ascii.ascii) (name rest run : string) :
  Ascii.N_of_ascii paren = 40%N →
  all_word name = true →
  run ≠ "" ∨ name ≠ "" →
  extract_go run (name +:+ String paren rest)
  = Some (String.rev_app run name).
Proof.
  intros Hparen. revert run.
  induction name as [|c name IH]; intros run Hw Hne.
  - destruct Hne as [Hne|?]; [|done].
    change ("" +:+ String paren rest) with (String paren rest).
    cbn [extract_go]. rewrite Hparen. by destruct run.
  - cbn in Hw. apply andb_true_iff in Hw as [Hc Hw].
    rewrite app_cons. cbn [extract_go].
    rewrite (is_word_not_paren _ Hc), Hc.
    rewrite IH; [done|done|by left].
Qed.

(** The first word of a text that starts with a non-empty run of word
    characters followed by a blank [blank] is that run. *)
Lemma words_go_word (blank : Ascii.ascii) (family rest : string)
    (cur : option string) :
  Ascii.is_space blank = true →
  all_word family = true →
  is_Some cur ∨ family ≠ "" →
  head (String.words_go cur (family +:+ String blank rest))
  = Some (String.rev_app (default "" cur) family).
Proof.
  intros Hblank. revert cur.
  induction family as [|c family IH]; intros cur Hw Hne.
  - destruct Hne as [[run ->]|?]; [|done].
    change ("" +:+ String blank rest) with (String blank rest).
    cbn [String.words_go]. by rewrite Hblank.
  - cbn in Hw. apply andb_true_iff in Hw as [Hc Hw].
    rewrite app_cons. cbn [String.words_go].
    rewrite (is_word_not_space _ Hc).
    rewrite IH; [|done|by left]. by destruct cur.
Qed.

Lemma family_of_label (family rest : string) :
  family ≠ "" → all_word family = true →
  family_of (family +:+ " " +:+ rest) = Some family.
Proof.
  intros Hne Hw. unfold family_of, String.words. rewrite app_single.
  rewrite words_go_word; [done|done|done|by right].
Qed.

(** X11. Training data that spans fewer than three week numbers stops the
    pipeline: [time_cv_split] returns no fold, and on no fold
    [cross_validate] raises [ValueError] and [run_temporal_cv] raises
    [IndexError]. *)
Theorem short_span_stops_the_pipeline `{Collaborators} (now : nat → Q)
    (train : DataFrame) (ws : list Z) (earliest latest : Z)
    (features : list string) (target : string) (degrees : list Z)
    (grid : list (string * list kwargs)) (s : session) :
  dt_week train Splitter.as_of_date = Ok ws →
  iloc_first ws = Ok earliest →
  iloc_last ws = Ok latest →
  latest ≤ earliest + 1 →
  (Splitter.time_cv_split train ≫= λ folds,
     cross_validate now folds features target degrees grid s)
  = Err ValueError ∧
  (Splitter.time_cv_split train ≫= λ folds, run_temporal_cv now folds s)
  = Err IndexError.
Proof.
  intros Hw He Hl Hspan.
  rewrite (SplitterFacts.time_cv_split_unfold _ _ _ _ Hw He Hl).
  rewrite range_empty by lia. split; reflexivity.
Qed.

Lemma short_span_stops_the_pipeline_witness :
  (Splitter.time_cv_split Examples.two_weeks ≫= λ folds,
     cross_validate (H := Examples.stand_ins) Examples.seconds folds
       Examples.naive_features TARGET DEGREES GRID
       (mkSession (MODELS Examples.no_defaults) 0))
  = Err ValueError ∧
  (Splitter.time_cv_split Examples.two_weeks ≫= λ folds,
     run_temporal_cv (H := Examples.stand_ins) Examples.seconds folds
       (mkSession (MODELS Examples.no_defaults) 0))
  = Err IndexError.
Proof.
  apply (short_span_stops_the_pipeline (H := Examples.stand_ins)
           Examples.seconds Examples.two_weeks [5; 6] 5 6).
  - vm_compute. reflexivity.
  - reflexivity.
  - reflexivity.
  - lia.
Defined.

(** X12. When the key of a row is a class name (a non-empty run of word
    characters) followed by an opening parenthesis, as the text of a
    scikit-learn instance is, the label of the row starts with that class
    name, and the first word of the label, which is what the winner keeps
    as its [model_type], is the class name again. *)
Theorem label_keeps_the_class_name `{Collaborators} (r : grid_row)
    (name rest : string) :
  index r = name +:+ "(" +:+ rest →
  name ≠ "" →
  all_word name = true →
  label r
  = Some (name +:+ " " +:+ "degree_" +:+ pretty (row_degree r) +:+ " "
            +:+ str_dict (perf_parameters (measures r))) ∧
  (∀ l, label r = Some l → family_of l = Some name).
Proof.
  intros Hindex Hne Hw.
  assert (extract_family (index r) = Some name) as Hfam.
  { rewrite Hindex. unfold extract_family. rewrite app_single.
    rewrite extract_go_name; [done|done|done|by right]. }
  assert (label r
          = Some (name +:+ " " +:+ "degree_" +:+ pretty (row_degree r) +:+ " "
                    +:+ str_dict (perf_parameters (measures r)))) as Hlabel.
  { unfold label. rewrite Hfam. reflexivity. }
  split; [exact Hlabel|].
  intros l Hl. rewrite Hlabel in Hl. injection Hl as <-.
  by apply family_of_label.
Qed.

Lemma label_keeps_the_class_name_witness :
  label (H := Examples.stand_ins) Scenarios.lasso_grid_row
  = Some ("Lasso" +:+ " " +:+ "degree_"
            +:+ pretty (row_degree Scenarios.lasso_grid_row) +:+ " "
            +:+ str_dict (Collaborators := Examples.stand_ins)
                  (perf_parameters (measures Scenarios.lasso_grid_row))) ∧
  (∀ l, label (H := Examples.stand_ins) Scenarios.lasso_grid_row = Some l →
        family_of l = Some "Lasso").
Proof.
  apply (label_keeps_the_class_name (H := Examples.stand_ins)
           Scenarios.lasso_grid_row "Lasso" "alpha=1)").
  - reflexivity.
  - discriminate.
  - reflexivity.
Defined.

End LabelFacts.

(** ** Which label wins *)

Module WinnerFacts.
Import CV Prep Selector.

Lemma label_le_le (a b : string) : label_le a b ↔ String.le a b.
Proof. unfold label_le, String.le. by rewrite Is_true_true. Qed.

Lemma label_le_refl (a : string) : label_le a a.
Proof. apply label_le_le. reflexivity. Qed.

Lemma label_le_trans (a b c : string) :
  label_le a b → label_le b c → label_le a c.
Proof. rewrite !label_le_le. intros ? ?. by etrans. Qed.

Lemma label_le_total (a b : string) : label_le a b ∨ label_le b a.
Proof. rewrite !label_le_le. apply String.le_total. Qed.

(** The first key of [groupby] is the least label. *)
Lemma group_keys_first (labels : list (option string)) (key l : string) :
  group_keys labels !! 0%nat = Some key →
  Some l ∈ labels →
  label_le key l.
Proof.
  intros Hfirst Hl%SelectorFacts.group_keys_elem. unfold group_keys in *.
  assert (StronglySorted label_le
            (merge_sort label_le (remove_dups (omap id labels)))) as Hs.
  { apply (StronglySorted_merge_sort label_le
             (Transitive0 := label_le_trans) (Total0 := label_le_total)). }
  destruct (merge_sort label_le (remove_dups (omap id labels)))
    as [|k keys]; [done|].
  injection Hfirst as ->. apply StronglySorted_inv in Hs as [_ Hall].
  apply elem_of_cons in Hl as [->|Hl]; [apply label_le_refl|].
  by eapply Forall_forall in Hall.
Qed.

Lemma loc_zero_inv (frame : list (nat * (string * nat))) (key : string) :
  loc_zero frame = Ok key → ∃ n, (0%nat, (key, n)) ∈ frame.
Proof.
  unfold loc_zero.
  destruct (list_find _ frame) as [[j [i [k n]]]|] eqn:E; [|done].
  intros [= <-]. apply list_find_Some in E as (Hj & Hi & _).
  simpl in Hi. subst i. exists n. by eapply list_elem_of_lookup_2.
Qed.

Lemma iloc_first_filter_inv {A} (P : A → Prop) `{!∀ x, Decision (P x)}
    (l : list A) (x : A) :
  iloc_first (filter P l) = Ok x → ∃ i, list_find P l = Some (i, x).
Proof.
  intros Hfirst.
  assert (x ∈ filter P l) as [HP Hx]%list_elem_of_filter.
  { destruct (filter P l); [done|]. injection Hfirst as ->. by left. }
  destruct (SelectorFacts.iloc_first_filter P l x Hx HP)
    as (i & y & Hfind & Hy).
  rewrite Hfirst in Hy. injection Hy as <-. by exists i.
Qed.

(** X13. Whenever [select_winner] returns, the label it has chosen is the
    label of the pool that comes first in the order of strings, whatever
    the number of times each label occurs in the pool: [best_type.loc[0]]
    reads the row labelled 0, which the sort by count does not relabel.
    The row returned is the first row of the table that carries this
    label, and the winner keeps its degree, its parameters and the first
    word of its label. *)
Theorem select_winner_takes_the_first_label (cv_df : list cv_row)
    (best_model : cv_row) (w : winner) :
  select_winner cv_df = Ok (best_model, w) →
  ∃ l i,
    model best_model = Some l ∧
    l ∈ pool cv_df ∧
    (∀ l', l' ∈ pool cv_df → label_le l l') ∧
    list_find (λ r, model r = Some l) cv_df = Some (i, best_model) ∧
    win_degree w = degree best_model ∧
    win_params w = parameters best_model ∧
    family_of l = Some (win_model_type w).
Proof.
  unfold select_winner. intros Hsel.
  apply SessionFacts.bind_Ok in Hsel as (best_single & Hloc & Hsel).
  apply SessionFacts.bind_Ok in Hsel as (row & Hfirst & Hsel).
  apply SessionFacts.bind_Ok in Hsel as (l & Hlabel & Hsel).
  apply SessionFacts.bind_Ok in Hsel as (family & Hwords & Hsel).
  injection Hsel as <- <-.
  apply iloc_first_filter_inv in Hfirst as [i Hfind].
  assert (model row = Some best_single) as Hmodel
    by (by apply list_find_Some in Hfind as (_ & ? & _)).
  rewrite Hmodel in Hlabel. injection Hlabel as <-.
  apply loc_zero_inv in Hloc as [n Hzero].
  unfold sort_by_count in Hzero. rewrite merge_sort_Permutation in Hzero.
  unfold best_type in Hzero.
  apply elem_of_lookup_imap_1 in Hzero as (j & key & Heq & Hkey).
  injection Heq as <- <- _. fold (pool cv_df) in Hkey.
  exists best_single, i. split; [done|]. split; [|split].
  - apply list_elem_of_lookup_2, SelectorFacts.group_keys_elem in Hkey.
    apply list_elem_of_fmap in Hkey as (l' & [= ->] & Hin). done.
  - intros l' Hl'. apply (group_keys_first _ _ _ Hkey).
    by apply list_elem_of_fmap_2.
  - split; [done|]. split; [done|]. split; [done|].
    unfold family_of. destruct (String.words best_single) as [|w ws]; [done|].
    simpl in Hwords. injection Hwords as ->. reflexivity.
Qed.

Lemma select_winner_takes_the_first_label_witness :
  ∃ best_model w,
    select_winner Examples.lasso_and_ridge = Ok (best_model, w) ∧
    ∃ l i,
      model best_model = Some l ∧
      l ∈ pool Examples.lasso_and_ridge ∧
      (∀ l', l' ∈ pool Examples.lasso_and_ridge → label_le l l') ∧
      list_find (λ r, model r = Some l) Examples.lasso_and_ridge
      = Some (i, best_model) ∧
      win_degree w = degree best_model ∧
      win_params w = parameters best_model ∧
      family_of l = Some (win_model_type w).
Proof.
  eexists _, _. split; [by vm_compute|].
  eapply (select_winner_takes_the_first_label Examples.lasso_and_ridge).
  by vm_compute.
Defined.

End WinnerFacts.

(** ** Feature assembly, fitting and simulation: shapes and failures *)

Module AssemblyFacts.
Import Grid Prep.

Lemma drop_columns_date (df : DataFrame) :
  "as_of_date" ∈ columns df →
  drop_columns df ["as_of_date"]
  = Ok (mkDataFrame (filter (λ c, c ∉ ["as_of_date"]) (columns df))
          ((λ r : row, filter (λ kv, kv.1 ∉ ["as_of_date"]) r) <$> rows df)).
Proof.
  intros Hin. unfold drop_columns. cbn [list_find].
  by rewrite decide_False by (by intros ?).
Qed.

Lemma drop_columns_no_date (df : DataFrame) :
  "as_of_date" ∉ columns df →
  drop_columns df ["as_of_date"] = Err (KeyError "as_of_date").
Proof.
  intros Hout. unfold drop_columns. cbn [list_find].
  by rewrite decide_True by done.
Qed.





(** X15. A training frame that has the column [as_of_date] never shows it
    to the model: when the test frame has the column too, the call is the
    call on the two frames without it; when the test frame lacks it the
    call raises [KeyError], and when the test set is an array it raises
    [AttributeError], in both cases before any instance is touched. *)
Theorem fit_and_predict_never_sees_the_date `{Collaborators}
    (X_train : DataFrame) (y_train : list value) (model_type : string)
    (param : kwargs) (s : session) :
  "as_of_date" ∈ columns X_train →
  (∀ X_test : DataFrame, "as_of_date" ∈ columns X_test →
     ∃ X X',
       drop_columns X_train ["as_of_date"] = Ok X ∧
       drop_columns X_test ["as_of_date"] = Ok X' ∧
       ("as_of_date" ∉ columns X) ∧
       ("as_of_date" ∉ columns X') ∧
       fit_and_predict (AsFrame X_train) y_train (AsFrame X_test) model_type
         param s
       = fit_and_predict (AsFrame X) y_train (AsFrame X') model_type param s) ∧
  (∀ X_test : DataFrame, "as_of_date" ∉ columns X_test →
     fit_and_predict (AsFrame X_train) y_train (AsFrame X_test) model_type
       param s
     = Err (KeyError "as_of_date")) ∧
  (∀ X_test : Matrix,
     fit_and_predict (AsFrame X_train) y_train (AsArray X_test) model_type
       param s
     = Err AttributeError).
Proof.
  intros Htrain. split; [|split].
  - intros X_test Htest. eexists _, _.
    split; [by apply drop_columns_date|].
    split; [by apply drop_columns_date|].
    assert (∀ cols : list string,
              "as_of_date" ∉ filter (λ c, c ∉ ["as_of_date"]) cols) as Hgone.
    { intros cols [Hnot _]%list_elem_of_filter. apply Hnot. by left. }
    split; [apply Hgone|]. split; [apply Hgone|].
    unfold fit_and_predict at 1. rewrite decide_True by done.
    unfold drop_date. rewrite !drop_columns_date by done. result_simpl.
    unfold fit_and_predict. cbn [columns]. by rewrite decide_False by apply Hgone.
  - intros X_test Htest. unfold fit_and_predict.
    rewrite decide_True by done. unfold drop_date.
    rewrite (drop_columns_date X_train) by done. result_simpl.
    by rewrite (drop_columns_no_date X_test) by done.
  - intros X_test. unfold fit_and_predict.
    rewrite decide_True by done. unfold drop_date.
    by rewrite drop_columns_date by done.
Qed.

Lemma fit_and_predict_never_sees_the_date_witness :
  (∀ X_test : DataFrame, "as_of_date" ∈ columns X_test →
     ∃ X X',
       drop_columns Examples.three_weeks ["as_of_date"] = Ok X ∧
       drop_columns X_test ["as_of_date"] = Ok X' ∧
       ("as_of_date" ∉ columns X) ∧
       ("as_of_date" ∉ columns X') ∧
       fit_and_predict (H := Examples.stand_ins) (AsFrame Examples.three_weeks)
         [Int 5; Int 8; Int 12; Int 20] (AsFrame X_test) "Lasso"
         [("alpha", HInt 1)] (mkSession Scenarios.two_models 0)
       = fit_and_predict (H := Examples.stand_ins) (AsFrame X)
           [Int 5; Int 8; Int 12; Int 20] (AsFrame X') "Lasso"
           [("alpha", HInt 1)] (mkSession Scenarios.two_models 0)) ∧
  (∀ X_test : DataFrame, "as_of_date" ∉ columns X_test →
     fit_and_predict (H := Examples.stand_ins) (AsFrame Examples.three_weeks)
       [Int 5; Int 8; Int 12; Int 20] (AsFrame X_test) "Lasso"
       [("alpha", HInt 1)] (mkSession Scenarios.two_models 0)
     = Err (KeyError "as_of_date")) ∧
  (∀ X_test : Matrix,
     fit_and_predict (H := Examples.stand_ins) (AsFrame Examples.three_weeks)
       [Int 5; Int 8; Int 12; Int 20] (AsArray X_test) "Lasso"
       [("alpha", HInt 1)] (mkSession Scenarios.two_models 0)
     = Err AttributeError).
Proof.
  apply (fit_and_predict_never_sees_the_date (H := Examples.stand_ins)
           Examples.three_weeks [Int 5; Int 8; Int 12; Int 20] "Lasso"
           [("alpha", HInt 1)] (mkSession Scenarios.two_models 0)).
  by left.
Defined.

(** X16. [simulate] needs at least two weeks of data: on a dataset whose
    rows all fall in one week, dropping the first week leaves nothing, and
    the call raises [IndexError] before any model is involved. *)
Theorem simulate_needs_two_weeks `{Collaborators} (dataset : DataFrame)
    (ws : list Z) (week : Z) (feat_dict : list (string * value))
    (feat_type : string) (best_model : list (string * winner))
    (s : session) :
  dt_week dataset "as_of_date" = Ok ws →
  ws ≠ [] →
  (∀ w, w ∈ ws → w = week) →
  simulate_test dataset feat_dict = Err IndexError ∧
  simulate dataset feat_dict feat_type best_model s = Err IndexError.
Proof.
  intros Hw Hne Hall.
  destruct (HoldoutFacts.iloc_first_is_Ok _ Hne) as [earliest Hfirst].
  destruct (SplitterFacts.dt_week_dates _ _ _ Hw) as (dates & Hd & _).
  assert (simulate_test dataset feat_dict = Err IndexError) as Htest.
  { unfold simulate_test.
    rewrite (SimulateFacts.drop_first_week_Ok _ _ _ Hw Hfirst). result_simpl.
    rewrite (SimulateFacts.getitem_loc_mask _ _ _ _ Hd). result_simpl.
    rewrite (HoldoutFacts.select_none (λ w, bool_decide (w ≠ earliest)));
      [done|].
    apply Forall_forall. intros w Hin. apply bool_decide_eq_false_2.
    intros Hdiff. apply Hdiff.
    rewrite (Hall _ Hin). symmetry. apply Hall.
    by apply HoldoutFacts.iloc_first_elem. }
  split; [exact Htest|]. unfold simulate. by rewrite Htest.
Qed.

Lemma simulate_needs_two_weeks_witness :
  simulate_test Scenarios.one_week [] = Err IndexError ∧
  simulate (H := Examples.stand_ins) Scenarios.one_week [] "naive" []
    (mkSession Scenarios.two_models 0)
  = Err IndexError.
Proof.
  apply (simulate_needs_two_weeks (H := Examples.stand_ins)
           Scenarios.one_week [7; 7] 7).
  - vm_compute. reflexivity.
  - discriminate.
  - intros w. rewrite !elem_of_cons, elem_of_nil. intros [->|[->|[]]]; done.
Defined.

End AssemblyFacts.

(** ** Importances, evaluation on the hold-out set, predictions for one
       state *)

Module ReportFacts.
Import Grid Prep CV Reports.





Lemma zip_fmap_abs (labels : list string) (coefs : list Q) :
  (λ fc : string * Q, (fc.1, Qabs fc.2)) <$> zip labels coefs
  = zip labels (Qabs <$> coefs).
Proof.
  revert coefs. induction labels as [|l labels IH]; intros [|c coefs];
    simpl; [done..|]. by rewrite IH.
Qed.

(** The flags computed on the merged frame are those of the rows of
    [X_test] that have a prediction. *)
Lemma flags_of_rows (rs : list row) (ps : list Q) (flags : list bool) :
  Forall2 (λ (rp : row * Q) flag,
             match rp.1 !! "state_north_carolina" with
             | Some v => Ok (is_one v)
             | None => Err (KeyError "state_north_carolina")
             end = Ok flag) (zip rs ps) flags →
  Forall2 (λ (r : row) flag,
             ∃ v, r !! "state_north_carolina" = Some v ∧ flag = is_one v)
          (take (length ps) rs) flags.
Proof.
  revert rs flags. induction ps as [|p ps IH]; intros rs flags Hf.
  - rewrite zip_with_nil_r in Hf. inversion Hf. constructor.
  - destruct rs as [|r rs]; [inversion Hf; constructor|].
    cbn [zip zip_with] in Hf.
    inversion Hf as [|? flag ? flags' Hr Hrest]; subst.
    cbn [length take]. constructor; [|by apply IH].
    cbn [fst] in Hr. destruct (r !! "state_north_carolina") as [v|]; [|done].
    injection Hr as <-. by exists v.
Qed.

Lemma select_zip_snd {A B C} (g : A * B → C) (rs : list A) (ps : list B)
    (flags : list bool) :
  length flags = length (zip rs ps) →
  (snd ∘ (λ rp : A * B, (g rp, rp.2))) <$> select flags (zip rs ps)
  = select flags ps.
Proof.
  revert rs flags. induction ps as [|p ps IH]; intros rs flags Hlen.
  - rewrite zip_with_nil_r. by destruct flags.
  - destruct rs as [|r rs]; [by destruct flags|].
    destruct flags as [|[] flags]; [done| |];
      cbn [zip zip_with select fmap list_fmap];
      [f_equal|]; apply IH; by injection Hlen.
Qed.

Section reports.
Context `{Collaborators}.
Variable now : nat → Q.
Variable coef_ : estimator → Matrix → list Q → list Q.
Variable sort_values : list (string * Q) → list (string * Q).
Variable plot_predicted_data :
  DataFrame → list value → DataFrame → list value → list Q → result unit.

(** What a call of [get_feature_importance] that returns has done. *)
Lemma get_feature_importance_inv (model : string) (params : kwargs)
    (features : list string) (X_train : design) (y_train : list value)
    (X_test : design) (degree : option Z) (s s' : session)
    (table : list (string * Q)) :
  get_feature_importance coef_ sort_values model params features X_train
    y_train X_test degree s = Ok (table, s') →
  ∃ m X y,
    dict_get (registry s) model = Ok m ∧
    as_matrix X_train = Ok X ∧
    traverse to_number y_train = Ok y ∧
    length (Importance.feature_list features degree)
    = length (coef_ (set_params m params) X y) ∧
    table
    = filter (λ fc : string * Q, above_threshold fc.2 = true)
        (sort_values
           (zip (Importance.feature_list features degree)
                (Qabs <$> coef_ (set_params m params) X y))) ∧
    s' = mkSession (dict_set (registry s) model (set_params m params))
                   (clock s).
Proof.
  unfold get_feature_importance. intros Hg.
  apply SessionFacts.bind_Ok in Hg as (m & Hm & Hg).
  apply SessionFacts.bind_Ok in Hg as (X & HX & Hg).
  apply SessionFacts.bind_Ok in Hg as (y & Hy & Hg).
  apply SessionFacts.bind_Ok in Hg as (X' & HX' & Hg).
  apply SessionFacts.bind_Ok in Hg as (preds & Hfit & Hg).
  apply SessionFacts.bind_Ok in Hg as (frame & Hframe & Hg).
  unfold two_columns in Hframe. case_decide as Hlen; [|done].
  injection Hframe as <-. injection Hg as <- <-.
  exists m, X, y. rewrite zip_fmap_abs. done.
Qed.

(** The predictions that [build_classifier] hands back are those of
    [fit_and_predict], called after the first reading of the clock. *)
Lemma build_classifier_predictions (X_train X_test : design)
    (y_train y_test : list value) (model_type : string) (param : kwargs)
    (model_perf model_perf' : list (string * perf)) (s s' : session)
    (predictions : list Q) :
  build_classifier now X_train y_train X_test y_test model_type param
    model_perf s
  = Ok (model_perf', predictions, s') →
  ∃ s1,
    fit_and_predict X_train y_train X_test model_type param
      (mkSession (registry s) (S (clock s)))
    = Ok (predictions, s1) ∧
    s' = mkSession (registry s1) (S (clock s1)).
Proof.
  unfold build_classifier. intros Hb.
  apply SessionFacts.bind_Ok in Hb as ([preds s1] & Hfit & Hb).
  apply SessionFacts.bind_Ok in Hb as (y & _ & Hb).
  apply SessionFacts.bind_Ok in Hb as (m & _ & Hb).
  apply SessionFacts.bind_Ok in Hb as (model & _ & Hb).
  injection Hb as _ <- <-. by exists s1.
Qed.

Hypothesis sort_values_perm : ∀ l, sort_values l ≡ₚ l.

(** One table per entry of [best_models]. *)
Lemma importance_loop_inv (train test : DataFrame) (states : list string)
    (best_models : list (string * winner)) :
  ∀ (importances importances' : list (list (string * Q))) (s s' : session),
  importance_loop coef_ sort_values train test states best_models
    importances s
  = Ok (importances', s') →
  (registry s').*1 = (registry s).*1 ∧
  (∃ new, importances' = importances ++ new ∧
          Forall2 (λ (table : list (string * Q)) (entry : string * winner),
                     ∃ feat_set,
                       dict_get FEATURES entry.1 = Ok feat_set ∧
                       win_model_type entry.2 ∈ (registry s).*1 ∧
                       Forall (λ fc, fc.1 ∈ Importance.feature_list
                                              (feat_set ++ states)
                                              (Some (win_degree entry.2)))
                              table)
                  new best_models).
Proof.
  induction best_models as [|[feat_type best] rest IH];
    intros importances importances' s s' Hloop.
  - cbn [importance_loop] in Hloop. injection Hloop as <- <-.
    split; [done|]. exists []. split; [by rewrite app_nil_r|constructor].
  - cbn [importance_loop] in Hloop.
    apply SessionFacts.bind_Ok in Hloop as (feat_set & Hfeat & Hloop).
    apply SessionFacts.bind_Ok in Hloop as (m0 & Hm0 & Hloop).
    apply SessionFacts.bind_Ok in Hloop as (train_features & _ & Hloop).
    apply SessionFacts.bind_Ok in Hloop as (train_values & _ & Hloop).
    apply SessionFacts.bind_Ok in Hloop as ([poly1 Xa] & _ & Hloop).
    apply SessionFacts.bind_Ok in Hloop as (ya & _ & Hloop).
    apply SessionFacts.bind_Ok in Hloop as (test_features & _ & Hloop).
    apply SessionFacts.bind_Ok in Hloop as (test_values & _ & Hloop).
    apply SessionFacts.bind_Ok in Hloop as ([poly2 Xb] & _ & Hloop).
    apply SessionFacts.bind_Ok in Hloop as ([table s1] & Hg & Hloop).
    apply get_feature_importance_inv in Hg
      as (m & X & y & Hm & _ & _ & Hlen & Htable & ->).
    assert (win_model_type best ∈ (registry s).*1) as Hkey
      by (by eapply GridFacts.dict_get_elem_of).
    destruct (IH _ _ _ _ Hloop) as (Hreg & new & -> & Hnew).
    cbn [registry] in Hreg, Hnew.
    rewrite GridFacts.dict_set_keys in Hreg, Hnew by done.
    split; [done|]. exists (table :: new).
    split; [by rewrite <- app_assoc|].
    constructor; [|done]. exists feat_set. split; [done|]. split; [done|].
    rewrite Htable. apply Forall_forall.
    intros fc [_ Hin]%list_elem_of_filter.
    rewrite sort_values_perm in Hin. destruct fc as [label c].
    by apply elem_of_zip_l in Hin.
Qed.

End reports.



(** X18. Whenever [compare_feat_import] returns, it has produced one table
    per entry of [best_models], in their order; every entry names a
    feature set of [FEATURES] and an instance of the registry; every
    label of a table is one of the labels of its feature set at the
    winner's degree; the list of folds is not empty and the registry keeps
    its keys. *)
Theorem compare_feat_import_one_table_per_feature_set `{Collaborators}
    (coef_ : estimator → Matrix → list Q → list Q)
    (sort_values : list (string * Q) → list (string * Q))
    (best_models : list (string * winner))
    (temporal_splits : list Splitter.fold) (s s' : session)
    (importances : list (list (string * Q))) :
  (∀ l, sort_values l ≡ₚ l) →
  compare_feat_import coef_ sort_values best_models temporal_splits s
  = Ok (importances, s') →
  ∃ first,
    head temporal_splits = Some first ∧
    (registry s').*1 = (registry s).*1 ∧
    Forall2 (λ (table : list (string * Q)) (entry : string * winner),
               ∃ feat_set,
                 dict_get FEATURES entry.1 = Ok feat_set ∧
                 win_model_type entry.2 ∈ (registry s).*1 ∧
                 Forall (λ fc,
                           fc.1 ∈ Importance.feature_list
                                    (feat_set ++
                                     filter (λ col, is_state_column col = true)
                                            (columns (Splitter.cv_train first)))
                                    (Some (win_degree entry.2)))
                        table)
            importances best_models.
Proof.
  intros Hperm Hcmp. unfold compare_feat_import in Hcmp.
  apply SessionFacts.bind_Ok in Hcmp as (last & Hlast & Hcmp).
  apply SessionFacts.bind_Ok in Hcmp as (first & Hfirst & Hcmp).
  apply (importance_loop_inv coef_ sort_values Hperm) in Hcmp
    as (Hreg & new & -> & Hnew).
  exists first. split; [by destruct temporal_splits; [|injection Hfirst as ->]|].
  split; [done|]. exact Hnew.
Qed.

Lemma compare_feat_import_one_table_per_feature_set_witness :
  ∃ importances s',
    compare_feat_import (H := Examples.stand_ins) Scenarios.unit_coefficients
      Scenarios.sort_by_coefficient Scenarios.naive_winner
      Examples.three_weeks_folds (mkSession Scenarios.two_models 0)
    = Ok (importances, s') ∧
    ∃ first,
      head Examples.three_weeks_folds = Some first ∧
      (registry s').*1 = (Scenarios.two_models).*1 ∧
      Forall2 (λ (table : list (string * Q)) (entry : string * winner),
                 ∃ feat_set,
                   dict_get FEATURES entry.1 = Ok feat_set ∧
                   win_model_type entry.2 ∈ (Scenarios.two_models).*1 ∧
                   Forall (λ fc,
                             fc.1 ∈ Importance.feature_list
                                      (feat_set ++
                                       filter (λ col, is_state_column col = true)
                                              (columns (Splitter.cv_train first)))
                                      (Some (win_degree entry.2)))
                          table)
              importances Scenarios.naive_winner.
Proof.
  eexists _, _. split; [by vm_compute|].
  eapply (compare_feat_import_one_table_per_feature_set
            (H := Examples.stand_ins) Scenarios.unit_coefficients
            Scenarios.sort_by_coefficient Scenarios.naive_winner
            Examples.three_weeks_folds (mkSession Scenarios.two_models 0)).
  - intros l. apply merge_sort_Permutation.
  - by vm_compute.
Defined.

(** X19. Whenever [predict_and_evaluate] returns, its frame has exactly
    one row: the record of the winner of the feature set, with the
    winner's parameters, the text of the configured instance as
    [model_type], and the time between the two readings of the clock as
    [run_time]; the instance of the registry stays configured with the
    winner's parameters. *)
Theorem predict_and_evaluate_one_record `{Collaborators} (now : nat → Q)
    (plot_predicted_data :
       DataFrame → list value → DataFrame → list value → list Q → result unit)
    (train test : DataFrame) (feat_type : string)
    (best_model : list (string * winner)) (drop_features : list string)
    (s s' : session) (table : list perf) :
  predict_and_evaluate now plot_predicted_data train test feat_type
    best_model drop_features s
  = Ok (table, s') →
  ∃ best m entry,
    dict_get best_model feat_type = Ok best ∧
    dict_get (registry s) (win_model_type best) = Ok m ∧
    table = [entry] ∧
    perf_parameters entry = win_params best ∧
    perf_model_type entry = render (set_params m (win_params best)) ∧
    perf_run_time entry = (now (S (clock s)) - now (clock s))%Q ∧
    s' = mkSession (dict_set (registry s) (win_model_type best)
                      (set_params m (win_params best)))
                   (S (S (clock s))).
Proof.
  unfold predict_and_evaluate. intros Hp.
  apply SessionFacts.bind_Ok in Hp as ([[[Xa ya] Xb] yb] & _ & Hp).
  apply SessionFacts.bind_Ok in Hp as ([Xa' Xb'] & _ & Hp).
  apply SessionFacts.bind_Ok in Hp as (best & Hbest & Hp).
  apply SessionFacts.bind_Ok in Hp as (m0 & Hm0 & Hp).
  apply SessionFacts.bind_Ok in Hp as ([[model_perf preds] s1] & Hbuild & Hp).
  apply SessionFacts.bind_Ok in Hp as ([] & _ & Hp).
  injection Hp as <- <-.
  apply SessionFacts.build_classifier_inv in Hbuild
    as (m & entry & Hm & -> & -> & Hparam & Htype & Htime).
  exists best, m, entry. cbn [dict_set fmap list_fmap snd]. done.
Qed.

Lemma predict_and_evaluate_one_record_witness :
  ∃ table s',
    predict_and_evaluate (H := Examples.stand_ins) Examples.seconds
      Scenarios.no_plot Examples.three_weeks Examples.week_17 "naive"
      Scenarios.naive_winner [] (mkSession Scenarios.two_models 0)
    = Ok (table, s') ∧
    ∃ best m entry,
      dict_get Scenarios.naive_winner "naive" = Ok best ∧
      dict_get Scenarios.two_models (win_model_type best) = Ok m ∧
      table = [entry] ∧
      perf_parameters entry = win_params best ∧
      perf_model_type entry
      = render (Collaborators := Examples.stand_ins)
          (set_params m (win_params best)) ∧
      perf_run_time entry = (Examples.seconds 1 - Examples.seconds 0)%Q ∧
      s' = mkSession (dict_set Scenarios.two_models (win_model_type best)
                        (set_params m (win_params best))) 2.
Proof.
  eexists _, _. split; [by vm_compute|].
  eapply (predict_and_evaluate_one_record (H := Examples.stand_ins)
            Examples.seconds Scenarios.no_plot Examples.three_weeks
            Examples.week_17 "naive" Scenarios.naive_winner []
            (mkSession Scenarios.two_models 0)).
  by vm_compute.
Defined.

(** X20. The true values [y_test] given to [pred_north_carolina] decide
    only whether the call fails: two calls that differ in [y_test] alone
    and both return give the same series and leave the same session. The
    series holds, in order, the predictions of [fit_and_predict] for the
    rows of [X_test] whose [state_north_carolina] is 1, so it is never
    longer than the predictions. *)
Theorem pred_north_carolina_ignores_y_test `{Collaborators} (now : nat → Q)
    (X_train : design) (y_train : list value) (X_test : DataFrame)
    (y_test1 y_test2 : list value) (model : string) (param : kwargs)
    (s s1 s2 : session) (out1 out2 : list (option value * Q)) :
  pred_north_carolina now X_train y_train X_test y_test1 model param s
  = Ok (out1, s1) →
  pred_north_carolina now X_train y_train X_test y_test2 model param s
  = Ok (out2, s2) →
  out1 = out2 ∧ s1 = s2 ∧
  ∃ predictions s0 flags,
    fit_and_predict X_train y_train (AsFrame X_test) model param
      (mkSession (registry s) (S (clock s)))
    = Ok (predictions, s0) ∧
    Forall2 (λ (r : row) flag,
               ∃ v, r !! "state_north_carolina" = Some v ∧ flag = is_one v)
            (take (length predictions) (rows X_test)) flags ∧
    out1.*2 = select flags predictions.
Proof.
  unfold pred_north_carolina. intros H1 H2.
  apply SessionFacts.bind_Ok in H1 as ([[mp1 preds1] t1] & Hb1 & H1).
  apply SessionFacts.bind_Ok in H2 as ([[mp2 preds2] t2] & Hb2 & H2).
  apply build_classifier_predictions in Hb1 as (s0 & Hfit1 & ->).
  apply build_classifier_predictions in Hb2 as (s0' & Hfit2 & ->).
  rewrite Hfit1 in Hfit2. injection Hfit2 as <- <-.
  apply SessionFacts.bind_Ok in H1 as (flags & Hflags & H1).
  apply SessionFacts.bind_Ok in H2 as (flags' & Hflags' & H2).
  rewrite Hflags in Hflags'. injection Hflags' as <-.
  injection H1 as <- <-. injection H2 as <- <-.
  split; [done|]. split; [done|].
  exists preds1, s0, flags. split; [done|].
  case_decide as Hcol; [|done].
  apply SimulateFacts.traverse_Forall2 in Hflags. split.
  - by apply flags_of_rows.
  - rewrite <- list_fmap_compose. apply select_zip_snd.
    symmetry. by eapply Forall2_length.
Qed.

Lemma pred_north_carolina_ignores_y_test_witness :
  ∃ out1 out2 s1 s2,
    pred_north_carolina (H := Examples.stand_ins) Examples.seconds
      (AsArray Examples.train_array) [Int 5; Int 8; Int 12; Int 20]
      Scenarios.week_17_by_state [Int 15; Int 29] "Lasso" [("alpha", HInt 1)]
      (mkSession Scenarios.two_models 0)
    = Ok (out1, s1) ∧
    pred_north_carolina (H := Examples.stand_ins) Examples.seconds
      (AsArray Examples.train_array) [Int 5; Int 8; Int 12; Int 20]
      Scenarios.week_17_by_state [Int 0; Int 0] "Lasso" [("alpha", HInt 1)]
      (mkSession Scenarios.two_models 0)
    = Ok (out2, s2) ∧
    out1 = out2 ∧ s1 = s2 ∧
    ∃ predictions s0 flags,
      fit_and_predict (H := Examples.stand_ins) (AsArray Examples.train_array)
        [Int 5; Int 8; Int 12; Int 20] (AsFrame Scenarios.week_17_by_state)
        "Lasso" [("alpha", HInt 1)] (mkSession Scenarios.two_models 1)
      = Ok (predictions, s0) ∧
      Forall2 (λ (r : row) flag,
                 ∃ v, r !! "state_north_carolina" = Some v ∧ flag = is_one v)
              (take (length predictions) (rows Scenarios.week_17_by_state))
              flags ∧
      out1.*2 = select flags predictions.
Proof.
  eexists _, _, _, _. split; [by vm_compute|]. split; [by vm_compute|].
  eapply (pred_north_carolina_ignores_y_test (H := Examples.stand_ins)
            Examples.seconds (AsArray Examples.train_array)
            [Int 5; Int 8; Int 12; Int 20] Scenarios.week_17_by_state
            [Int 15; Int 29] [Int 0; Int 0] "Lasso" [("alpha", HInt 1)]
            (mkSession Scenarios.two_models 0)).
  - by vm_compute.
  - by vm_compute.
Defined.

End ReportFacts.

(** ** The winners of [run_temporal_cv] *)

Module PipelineFacts.
Import Grid Prep CV Selector GridLog Labels.

Lemma select_winner_inv (cv_df : list cv_row) (best_model : cv_row)
    (w : winner) :
  select_winner cv_df = Ok (best_model, w) →
  best_model ∈ cv_df ∧
  ∃ l, model best_model = Some l ∧
       head (String.words l) = Some (win_model_type w) ∧
       win_degree w = degree best_model ∧
       win_params w = parameters best_model.
Proof.
  unfold select_winner. intros Hsel.
  apply SessionFacts.bind_Ok in Hsel as (best_single & _ & Hsel).
  apply SessionFacts.bind_Ok in Hsel as (row & Hfirst & Hsel).
  apply SessionFacts.bind_Ok in Hsel as (l & Hlabel & Hsel).
  apply SessionFacts.bind_Ok in Hsel as (family & Hwords & Hsel).
  injection Hsel as <- <-. split.
  - destruct (filter _ cv_df) as [|r rs] eqn:E; [done|].
    injection Hfirst as ->.
    assert (row ∈ filter (λ r, model r = Some best_single) cv_df) as Hin
      by (rewrite E; by left).
    by apply list_elem_of_filter in Hin as [_ ?].
  - exists l. destruct (model row) as [l'|]; [|done].
    injection Hlabel as ->. split; [done|]. split; [|done].
    destruct (String.words l) as [|x xs]; [done|].
    by injection Hwords as ->.
Qed.

Section winners.
Context `{Collaborators}.
Variable now : nat → Q.
Variable reg0 : list (string * estimator).
Hypothesis class_names :
  ∀ k m, dict_get reg0 k = Ok m → cls m = k ∧ k ≠ "" ∧ all_word k = true.
Hypothesis render_starts_with_class :
  ∀ e, ∃ rest, render e = cls e +:+ "(" +:+ rest.

(** The winner drawn from a row that records an entry of the grid. *)
Lemma winner_of_row (grid : list (string * list kwargs)) (degrees : list Z)
    (row : grid_row) (l : string) (w : winner) :
  row_degree row ∈ degrees →
  from_grid reg0 grid (index row) (perf_parameters (measures row)) →
  label row = Some l →
  head (String.words l) = Some (win_model_type w) →
  win_degree w = row_degree row →
  win_params w = perf_parameters (measures row) →
  win_degree w ∈ degrees ∧
  win_model_type w ∈ reg0.*1 ∧
  ∃ entries, dict_get grid (win_model_type w) = Ok entries ∧
             win_params w ∈ entries.
Proof.
  intros Hdeg (family & m & entries & e & Hm & He & Hp & Hc & Hk) Hl Hw Hd Hpar.
  destruct (class_names _ _ Hm) as (Hcls & Hne & Hword).
  destruct (render_starts_with_class e) as [rest Hrender].
  rewrite Hc, Hcls in Hrender. rewrite Hrender in Hk.
  assert (extract_family (index row) = Some family) as Hfam.
  { rewrite Hk. unfold extract_family. rewrite LabelFacts.app_single.
    rewrite LabelFacts.extract_go_name; [done|done|done|by right]. }
  unfold label in Hl. rewrite Hfam in Hl. cbn in Hl. injection Hl as <-.
  pose proof (LabelFacts.family_of_label family
                ("degree_" +:+ pretty (row_degree row) +:+ " "
                 +:+ str_dict (perf_parameters (measures row))) Hne Hword)
    as Hhead.
  unfold family_of in Hhead. rewrite Hhead in Hw. injection Hw as <-.
  split; [by rewrite Hd|]. split; [by eapply GridFacts.dict_get_elem_of|].
  exists entries. split; [done|]. by rewrite Hpar.
Qed.

(** The loop over the feature sets adds one winner per feature set. *)
Lemma feature_loop_inv (temporal_splits : list Splitter.fold)
    (states : list string) (feature_sets : list (string * list string)) :
  ∀ (best_models best_models' : list (string * winner)) (s s' : session),
  feature_loop now temporal_splits states feature_sets best_models s
  = Ok (best_models', s') →
  NoDup (registry s).*1 →
  same_classes reg0 (registry s) →
  same_classes reg0 (registry s') ∧
  ∃ winners,
    length winners = length feature_sets ∧
    best_models'
    = foldl (λ d kv, dict_set d kv.1 kv.2) best_models
        (zip feature_sets.*1 winners) ∧
    Forall (λ w, win_degree w ∈ DEGREES ∧
                 win_model_type w ∈ reg0.*1 ∧
                 ∃ entries, dict_get GRID (win_model_type w) = Ok entries ∧
                            win_params w ∈ entries) winners.
Proof.
  induction feature_sets as [|[feat_type feat_set] rest IH];
    intros best_models best_models' s s' Hloop Hkeys Hsame.
  - cbn [feature_loop] in Hloop. injection Hloop as <- <-.
    split; [done|]. exists []. split; [done|]. split; [done|constructor].
  - cbn [feature_loop] in Hloop.
    apply SessionFacts.bind_Ok in Hloop as ([cv_df s1] & Hcv & Hloop).
    apply SessionFacts.bind_Ok in Hloop as ([best w] & Hsel & Hloop).
    apply (CVFacts.cross_validate_inv now) in Hcv
      as (Hsame1 & table & _ & -> & Hall); [|done].
    apply select_winner_inv in Hsel
      as (Hin & l & Hl & Hw & Hd & Hpar).
    apply list_elem_of_fmap in Hin as (row & -> & Hrow).
    rewrite Forall_forall in Hall.
    destruct (Hall _ Hrow) as (_ & Hdeg & _ & Hfrom).
    destruct (IH _ _ _ _ Hloop) as (Hsame' & winners & Hlen & -> & HW).
    { by rewrite (proj1 Hsame1). }
    { by eapply CVFacts.same_classes_trans. }
    split; [done|]. exists (w :: winners).
    split; [simpl; by rewrite Hlen|]. split; [done|].
    constructor; [|done].
    apply (winner_of_row GRID DEGREES row l w);
      [exact Hdeg| |exact Hl|exact Hw|exact Hd|exact Hpar].
    eapply CVFacts.from_grid_mono; [exact Hsame|exact Hfrom].
Qed.

End winners.

(** X21. When every instance of the registry is stored under its class
    name and the text of an instance starts with its class name and an
    opening parenthesis, whatever [run_temporal_cv] returns is complete
    and usable: one winner per feature set of [FEATURES], in their order,
    each with a degree of [DEGREES], a [model_type] that is a key of the
    registry, and [params] that are an entry of the grid of that family;
    the instances of the registry are only reconfigured. *)
Theorem run_temporal_cv_winners `{Collaborators} (now : nat → Q)
    (temporal_splits : list Splitter.fold) (s s' : session)
    (best_models : list (string * winner)) :
  NoDup (registry s).*1 →
  (∀ k m, dict_get (registry s) k = Ok m →
          cls m = k ∧ k ≠ "" ∧ all_word k = true) →
  (∀ e, ∃ rest, render e = cls e +:+ "(" +:+ rest) →
  run_temporal_cv now temporal_splits s = Ok (best_models, s') →
  ∃ w1 w2 w3 w4,
    best_models
    = [("naive", w1); ("population", w2); ("policy", w3); ("total", w4)] ∧
    Forall (λ w, win_degree w ∈ DEGREES ∧
                 win_model_type w ∈ (registry s).*1 ∧
                 ∃ entries, dict_get GRID (win_model_type w) = Ok entries ∧
                            win_params w ∈ entries) [w1; w2; w3; w4] ∧
    same_classes (registry s) (registry s').
Proof.
  intros Hkeys Hcls Hrender Hrun. unfold run_temporal_cv in Hrun.
  apply SessionFacts.bind_Ok in Hrun as (first & _ & Hrun).
  apply (feature_loop_inv now (registry s) Hcls Hrender) in Hrun
    as (Hsame & winners & Hlen & -> & HW);
    [|done|apply CVFacts.same_classes_refl].
  destruct winners as [|w1 [|w2 [|w3 [|w4 [|w5 ws]]]]]; try done.
  exists w1, w2, w3, w4. split; [reflexivity|]. done.
Qed.

Lemma run_temporal_cv_winners_witness :
  ∃ best_models s',
    run_temporal_cv (H := Examples.stand_ins) Examples.seconds
      Scenarios.full_folds (mkSession (MODELS Examples.no_defaults) 0)
    = Ok (best_models, s') ∧
    ∃ w1 w2 w3 w4,
      best_models
      = [("naive", w1); ("population", w2); ("policy", w3); ("total", w4)] ∧
      Forall (λ w, win_degree w ∈ DEGREES ∧
                   win_model_type w ∈ (MODELS Examples.no_defaults).*1 ∧
                   ∃ entries, dict_get GRID (win_model_type w) = Ok entries ∧
                              win_params w ∈ entries) [w1; w2; w3; w4] ∧
      same_classes (MODELS Examples.no_defaults) (registry s').
Proof.
  eexists _, _. split; [by vm_compute|].
  eapply (run_temporal_cv_winners (H := Examples.stand_ins) Examples.seconds
            Scenarios.full_folds (mkSession (MODELS Examples.no_defaults) 0)).
  - apply (bool_decide_unpack _). by vm_compute.
  - intros k m Hk%PrepFacts.dict_get_Ok.
    cbn in Hk. rewrite !elem_of_cons, elem_of_nil in Hk.
    destruct Hk as [[= -> ->]|[[= -> ->]|[[= -> ->]|[[= -> ->]|[]]]]];
      by vm_compute.
  - intros e. eexists. reflexivity.
  - by vm_compute.
Defined.

End PipelineFacts.

(** ** What [simulate] trains on *)

Module TrainingWeeks.
Import Grid Prep.

Lemma traverse_week_attr (ws : list Z) :
  traverse week_attr (Timestamp <$> ws) = Ok ws.
Proof.
  induction ws as [|w ws IH]; [done|].
  cbn [fmap list_fmap traverse week_attr].
  change (list_fmap Z value Timestamp ws) with (Timestamp <$> ws).
  by rewrite IH.
Qed.

Lemma dt_week_intro (df : DataFrame) (c : string) (ws : list Z) :
  c ∈ columns df →
  Forall2 (λ (r : row) w, r !! c = Some (Timestamp w)) (rows df) ws →
  dt_week df c = Ok ws.
Proof.
  intros Hc Hrows. unfold dt_week, getitem. rewrite decide_True by done.
  assert (traverse (λ r : row, match r !! c with
                               | Some v => Ok v
                               | None => Err (KeyError c)
                               end) (rows df) = Ok (Timestamp <$> ws)) as ->.
  { induction Hrows as [|r w rs ws' Hr _ IH]; [done|].
    cbn [traverse]. rewrite Hr, IH. done. }
  result_simpl. apply traverse_week_attr.
Qed.

(** Selecting columns that include [c] keeps the dates of the column. *)
Lemma loc_columns_dates (df df' : DataFrame) (cols : list string)
    (c : string) (ws : list Z) :
  loc_columns df cols = Ok df' →
  c ∈ cols →
  dt_week df c = Ok ws →
  dt_week df' c = Ok ws.
Proof.
  unfold loc_columns. destruct (list_find _ cols) as [[? ?]|]; [done|].
  intros [= <-] Hc Hw. apply dt_week_intro; [done|]. cbn [rows].
  apply SimulateFacts.dt_week_lookup in Hw. apply Forall2_fmap_l.
  eapply Forall2_impl; [exact Hw|]. intros r w Hr. cbn.
  by apply map_lookup_filter_Some.
Qed.

(** Merging what is left of the rows with a normalized block keeps the
    dates of the rows, as far as the block reaches. *)
Lemma merge_dates (c : string) (norm_features : list string)
    (rs ns : list row) (ws : list Z) :
  c ∉ norm_features →
  Forall2 (λ (r : row) w, r !! c = Some (Timestamp w)) rs ws →
  Forall2 (λ (r : row) w, r !! c = Some (Timestamp w))
    (zip_with (λ l r : row, l ∪ r)
       ((λ r : row, filter (λ kv, kv.1 ∉ norm_features) r) <$> rs) ns)
    (take (length ns) ws).
Proof.
  intros Hc Hrows. revert ns.
  induction Hrows as [|r w rs ws' Hr _ IH]; intros [|n ns]; cbn;
    try constructor.
  - apply lookup_union_Some_l. by apply map_lookup_filter_Some.
  - apply IH.
Qed.

Section with_collaborators.
Context `{Collaborators}.

Lemma normalize_block_dates (train test train' test' : DataFrame)
    (ws : list Z) :
  normalize_block train test = Ok (train', test') →
  dt_week train "as_of_date" = Ok ws →
  ∃ n, dt_week train' "as_of_date" = Ok (take n ws).
Proof.
  unfold normalize_block. intros Hn Hw.
  apply SessionFacts.bind_Ok in Hn as (norm_features & Hnf & Hn).
  apply SessionFacts.bind_Ok in Hn as (train_block & _ & Hn).
  apply SessionFacts.bind_Ok in Hn as ([train_norm sc] & _ & Hn).
  apply SessionFacts.bind_Ok in Hn as (test_block & _ & Hn).
  apply SessionFacts.bind_Ok in Hn as ([test_norm sc'] & _ & Hn).
  apply SessionFacts.bind_Ok in Hn as (train_rest & Htrain & Hn).
  apply SessionFacts.bind_Ok in Hn as (test_rest & _ & Hn).
  injection Hn as <- _.
  assert ("as_of_date" ∉ norm_features) as Hdate.
  { vm_compute in Hnf. injection Hnf as <-.
    rewrite !not_elem_of_cons. repeat split; try discriminate.
    apply not_elem_of_nil. }
  unfold drop_columns in Htrain.
  destruct (list_find _ norm_features) as [[? ?]|]; [done|].
  injection Htrain as <-. exists (length (rows train_norm)).
  apply dt_week_intro.
  - cbn [columns merge_index]. apply elem_of_app. left.
    apply list_elem_of_filter. split; [done|].
    by eapply HoldoutFacts.dt_week_column.
  - cbn [rows merge_index]. apply merge_dates; [done|].
    by apply SimulateFacts.dt_week_lookup.
Qed.

End with_collaborators.

Lemma elem_of_take {A} (n : nat) (l : list A) (x : A) :
  x ∈ take n l → x ∈ l.
Proof.
  intros Hin. rewrite <- (take_drop n l). apply elem_of_app. by left.
Qed.

Lemma iloc_first_take {A} (n : nat) (l : list A) (x : A) :
  iloc_first (take n l) = Ok x → iloc_first l = Ok x.
Proof. destruct n, l; done. Qed.

Lemma drop_first_week_weeks (df df' : DataFrame) (ws : list Z) :
  dt_week df "as_of_date" = Ok ws →
  drop_first_week df = Ok df' →
  ∃ first,
    iloc_first ws = Ok first ∧
    df' = loc_mask df ((λ w, bool_decide (w ≠ first)) <$> ws).
Proof.
  intros Hw Hdrop. destruct ws as [|first ws].
  - exfalso. destruct (SplitterFacts.dt_week_dates _ _ _ Hw)
      as (dates & Hd & Ht).
    apply traverse_length in Ht. destruct dates; [|done].
    unfold drop_first_week in Hdrop. by rewrite Hd in Hdrop.
  - exists first. split; [done|].
    rewrite (SimulateFacts.drop_first_week_Ok _ _ first Hw) in Hdrop; [|done].
    by injection Hdrop as <-.
Qed.

(** X22. [simulate] drops the first week twice: once itself, and once more
    in [normalize_prep_eval_data], which it calls on what is left. The
    rows that reach the model therefore carry neither the week of the
    first row of the dataset nor the week of the first row that is left
    after the first drop; on a dataset sorted by week these are the two
    earliest weeks. *)
Theorem simulate_trains_without_two_weeks `{Collaborators}
    (dataset : DataFrame) (feat_dict : list (string * value))
    (feat_type : string) (ws : list Z) (remaining test : DataFrame)
    (X_train X_test : DataFrame) (y_train y_test : list value) :
  dt_week dataset "as_of_date" = Ok ws →
  simulate_test dataset feat_dict = Ok (remaining, test) →
  normalize_prep_eval_data remaining test feat_type true
  = Ok (X_train, y_train, X_test, y_test) →
  ∃ first second weeks,
    iloc_first ws = Ok first ∧
    iloc_first (filter (λ w, w ≠ first) ws) = Ok second ∧
    dt_week X_train "as_of_date" = Ok weeks ∧
    ∀ w, w ∈ weeks → w ∈ ws ∧ w ≠ first ∧ w ≠ second.
Proof.
  intros Hw Htest Hprep.
  (* the first drop *)
  unfold simulate_test in Htest.
  apply SessionFacts.bind_Ok in Htest as (remaining0 & Hdrop & Htest).
  assert (remaining0 = remaining) as ->.
  { repeat (apply SessionFacts.bind_Ok in Htest as (? & _ & Htest)).
    by injection Htest as -> _. }
  clear Htest.
  destruct (drop_first_week_weeks _ _ _ Hw Hdrop) as (first & Hfirst & ->).
  clear Hdrop.
  pose proof (SplitterFacts.dt_week_loc_mask _ _ _
                ((λ w, bool_decide (w ≠ first)) <$> ws) Hw) as Hw1.
  rewrite (SimulateFacts.select_fmap_self (λ w, w ≠ first)) in Hw1.
  (* the second drop *)
  unfold normalize_prep_eval_data in Hprep.
  apply SessionFacts.bind_Ok in Hprep as ([train1 test1] & Hnorm & Hprep).
  apply SessionFacts.bind_Ok in Hprep as (train2 & Hdrop2 & Hprep).
  apply SessionFacts.bind_Ok in Hprep as (features & _ & Hprep).
  apply SessionFacts.bind_Ok in Hprep as (Xa & HXa & Hprep).
  apply SessionFacts.bind_Ok in Hprep as (ya & _ & Hprep).
  apply SessionFacts.bind_Ok in Hprep as (Xb & _ & Hprep).
  apply SessionFacts.bind_Ok in Hprep as (yb & _ & Hprep).
  injection Hprep as <- _ _ _.
  destruct (normalize_block_dates _ _ _ _ _ Hnorm Hw1) as [n Hw2].
  destruct (drop_first_week_weeks _ _ _ Hw2 Hdrop2)
    as (second & Hsecond & ->).
  clear Hdrop2.
  pose proof (SplitterFacts.dt_week_loc_mask _ _ _
                ((λ w, bool_decide (w ≠ second)) <$>
                   take n (filter (λ w, w ≠ first) ws)) Hw2) as Hw3.
  rewrite (SimulateFacts.select_fmap_self (λ w, w ≠ second)) in Hw3.
  exists first, second. eexists. split; [done|].
  split; [by eapply iloc_first_take|]. split.
  - eapply loc_columns_dates; [exact HXa| |exact Hw3].
    rewrite !elem_of_app. right. by left.
  - intros w [Hne2 Hin]%list_elem_of_filter.
    apply elem_of_take, list_elem_of_filter in Hin as [Hne1 Hin]. done.
Qed.

Lemma simulate_trains_without_two_weeks_witness :
  ∃ remaining test X_train y_train X_test y_test,
    simulate_test Scenarios.four_reports [] = Ok (remaining, test) ∧
    normalize_prep_eval_data (H := Examples.stand_ins) remaining test
      "naive" true
    = Ok (X_train, y_train, X_test, y_test) ∧
    ∃ first second weeks,
      iloc_first [14; 15; 16; 17] = Ok first ∧
      iloc_first (filter (λ w, w ≠ first) [14; 15; 16; 17]) = Ok second ∧
      dt_week X_train "as_of_date" = Ok weeks ∧
      ∀ w, w ∈ weeks → w ∈ [14; 15; 16; 17] ∧ w ≠ first ∧ w ≠ second.
Proof.
  eexists _, _, _, _, _, _. split; [by vm_compute|]. split; [by vm_compute|].
  eapply (simulate_trains_without_two_weeks (H := Examples.stand_ins)
            Scenarios.four_reports [] "naive" [14; 15; 16; 17]).
  - by vm_compute.
  - by vm_compute.
  - by vm_compute.
Defined.

End TrainingWeeks.

(** ** Reconfiguring a shared instance *)

Module ReplayFacts.
Import Grid.

Lemma foldl_insert_notin (ps : gmap string hyper) (p : kwargs) (k : string) :
  k ∉ p.*1 →
  foldl (λ ps kv, <[kv.1 := kv.2]> ps) ps p !! k = ps !! k.
Proof.
  revert ps. induction p as [|[k' v] p IH]; intros ps Hk; [done|].
  rewrite fmap_cons, not_elem_of_cons in Hk. destruct Hk as [Hne Hk].
  cbn [foldl]. rewrite IH by done. cbn. by rewrite lookup_insert_ne.
Qed.

Lemma foldl_insert_in (ps1 ps2 : gmap string hyper) (p : kwargs)
    (k : string) :
  k ∈ p.*1 →
  foldl (λ ps kv, <[kv.1 := kv.2]> ps) ps1 p !! k
  = foldl (λ ps kv, <[kv.1 := kv.2]> ps) ps2 p !! k.
Proof.
  revert ps1 ps2. induction p as [|[k' v] p IH]; intros ps1 ps2 Hk;
    [by apply elem_of_nil in Hk|].
  cbn [foldl]. destruct (decide (k ∈ p.*1)) as [Hin|Hout]; [by apply IH|].
  rewrite !foldl_insert_notin by done.
  rewrite fmap_cons in Hk. apply elem_of_cons in Hk as [->|?]; [|done].
  cbn. by rewrite !lookup_insert_eq.
Qed.

(** Entries whose keys are all outside [k] leave the parameter [k] as it
    was. *)
Lemma foldl_set_params_notin (m : estimator) (applied : list kwargs)
    (k : string) :
  Forall (λ q : kwargs, k ∉ q.*1) applied →
  params (foldl set_params m applied) !! k = params m !! k.
Proof.
  intros Hall. revert m. induction Hall as [|q applied Hq _ IH]; intros m;
    [done|]. cbn [foldl]. rewrite IH. cbn [set_params params].
  by apply foldl_insert_notin.
Qed.

(** The entries of the grid of one family all name the same parameters. *)
Lemma GRID_same_keys (family : string) (entries : list kwargs) :
  dict_get GRID family = Ok entries →
  ∃ keys, Forall (λ q : kwargs, q.*1 = keys) entries.
Proof.
  intros Hget%PrepFacts.dict_get_Ok. unfold GRID in Hget.
  rewrite !elem_of_cons, elem_of_nil in Hget.
  destruct Hget as [[= _ ->]|[[= _ ->]|[[= _ ->]|[[= _ ->]|[]]]]];
    eexists; repeat constructor.
Qed.

(** X23. With the grid of the module, configuring a shared instance with
    an entry of its family's grid erases whatever earlier entries of that
    grid have left in it: the configuration obtained does not depend on
    which entries were applied before, nor on how many. So the instance
    that [simulate], [predict_and_evaluate] or [compare_feat_import]
    refits with the winner's parameters is configured as it was when it
    won. *)
Theorem grid_entry_erases_history (m : estimator) (family : string)
    (entries : list kwargs) (p : kwargs) (applied applied' : list kwargs) :
  dict_get GRID family = Ok entries →
  p ∈ entries →
  Forall (λ q, q ∈ entries) applied →
  Forall (λ q, q ∈ entries) applied' →
  set_params (foldl set_params m applied) p
  = set_params (foldl set_params m applied') p.
Proof.
  intros Hget Hp Happlied Happlied'.
  destruct (GRID_same_keys _ _ Hget) as [keys Hkeys].
  rewrite Forall_forall in Hkeys.
  assert (∀ history, Forall (λ q, q ∈ entries) history →
            ∀ k, k ∉ p.*1 →
              params (foldl set_params m history) !! k = params m !! k)
    as Hout.
  { intros history Hhist k Hk. apply foldl_set_params_notin.
    eapply Forall_impl; [exact Hhist|]. intros q Hq. cbn.
    by rewrite (Hkeys _ Hq), <- (Hkeys _ Hp). }
  unfold set_params at 1 3. f_equal.
  - by rewrite !CVFacts.foldl_set_params_cls.
  - apply map_eq. intros k. destruct (decide (k ∈ p.*1)) as [Hin|Hnot].
    + by apply foldl_insert_in.
    + rewrite !foldl_insert_notin by done.
      by rewrite (Hout applied), (Hout applied').
Qed.

Lemma grid_entry_erases_history_witness :
  set_params (foldl set_params (mkEstimator "Lasso" ∅) alpha_grid)
    [("alpha", HInt 10); ("random_state", HInt 0)]
  = set_params (foldl set_params (mkEstimator "Lasso" ∅) [])
      [("alpha", HInt 10); ("random_state", HInt 0)].
Proof.
  apply (grid_entry_erases_history (mkEstimator "Lasso" ∅) "Lasso" alpha_grid
           [("alpha", HInt 10); ("random_state", HInt 0)] alpha_grid []).
  - reflexivity.
  - apply (bool_decide_unpack _). by vm_compute.
  - apply (bool_decide_unpack _). by vm_compute.
  - constructor.
Defined.

End ReplayFacts.

(** ** Cross-validation orchestrator: two runs *)

Module RerunFacts.
Import Grid GridLog Prep CV.

Lemma related_bind {A B} (R : A → A → Prop) (R' : B → B → Prop)
    (m1 m2 : result A) (k1 k2 : A → result B) :
  related R m1 m2 →
  (∀ a1 a2, R a1 a2 → related R' (k1 a1) (k2 a2)) →
  related R' (m1 ≫= k1) (m2 ≫= k2).
Proof.
  destruct m1 as [a1|e1], m2 as [a2|e2]; simpl; try done.
  intros HR Hk. by apply Hk.
Qed.

Lemma related_bind_same {A B} (R' : B → B → Prop) (m : result A)
    (k1 k2 : A → result B) :
  (∀ a, m = Ok a → related R' (k1 a) (k2 a)) →
  related R' (m ≫= k1) (m ≫= k2).
Proof. destruct m as [a|e]; simpl; [by intros Hk; apply Hk|done]. Qed.

Lemma strip_dict_set (model_perf : list (string * perf)) (k : string) (p : perf) :
  strip_entry <$> dict_set model_perf k p
  = dict_set (strip_entry <$> model_perf) k (strip_perf p).
Proof.
  induction model_perf as [|[k' p'] mp IH]; simpl; [done|].
  case_decide; [done|]. rewrite fmap_cons. by rewrite IH.
Qed.

Lemma fmap_concat {A B} (f : A → B) (ls : list (list A)) :
  f <$> concat ls = concat (fmap (M := list) (fmap f) ls).
Proof.
  induction ls as [|l ls IH]; [done|]. simpl. by rewrite fmap_app, IH.
Qed.

(** *** Registries that the grid configures alike *)

(** Two registries with the same keys answer a lookup alike. *)
Lemma dict_get_same_keys {V} (d1 d2 : list (string * V)) (k : string) :
  d1.*1 = d2.*1 → related (λ _ _, True) (dict_get d1 k) (dict_get d2 k).
Proof.
  intros Hkeys. destruct (decide (k ∈ d1.*1)) as [Hin|Hout].
  - destruct (GridFacts.dict_get_is_Ok d1 k Hin) as [v1 ->].
    rewrite Hkeys in Hin.
    by destruct (GridFacts.dict_get_is_Ok d2 k Hin) as [v2 ->].
  - rewrite (PrepFacts.dict_get_missing d1 k Hout). rewrite Hkeys in Hout.
    by rewrite (PrepFacts.dict_get_missing d2 k Hout).
Qed.

(** An entry erases what an entry with no other parameters has set. *)
Lemma set_params_overwrite (m : estimator) (q p : kwargs) :
  q.*1 ⊆ p.*1 → set_params (set_params m q) p = set_params m p.
Proof.
  intros Hsub. unfold set_params. cbn [cls params]. f_equal.
  apply map_eq. intros k. destruct (decide (k ∈ p.*1)) as [Hin|Hout].
  - by apply ReplayFacts.foldl_insert_in.
  - assert (k ∉ q.*1) as Hq by (intros Hq; by apply Hout, Hsub).
    by rewrite !ReplayFacts.foldl_insert_notin.
Qed.

Lemma uniform_entries (grid : list (string * list kwargs)) (k : string)
    (entries : list kwargs) (p q : kwargs) :
  uniform grid → dict_get grid k = Ok entries →
  p ∈ entries → q ∈ entries → q.*1 ⊆ p.*1.
Proof.
  intros Hgrid Hget%PrepFacts.dict_get_Ok Hp Hq.
  unfold uniform in Hgrid. rewrite Forall_forall in Hgrid.
  specialize (Hgrid _ Hget). cbn in Hgrid. rewrite Forall_forall in Hgrid.
  specialize (Hgrid _ Hp). rewrite Forall_forall in Hgrid. by apply Hgrid.
Qed.

Lemma alike_refl (grid : list (string * list kwargs))
    (reg : list (string * estimator)) : alike grid reg reg.
Proof.
  split; [done|]. intros k m1 m2 entries p H1 H2 _ _.
  rewrite H1 in H2. by injection H2 as ->.
Qed.

(** Storing one instance under the same key in both registries. *)
Lemma alike_configure (grid : list (string * list kwargs))
    (reg1 reg2 : list (string * estimator)) (k : string) (m : estimator) :
  alike grid reg1 reg2 → k ∈ reg1.*1 →
  alike grid (dict_set reg1 k m) (dict_set reg2 k m).
Proof.
  intros [Hkeys Hsame] Hk. split.
  - rewrite !GridFacts.dict_set_keys; [done| |done]. by rewrite <- Hkeys.
  - intros k' m1 m2 entries p H1 H2 He Hp.
    destruct (decide (k' = k)) as [->|Hne].
    + rewrite GridFacts.dict_get_set_eq in H1, H2. congruence.
    + rewrite GridFacts.dict_get_set_ne in H1, H2 by done. by eapply Hsame.
Qed.

(** Configuring an instance with an entry of its grid leaves the registry
    alike what it was before any entry was applied, as long as the grid is
    uniform. *)
Lemma alike_step (grid : list (string * list kwargs))
    (reg0 reg : list (string * estimator)) (k : string) (m : estimator)
    (entries : list kwargs) (p : kwargs) :
  uniform grid → alike grid reg0 reg →
  dict_get reg k = Ok m → dict_get grid k = Ok entries → p ∈ entries →
  alike grid reg0 (dict_set reg k (set_params m p)).
Proof.
  intros Hgrid [Hkeys Hsame] Hm He Hp. split.
  - rewrite GridFacts.dict_set_keys; [done|].
    by eapply GridFacts.dict_get_elem_of.
  - intros k' m1 m2 entries' q H1 H2 He' Hq.
    destruct (decide (k' = k)) as [->|Hne].
    + rewrite GridFacts.dict_get_set_eq in H2. injection H2 as <-.
      rewrite He in He'. injection He' as <-.
      rewrite set_params_overwrite by (by eapply uniform_entries).
      by eapply Hsame.
    + rewrite GridFacts.dict_get_set_ne in H2 by done. by eapply Hsame.
Qed.

(** *** What one run leaves in the registry *)

Section one_run.
Context `{Collaborators}.
Variable now : nat → Q.
Variable grid : list (string * list kwargs).
(** A property of the registry that configuring an instance with an entry
    of its grid preserves. *)
Variable Inv : list (string * estimator) → Prop.
Hypothesis Inv_step :
  ∀ reg k m entries p,
    Inv reg → dict_get reg k = Ok m → dict_get grid k = Ok entries →
    p ∈ entries → Inv (dict_set reg k (set_params m p)).

Lemma grid_loop_keeps (X_train X_test : design) (y_train y_test : list value)
    (model_type : string) (entries todo : list kwargs) :
  ∀ model_perf model_perf' s s',
  dict_get grid model_type = Ok entries →
  todo ⊆ entries →
  grid_loop now X_train y_train X_test y_test model_type todo model_perf s
  = Ok (model_perf', s') →
  Inv (registry s) → Inv (registry s').
Proof.
  induction todo as [|param todo IH];
    intros model_perf model_perf' s s' He Hsub Hloop HI.
  - cbn [grid_loop] in Hloop. by injection Hloop as _ <-.
  - cbn [grid_loop] in Hloop. SessionFacts.bind_inv Hloop built Hbuild.
    destruct built as [[model_perf1 preds] s1].
    apply SessionFacts.build_classifier_inv in Hbuild
      as (model & entry & Hget & -> & _).
    apply (IH _ _ _ _ He) in Hloop; [done| |].
    + intros q Hq. apply Hsub. by right.
    + cbn [registry]. eapply Inv_step; [done..|]. apply Hsub. by left.
Qed.

Lemma models_loop_keeps (X_train X_test : design) (y_train y_test : list value)
    (keys : list string) :
  ∀ model_perf model_perf' s s',
  models_loop now X_train y_train X_test y_test keys grid model_perf s
  = Ok (model_perf', s') →
  Inv (registry s) → Inv (registry s').
Proof.
  induction keys as [|key keys IH]; intros model_perf model_perf' s s' Hloop HI.
  - cbn [models_loop] in Hloop. by injection Hloop as _ <-.
  - cbn [models_loop] in Hloop. SessionFacts.bind_inv Hloop mdl Hm.
    SessionFacts.bind_inv Hloop entries He.
    SessionFacts.bind_inv Hloop looped Hgrid. destruct looped as [mp s1].
    apply (IH _ _ _ _ Hloop).
    by eapply grid_loop_keeps.
Qed.

Lemma run_grid_search_keeps (X_train X_test : design)
    (y_train y_test : list value) (test_week degree : Z)
    (s s' : session) (rows : list grid_row) :
  run_grid_search now X_train y_train X_test y_test test_week degree grid s
  = Ok (rows, s') →
  Inv (registry s) → Inv (registry s').
Proof.
  unfold run_grid_search. intros Hrun HI.
  SessionFacts.bind_inv Hrun looped Hloop. destruct looped as [mp s1].
  injection Hrun as _ <-. by eapply models_loop_keeps.
Qed.

Lemma degree_loop_keeps (train test : DataFrame) (test_week : Z)
    (features : list string) (target : string) (degrees : list Z) :
  ∀ cv_eval cv_eval' s s',
  degree_loop now train test test_week features target degrees grid cv_eval s
  = Ok (cv_eval', s') →
  Inv (registry s) → Inv (registry s').
Proof.
  induction degrees as [|deg degrees IH]; intros cv_eval cv_eval' s s' Hloop HI.
  - cbn [degree_loop] in Hloop. by injection Hloop as _ <-.
  - cbn [degree_loop] in Hloop. SessionFacts.bind_inv Hloop designs Hd.
    destruct designs as [[X_train X_test] poly].
    SessionFacts.bind_inv Hloop y_train Hy.
    SessionFacts.bind_inv Hloop y_test Hy'.
    SessionFacts.bind_inv Hloop searched Hrun. destruct searched as [found s1].
    apply (IH _ _ _ _ Hloop). by eapply run_grid_search_keeps.
Qed.

Lemma fold_loop_keeps (features : list string) (target : string)
    (degrees : list Z) (temporal_splits : list Splitter.fold) :
  ∀ cv_eval cv_eval' s s',
  fold_loop now temporal_splits features target degrees grid cv_eval s
  = Ok (cv_eval', s') →
  Inv (registry s) → Inv (registry s').
Proof.
  induction temporal_splits as [|cv rest IH];
    intros cv_eval cv_eval' s s' Hloop HI.
  - cbn [fold_loop] in Hloop. by injection Hloop as _ <-.
  - cbn [fold_loop] in Hloop. SessionFacts.bind_inv Hloop blocks Hn.
    destruct blocks as [train test].
    SessionFacts.bind_inv Hloop looped Hdeg. destruct looped as [e1 s1].
    apply (IH _ _ _ _ Hloop). by eapply degree_loop_keeps.
Qed.

Lemma cross_validate_keeps (temporal_splits : list Splitter.fold)
    (features : list string) (target : string) (degrees : list Z)
    (s s' : session) (table : list cv_row) :
  cross_validate now temporal_splits features target degrees grid s
  = Ok (table, s') →
  Inv (registry s) → Inv (registry s').
Proof.
  unfold cross_validate. intros Hcv HI.
  SessionFacts.bind_inv Hcv norm Hnorm.
  SessionFacts.bind_inv Hcv looped Hloop. destruct looped as [cv_eval s1].
  destruct cv_eval as [|l cv_eval]; [done|].
  destruct (concat (l :: cv_eval)); [done|]. injection Hcv as _ <-.
  by eapply fold_loop_keeps.
Qed.

End one_run.

(** *** Two runs side by side *)

Section two_runs.
Context `{Collaborators}.
Variables now1 now2 : nat → Q.
Variable grid : list (string * list kwargs).

Lemma fit_and_predict_alike X_train y_train X_test model_type entries param
    s1 s2 :
  dict_get grid model_type = Ok entries → param ∈ entries →
  alike grid (registry s1) (registry s2) →
  related (λ a b, a.1 = b.1 ∧ alike grid (registry a.2) (registry b.2) ∧
                  dict_get (registry a.2) model_type
                  = dict_get (registry b.2) model_type)
    (fit_and_predict X_train y_train X_test model_type param s1)
    (fit_and_predict X_train y_train X_test model_type param s2).
Proof.
  intros He Hp Hreg. unfold fit_and_predict.
  apply related_bind_same. intros [X X'] _.
  eapply related_bind with (R := λ m1 m2,
    dict_get (registry s1) model_type = Ok m1 ∧
    dict_get (registry s2) model_type = Ok m2).
  { pose proof (dict_get_same_keys (registry s1) (registry s2) model_type
                  (proj1 Hreg)) as Hget.
    by destruct (dict_get (registry s1) model_type),
                (dict_get (registry s2) model_type). }
  intros m1 m2 [H1 H2].
  rewrite (proj2 Hreg _ _ _ _ _ H1 H2 He Hp).
  apply related_bind_same. intros Xm _.
  apply related_bind_same. intros y _.
  apply related_bind_same. intros Xm' _.
  apply related_bind_same. intros predictions _.
  simpl. split; [done|]. split.
  - apply alike_configure; [done|]. by eapply GridFacts.dict_get_elem_of.
  - by rewrite !GridFacts.dict_get_set_eq.
Qed.

Lemma build_classifier_alike X_train y_train X_test y_test model_type entries
    param model_perf1 model_perf2 s1 s2 :
  dict_get grid model_type = Ok entries → param ∈ entries →
  strip_entry <$> model_perf1 = strip_entry <$> model_perf2 →
  alike grid (registry s1) (registry s2) →
  related (λ a b, strip_entry <$> a.1.1 = strip_entry <$> b.1.1 ∧
                  alike grid (registry a.2) (registry b.2))
    (build_classifier now1 X_train y_train X_test y_test model_type param
       model_perf1 s1)
    (build_classifier now2 X_train y_train X_test y_test model_type param
       model_perf2 s2).
Proof.
  intros He Hp Hperf Hreg. unfold build_classifier.
  eapply related_bind.
  { eapply (fit_and_predict_alike _ _ _ _ _ _
              (mkSession (registry s1) (S (clock s1)))
              (mkSession (registry s2) (S (clock s2)))); done. }
  intros [p1 t1] [p2 t2] (Hpred & Ht & Hsame). simpl in Hpred, Ht, Hsame.
  subst p2.
  apply related_bind_same. intros y _.
  apply related_bind_same. intros eval_metrics _.
  cbn [registry]. rewrite Hsame.
  apply related_bind_same. intros model _.
  simpl. split; [|done]. rewrite !strip_dict_set. by rewrite Hperf.
Qed.

Lemma grid_loop_alike X_train y_train X_test y_test model_type entries todo :
  ∀ model_perf1 model_perf2 s1 s2,
  dict_get grid model_type = Ok entries → todo ⊆ entries →
  strip_entry <$> model_perf1 = strip_entry <$> model_perf2 →
  alike grid (registry s1) (registry s2) →
  related (λ a b, strip_entry <$> a.1 = strip_entry <$> b.1 ∧
                  alike grid (registry a.2) (registry b.2))
    (grid_loop now1 X_train y_train X_test y_test model_type todo
       model_perf1 s1)
    (grid_loop now2 X_train y_train X_test y_test model_type todo
       model_perf2 s2).
Proof.
  induction todo as [|param todo IH];
    intros model_perf1 model_perf2 s1 s2 He Hsub Hperf Hreg.
  - simpl. done.
  - cbn [grid_loop]. eapply related_bind.
    { eapply build_classifier_alike; [exact He| |done..]. apply Hsub. by left. }
    intros [[mp1 p1] t1] [[mp2 p2] t2] [Hmp Ht]. simpl in Hmp, Ht.
    apply IH; [done| |done..]. intros q Hq. apply Hsub. by right.
Qed.

Lemma models_loop_alike X_train y_train X_test y_test keys :
  ∀ model_perf1 model_perf2 s1 s2,
  strip_entry <$> model_perf1 = strip_entry <$> model_perf2 →
  alike grid (registry s1) (registry s2) →
  related (λ a b, strip_entry <$> a.1 = strip_entry <$> b.1 ∧
                  alike grid (registry a.2) (registry b.2))
    (models_loop now1 X_train y_train X_test y_test keys grid model_perf1 s1)
    (models_loop now2 X_train y_train X_test y_test keys grid model_perf2 s2).
Proof.
  induction keys as [|key keys IH];
    intros model_perf1 model_perf2 s1 s2 Hperf Hreg.
  - simpl. done.
  - cbn [models_loop].
    eapply related_bind with (R := λ _ _, True).
    { apply dict_get_same_keys, Hreg. }
    intros _ _ _.
    apply related_bind_same. intros entries He.
    eapply related_bind.
    { by eapply grid_loop_alike. }
    intros [mp1 t1] [mp2 t2] [Hmp Ht]. simpl in Hmp, Ht.
    by apply IH.
Qed.

Lemma run_grid_search_alike X_train y_train X_test y_test test_week degree
    s1 s2 :
  alike grid (registry s1) (registry s2) →
  related (λ a b, strip_row <$> a.1 = strip_row <$> b.1 ∧
                  alike grid (registry a.2) (registry b.2))
    (run_grid_search now1 X_train y_train X_test y_test test_week degree grid s1)
    (run_grid_search now2 X_train y_train X_test y_test test_week degree grid s2).
Proof.
  intros Hreg. unfold run_grid_search. rewrite (proj1 Hreg).
  eapply related_bind.
  { by apply models_loop_alike. }
  intros [mp1 t1] [mp2 t2] [Hmp Ht]. simpl in Hmp, Ht.
  simpl. split; [|done].
  rewrite <- !list_fmap_compose.
  etrans; [|etrans; [exact (f_equal (fmap (λ kv : string * perf,
              mkGridRow kv.1 kv.2 test_week degree)) Hmp)|]];
    rewrite <- list_fmap_compose; by apply list_fmap_ext.
Qed.

Lemma degree_loop_alike train test test_week features target degrees :
  ∀ cv_eval1 cv_eval2 s1 s2,
  fmap (M := list) (fmap strip_row) cv_eval1
  = fmap (M := list) (fmap strip_row) cv_eval2 →
  alike grid (registry s1) (registry s2) →
  related (λ a b, fmap (M := list) (fmap strip_row) a.1
                  = fmap (M := list) (fmap strip_row) b.1 ∧
                  alike grid (registry a.2) (registry b.2))
    (degree_loop now1 train test test_week features target degrees grid
       cv_eval1 s1)
    (degree_loop now2 train test test_week features target degrees grid
       cv_eval2 s2).
Proof.
  induction degrees as [|deg degrees IH]; intros cv_eval1 cv_eval2 s1 s2 He Hreg.
  - simpl. done.
  - cbn [degree_loop].
    apply related_bind_same. intros [[X_train X_test] poly] _.
    apply related_bind_same. intros y_train _.
    apply related_bind_same. intros y_test _.
    eapply related_bind.
    { by apply run_grid_search_alike. }
    intros [rows1 t1] [rows2 t2] [Hrows Ht]. simpl in Hrows, Ht.
    apply IH; [|done]. rewrite !fmap_app. cbn. by rewrite He, Hrows.
Qed.

Lemma fold_loop_alike features target degrees temporal_splits :
  ∀ cv_eval1 cv_eval2 s1 s2,
  fmap (M := list) (fmap strip_row) cv_eval1
  = fmap (M := list) (fmap strip_row) cv_eval2 →
  alike grid (registry s1) (registry s2) →
  related (λ a b, fmap (M := list) (fmap strip_row) a.1
                  = fmap (M := list) (fmap strip_row) b.1 ∧
                  alike grid (registry a.2) (registry b.2))
    (fold_loop now1 temporal_splits features target degrees grid cv_eval1 s1)
    (fold_loop now2 temporal_splits features target degrees grid cv_eval2 s2).
Proof.
  induction temporal_splits as [|cv rest IH];
    intros cv_eval1 cv_eval2 s1 s2 He Hreg.
  - simpl. done.
  - cbn [fold_loop].
    apply related_bind_same. intros [train test] _.
    eapply related_bind.
    { by apply degree_loop_alike. }
    intros [e1 t1] [e2 t2] [He' Ht]. simpl in He', Ht.
    by apply IH.
Qed.

Lemma without_run_time_relabel (r : grid_row) :
  without_run_time (relabel r) = without_run_time (relabel (strip_row r)).
Proof. by destruct r as [? [] ? ?]. Qed.

Lemma relabel_rows (rows1 rows2 : list grid_row) :
  strip_row <$> rows1 = strip_row <$> rows2 →
  without_run_time <$> (relabel <$> rows1)
  = without_run_time <$> (relabel <$> rows2).
Proof.
  revert rows2. induction rows1 as [|r1 rows1 IH]; intros [|r2 rows2]; try done.
  rewrite !fmap_cons. intros Heq.
  pose proof (f_equal head Heq) as Hr. apply (inj Some) in Hr.
  pose proof (f_equal tail Heq) as Hrows. cbn [tail] in Hrows.
  f_equal; [|by apply IH].
  by rewrite (without_run_time_relabel r1), (without_run_time_relabel r2), Hr.
Qed.

(** Two runs that start from registries the grid configures alike end
    alike: the same exception, or the same table up to [run_time]. *)
Lemma cross_validate_alike temporal_splits features target degrees s1 s2 :
  alike grid (registry s1) (registry s2) →
  related (λ a b, without_run_time <$> a.1 = without_run_time <$> b.1 ∧
                  alike grid (registry a.2) (registry b.2))
    (cross_validate now1 temporal_splits features target degrees grid s1)
    (cross_validate now2 temporal_splits features target degrees grid s2).
Proof.
  intros Hreg. unfold cross_validate.
  apply related_bind_same. intros _ _.
  eapply related_bind.
  { by apply fold_loop_alike. }
  intros [e1 t1] [e2 t2] [He Ht]. simpl in He, Ht.
  destruct e1 as [|l1 e1], e2 as [|l2 e2]; try done.
  assert (strip_row <$> concat (l1 :: e1) = strip_row <$> concat (l2 :: e2))
    as Hrows by (by rewrite !fmap_concat, He).
  destruct (concat (l1 :: e1)) as [|r1 rows1], (concat (l2 :: e2)) as [|r2 rows2];
    try done.
  lazy beta iota delta [related fst snd].
  split; [by apply relabel_rows|done].
Qed.

End two_runs.

(** C7. Two runs of the orchestrator on the same folds, features, target,
    degrees and grid, under any two clocks. When both start from the same
    state of the shared instances they end alike: both raise the same
    exception, or both return and the two tables have the same rows in the
    same order with the same labels, metrics, parameters, test weeks and
    degrees, and differ at most in [run_time]. When the second run starts
    from the instances as the first run left them and every entry of a
    family's grid names the same parameters, the second run returns too,
    and its table is that of the first run up to [run_time]; the instances
    are again left so that a further run returns that table. The model
    families are functions of their inputs, so they carry no randomness. *)
Theorem cross_validate_twice `{Collaborators} (now1 now2 : nat → Q)
    (temporal_splits : list Splitter.fold) (features : list string)
    (target : string) (degrees : list Z) (grid : list (string * list kwargs))
    (s : session) :
  related (λ a b, without_run_time <$> a.1 = without_run_time <$> b.1 ∧
                  alike grid (registry a.2) (registry b.2))
    (cross_validate now1 temporal_splits features target degrees grid s)
    (cross_validate now2 temporal_splits features target degrees grid s) ∧
  (uniform grid →
   ∀ table1 s1,
     cross_validate now1 temporal_splits features target degrees grid s
     = Ok (table1, s1) →
     ∃ table2 s2,
       cross_validate now2 temporal_splits features target degrees grid s1
       = Ok (table2, s2) ∧
       without_run_time <$> table1 = without_run_time <$> table2 ∧
       alike grid (registry s) (registry s2)).
Proof.
  split.
  - apply cross_validate_alike, alike_refl.
  - intros Hgrid table1 s1 Hrun.
    assert (∀ reg k m entries p,
              alike grid (registry s) reg → dict_get reg k = Ok m →
              dict_get grid k = Ok entries → p ∈ entries →
              alike grid (registry s) (dict_set reg k (set_params m p)))
      as Hstep.
    { intros reg k m entries p. by apply alike_step. }
    assert (alike grid (registry s) (registry s1)) as Hs1.
    { eapply (cross_validate_keeps now1 grid (alike grid (registry s)) Hstep);
        [exact Hrun|apply alike_refl]. }
    pose proof (cross_validate_alike now1 now2 grid temporal_splits features
                  target degrees s s1 Hs1) as Hrel.
    rewrite Hrun in Hrel.
    destruct (cross_validate now2 temporal_splits features target degrees
                grid s1) as [[table2 s2]|e] eqn:Hrun2; [|done].
    cbn in Hrel. destruct Hrel as [Htab _].
    exists table2, s2. split; [done|]. split; [done|].
    by eapply (cross_validate_keeps now2 grid (alike grid (registry s)) Hstep).
Qed.

Lemma cross_validate_twice_witness :
  ∃ table1 s1 table2 s2,
    cross_validate (H := Examples.stand_ins) Examples.seconds
      Examples.three_weeks_folds (Examples.naive_features ++ ["state_ohio"])
      TARGET DEGREES GRID (mkSession (MODELS Examples.no_defaults) 0)
    = Ok (table1, s1) ∧
    cross_validate (H := Examples.stand_ins) (λ n, 3 * Examples.seconds n)%Q
      Examples.three_weeks_folds (Examples.naive_features ++ ["state_ohio"])
      TARGET DEGREES GRID s1
    = Ok (table2, s2) ∧
    without_run_time <$> table1 = without_run_time <$> table2 ∧
    alike GRID (MODELS Examples.no_defaults) (registry s2).
Proof.
  assert (∃ table1 s1,
            cross_validate (H := Examples.stand_ins) Examples.seconds
              Examples.three_weeks_folds
              (Examples.naive_features ++ ["state_ohio"])
              TARGET DEGREES GRID (mkSession (MODELS Examples.no_defaults) 0)
            = Ok (table1, s1)) as (table1 & s1 & Hrun).
  { eexists _, _. by vm_compute. }
  assert (uniform GRID) as Hgrid.
  { apply (bool_decide_unpack _). by vm_compute. }
  destruct (proj2 (cross_validate_twice (H := Examples.stand_ins)
                     Examples.seconds (λ n, 3 * Examples.seconds n)%Q
                     Examples.three_weeks_folds
                     (Examples.naive_features ++ ["state_ohio"]) TARGET
                     DEGREES GRID (mkSession (MODELS Examples.no_defaults) 0))
              Hgrid table1 s1 Hrun)
    as (table2 & s2 & Hrun2 & Htab & Hreg).
  exists table1, s1, table2, s2.
  split; [exact Hrun|]. split; [exact Hrun2|]. split; [exact Htab|exact Hreg].
Defined.

(** With a grid whose second entry sets a parameter that the first leaves
    alone, the second run does not return the table of the first: the
    first run configures the shared instance twice differently and returns
    two rows; the second run starts from the instance as it was left,
    configures it twice alike and returns one row. *)
Lemma second_run_returns_another_table :
  match cross_validate (H := Examples.stand_ins) Examples.seconds
          Examples.three_weeks_folds (Examples.naive_features ++ ["state_ohio"])
          TARGET [1] Scenarios.uneven_grid
          (mkSession Scenarios.lasso_only 0) with
  | Ok (table1, s1) =>
      match cross_validate (H := Examples.stand_ins) Examples.seconds
              Examples.three_weeks_folds
              (Examples.naive_features ++ ["state_ohio"])
              TARGET [1] Scenarios.uneven_grid s1 with
      | Ok (table2, _) =>
          length table1 = 2%nat ∧ length table2 = 1%nat ∧
          without_run_time <$> table1 ≠ without_run_time <$> table2
      | Err _ => False
      end
  | Err _ => False
  end.
Proof. vm_compute. repeat split; discriminate. Qed.

(** On the example data the orchestrator returns 75 rows (one fold, three
    degrees, 25 combinations) after 150 readings of the clock, and a
    slower clock changes nothing but [run_time]. *)
Example cross_validate_three_weeks :
  match cross_validate (H := Examples.stand_ins) Examples.seconds
          Examples.three_weeks_folds (Examples.naive_features ++ ["state_ohio"])
          TARGET DEGREES GRID (mkSession (MODELS Examples.no_defaults) 0),
        cross_validate (H := Examples.stand_ins) (λ n, 3 * Examples.seconds n)%Q
          Examples.three_weeks_folds (Examples.naive_features ++ ["state_ohio"])
          TARGET DEGREES GRID (mkSession (MODELS Examples.no_defaults) 0) with
  | Ok (table, s), Ok (table', _) =>
      length table = 75%nat ∧ clock s = 150%nat ∧
      run_time <$> table ≠ run_time <$> table' ∧
      without_run_time <$> table = without_run_time <$> table'
  | _, _ => False
  end.
Proof. vm_compute. repeat split; discriminate. Qed.

(** And a second run from the instances as the first run left them
    returns the same 75 rows. *)
Example cross_validate_three_weeks_again :
  match cross_validate (H := Examples.stand_ins) Examples.seconds
          Examples.three_weeks_folds (Examples.naive_features ++ ["state_ohio"])
          TARGET DEGREES GRID (mkSession (MODELS Examples.no_defaults) 0) with
  | Ok (table, s) =>
      match cross_validate (H := Examples.stand_ins) Examples.seconds
              Examples.three_weeks_folds
              (Examples.naive_features ++ ["state_ohio"])
              TARGET DEGREES GRID s with
      | Ok (table', _) =>
          without_run_time <$> table = without_run_time <$> table'
      | Err _ => False
      end
  | Err _ => False
  end.
Proof. by vm_compute. Qed.

End RerunFacts.
